(** * sqle: audit results, driver registry and the statement inspector

    A shallow embedding of two Go files of the repository:

    - package [driver] (the registry [drivers], [NewDriver], and the
      [AuditResult] accumulator with [Level], [Message] and [Add]);
    - package [inspector], file [advisor.go] ([Inspector.Advise] and the rule
      check functions [checkPrimaryKey], [checkNewObjectName], [checkIndex],
      [checkIfNotExist], [disableDropStmt]).

    Go strings are byte strings ([string]); [len] is [String.length].  Go maps
    keyed by strings are [gmap string _]; a missing key reads as [None], which
    is Go's [ok = false].  Methods on a pointer receiver are functions that
    take the receiver's state and return the new one. *)

From Stdlib Require Import ZArith List String Ascii Bool Lia.
From stdpp Require Import gmap strings.
Import ListNotations.

Open Scope string_scope.
Open Scope list_scope.

(** ** Strings: the few functions of [strings], [regexp] used by the code *)

Module GoStrings.

(** [strings.Join(elems, sep)]. *)
Definition Join (elems : list string) (sep : string) : string :=
  String.concat sep elems.

(** [strings.HasPrefix(s, p)]. *)
Definition HasPrefix (s p : string) : bool := String.prefix p s.

(** [strings.Contains(s, sub)]: [sub] starts at some position of [s]. *)
Fixpoint Contains (s sub : string) : bool :=
  String.prefix sub s ||
  match s with
  | EmptyString => false
  | String _ s' => Contains s' sub
  end.

(** Number of characters of a UTF-8 encoded string: the bytes that are not
    continuation bytes (10xxxxxx).  [len] counts bytes, so a name has at
    least as many bytes as characters. *)
Definition is_continuation (c : ascii) : bool :=
  (Z.land (Z.of_N (N_of_ascii c)) 192 =? 128)%Z.

Fixpoint characters (s : string) : nat :=
  match s with
  | EmptyString => 0
  | String c s' => (if is_continuation c then 0 else 1) + characters s'
  end.

End GoStrings.

(** ** The regular expressions of [AuditResult.Message]

    The pattern handed to [regexp.MatchString] is built with [fmt.Sprintf]
    from the level constants.  It uses three constructs of the RE2 syntax
    only: the anchor [^], the escape [\c] for a literal character, and the
    alternation [|], which binds weaker than concatenation.  The level
    constants are plain words (letters), so that no other operator occurs. *)

Module Regexp.

Inductive item :=
| Bol                 (* ^ : beginning of the text *)
| Chr (c : ascii).    (* a literal character *)

(** An alternation of concatenations, as the pattern parses. *)
Definition regex := list (list item).

Fixpoint parse_from (cur : list item) (p : string) : regex :=
  match p with
  | EmptyString => [rev cur]
  | String "\" (String c p') => parse_from (Chr c :: cur) p'
  | String "|" p' => rev cur :: parse_from [] p'
  | String "^" p' => parse_from (Bol :: cur) p'
  | String c p' => parse_from (Chr c :: cur) p'
  end.

Definition parse (p : string) : regex := parse_from [] p.

(** [match_here start its s]: the concatenation [its] matches a prefix of
    [s]; [start] tells whether [s] is the whole text. *)
Fixpoint match_here (start : bool) (its : list item) (s : string) : bool :=
  match its with
  | [] => true
  | Bol :: its' => start && match_here start its' s
  | Chr c :: its' =>
      match s with
      | EmptyString => false
      | String d s' => Ascii.eqb c d && match_here false its' s'
      end
  end.

Fixpoint search (start : bool) (re : regex) (s : string) : bool :=
  existsb (fun its => match_here start its s) re ||
  match s with
  | EmptyString => false
  | String _ s' => search false re s'
  end.

(** [regexp.MatchString(pattern, s)]: [s] contains a match of [pattern]. *)
Definition MatchString (pattern s : string) : bool :=
  search true (parse pattern) s.

(** The operators of the RE2 syntax; a plain word has none of them. *)
Definition is_meta (c : ascii) : bool :=
  existsb (Ascii.eqb c)
    (list_ascii_of_string "\.+*?()|[]{}^$").

Definition plain (w : string) : bool :=
  forallb (fun c => negb (is_meta c)) (list_ascii_of_string w).

(** The literal characters of a word, as items. *)
Definition lits (w : string) : list item := map Chr (list_ascii_of_string w).

End Regexp.

(** ** Package [driver] *)

Module Driver.

Import GoStrings.

(** *** Errors

    The two dynamic types of [error] that the package produces:
    [errors.New] / [fmt.Errorf] values, which carry a text only, and the
    declared type [ErrDriverNotSupported]. *)
Inductive error :=
| errorString (s : string)
| ErrDriverNotSupported (driverTyp : string).

(** The [Error] method of [ErrDriverNotSupported] and of an [fmt.Errorf]
    value. *)
Definition Error (e : error) : string :=
  match e with
  | errorString s => s
  | ErrDriverNotSupported driverTyp =>
      "driver type " +:+ driverTyp +:+ " is not supported"
  end.

(** A type assertion of [err] to the pointer type of [ErrDriverNotSupported]
    (or [errors.As]). *)
Definition is_ErrDriverNotSupported (e : error) : bool :=
  match e with
  | ErrDriverNotSupported _ => true
  | errorString _ => false
  end.

(** *** The registry *)

(** [model.Instance]: the field read here is [DbType]. *)
Record Instance := { DbType : string }.

Section Registry.

(** [Driver] is an interface; its implementations are the plugins. *)
Variable DriverT : Type.

(** [type handler func(log, inst, schema) (Driver, error)]; the logger
    carries no data of the model. *)
Definition handler : Type :=
  Instance -> string -> option DriverT * option error.

(** [Register]: a name already bound panics; otherwise the handler is bound
    and the rules are appended to the catalogue. *)
Definition Register {Rule : Type} (drivers : gmap string handler)
    (rules : list Rule) (name : string) (h : handler) (rs : list Rule)
  : option (gmap string handler * list Rule) :=
  match drivers !! name with
  | Some _ => None                                   (* panic *)
  | None => Some (<[name := h]> drivers, rules ++ rs)
  end.

(** [NewDriver]: the read lock has no effect on the value returned. *)
Definition NewDriver (drivers : gmap string handler)
    (inst : Instance) (schema : string) : option DriverT * option error :=
  match drivers !! DbType inst with
  | None =>
      (None, Some (errorString
         ("driver type " +:+ DbType inst +:+ " is not supported")))
  | Some d => d inst schema
  end.

End Registry.

(** *** Audit results *)

Record auditResult := { level : string; message : string }.

Record AuditResult := { results : list auditResult }.

Definition NewInspectResults : AuditResult := {| results := [] |}.

Section Levels.

(** The constants [model.RuleLevelNormal], [model.RuleLevelNotice],
    [model.RuleLevelWarn] and [model.RuleLevelError] are declared in package
    [model], which is not embedded: they are parameters here. *)
Variables RuleLevelNormal RuleLevelNotice RuleLevelWarn RuleLevelError : string.

(** Modelled from the spec: [model.RuleLevelMap] is declared in package
    [model], which is not embedded.  The spec orders the levels
    Normal < Notice < Warn < Error; the map gives them the ranks 0 to 3. *)
Definition RuleLevelMap : gmap string Z :=
  {[ RuleLevelNormal := 0%Z; RuleLevelNotice := 1%Z;
     RuleLevelWarn := 2%Z; RuleLevelError := 3%Z ]}.

(** [m[k]] on a [map[string]int]: a missing key reads as 0. *)
Definition index (m : gmap string Z) (k : string) : Z := default 0%Z (m !! k).

(** [Level]: the loop keeps the first level of the highest rank. *)
Definition Level (rs : AuditResult) : string :=
  fold_left
    (fun highest result =>
       if (index RuleLevelMap highest <? index RuleLevelMap result.(level))%Z
       then result.(level) else highest)
    rs.(results) RuleLevelNormal.

(** The pattern of [Message], as [fmt.Sprintf] builds it. *)
Definition pattern : string :=
  "^\[" +:+ RuleLevelError +:+ "|" +:+ RuleLevelWarn +:+ "|" +:+
  RuleLevelNotice +:+ "|" +:+ RuleLevelNormal +:+ "|" +:+ "osc" +:+ "\]".

(** The body of the loop of [Message]: the line of one finding. *)
Definition line (result : auditResult) : string :=
  if Regexp.MatchString pattern result.(message)
  then result.(message)
  else "[" +:+ result.(level) +:+ "]" +:+ result.(message).

(** The slice [messages] when the loop of [Message] ends. *)
Definition messages (rs : AuditResult) : list string :=
  map line rs.(results).

Definition newline : string := String "010" EmptyString.

Definition Message (rs : AuditResult) : string :=
  Join (messages rs) newline.

(** [Add]: [args] are values of any type, formatted by [fmt.Sprintf], which
    is a parameter. *)
Variable arg : Type.
Variable Sprintf : string -> list arg -> string.

Definition Add (rs : AuditResult) (level message : string) (args : list arg)
  : AuditResult :=
  if String.eqb level "" || String.eqb message "" then rs
  else {| results := rs.(results) ++
            [{| level := level; message := Sprintf message args |}] |}.

End Levels.

End Driver.

(** ** The statement tree of the parser

    The part of [github.com/pingcap/tidb/ast] and [.../mysql] that
    [advisor.go] reads.  A Go struct is a record in a module of its name, so
    that the fields keep their names; a nil slice is the empty list.  The
    pointers that the parser sets in every statement ([stmt.Table],
    [col.Name], [col.Tp]) are plain fields; [spec.NewTable] and
    [spec.Constraint], which it sets for some kinds of [spec] only, are
    [option]s. *)

Module Mysql.

(** Column types ([mysql.TypeLong] is INT, [mysql.TypeLonglong] BIGINT). *)
Definition TypeLong : Z := 3.
Definition TypeLonglong : Z := 8.

Definition UnsignedFlag : Z := 32.

(** [mysql.HasUnsignedFlag]. *)
Definition HasUnsignedFlag (flag : Z) : bool :=
  (Z.land flag UnsignedFlag >? 0)%Z.

End Mysql.

Module Ast.

Inductive ColumnOptionType :=
| ColumnOptionNoOption | ColumnOptionPrimaryKey | ColumnOptionNotNull
| ColumnOptionAutoIncrement | ColumnOptionDefaultValue | ColumnOptionUniqKey
| ColumnOptionNull | ColumnOptionOnUpdate | ColumnOptionFulltext
| ColumnOptionComment | ColumnOptionGenerated | ColumnOptionReference.

Inductive ConstraintType :=
| ConstraintNoConstraint | ConstraintPrimaryKey | ConstraintKey
| ConstraintIndex | ConstraintUniq | ConstraintUniqKey | ConstraintUniqIndex
| ConstraintForeignKey | ConstraintFulltext.

Inductive AlterTableType :=
| AlterTableOption | AlterTableAddColumns | AlterTableAddConstraint
| AlterTableDropColumn | AlterTableDropPrimaryKey | AlterTableDropIndex
| AlterTableDropForeignKey | AlterTableModifyColumn | AlterTableChangeColumn
| AlterTableRenameTable | AlterTableAlterColumn | AlterTableLock
| AlterTableAlgorithm | AlterTableRenameIndex | AlterTableForce.

#[global] Instance ColumnOptionType_eq_dec : EqDecision ColumnOptionType.
Proof. solve_decision. Defined.
#[global] Instance ConstraintType_eq_dec : EqDecision ConstraintType.
Proof. solve_decision. Defined.

(** [types.FieldType]. *)
Module FieldType.
Record t := { Tp : Z; Flag : Z; Flen : Z }.
End FieldType.

Module ColumnOption.
Record t := { Tp : ColumnOptionType }.
End ColumnOption.

(** [ast.ColumnDef]; [Name] stands for [col.Name.Name.String()]. *)
Module ColumnDef.
Record t := {
  Name : string;
  Tp : FieldType.t;
  Options : list ColumnOption.t
}.
End ColumnDef.

(** [ast.IndexColName]; [Column] stands for [Column.Name.String()]. *)
Module IndexColName.
Record t := { Column : string }.
End IndexColName.

Module Constraint.
Record t := {
  Tp : ConstraintType;
  Name : string;
  Keys : list IndexColName.t
}.
End Constraint.

(** [ast.TableName]; [Name] stands for [Name.String()]. *)
Module TableName.
Record t := { Schema : string; Name : string }.
End TableName.

Module CreateTableStmt.
Record t := {
  IfNotExists : bool;
  Table : TableName.t;
  Cols : list ColumnDef.t;
  Constraints : list Constraint.t
}.
End CreateTableStmt.

(** [ast.AlterTableSpec]; [ToKey] stands for [ToKey.String()]. *)
Module AlterTableSpec.
Record t := {
  Tp : AlterTableType;
  NewTable : option TableName.t;
  NewColumns : list ColumnDef.t;
  Constraint : option Constraint.t;
  ToKey : string
}.
End AlterTableSpec.

Module AlterTableStmt.
Record t := { Table : TableName.t; Specs : list AlterTableSpec.t }.
End AlterTableStmt.

Module CreateIndexStmt.
Record t := {
  IndexName : string;
  Table : TableName.t;
  IndexColNames : list IndexColName.t
}.
End CreateIndexStmt.

Module CreateDatabaseStmt.
Record t := { Name : string }.
End CreateDatabaseStmt.

(** [ast.StmtNode]: one constructor for each statement type that a type
    switch of [advisor.go] names, and [OtherStmt] for the rest. *)
Inductive StmtNode :=
| CreateTable (stmt : CreateTableStmt.t)
| AlterTable (stmt : AlterTableStmt.t)
| CreateIndex (stmt : CreateIndexStmt.t)
| CreateDatabase (stmt : CreateDatabaseStmt.t)
| DropDatabase
| DropTable
| Select
| Insert
| Update
| Delete
| Use
| OtherStmt.

(** The interfaces [ast.DDLNode] and [ast.DMLNode]: the statement types that
    embed [ddlNode], those that embed [dmlNode], and the others. *)
Inductive kind := DDLNode | DMLNode | NoKind.

Definition kind_of (node : StmtNode) : kind :=
  match node with
  | CreateTable _ | AlterTable _ | CreateIndex _ | CreateDatabase _
  | DropDatabase | DropTable => DDLNode
  | Select | Insert | Update | Delete => DMLNode
  | Use | OtherStmt => NoKind
  end.

End Ast.

(** ** Package [inspector], file [advisor.go] *)

Module Inspector.

Import GoStrings Mysql Ast.

(** The rule names passed to [addResult] are string constants declared in
    another file of the package.  Each is modelled by the string that
    spells its identifier: what matters is that different rules have
    different names. *)
Definition DDL_CHECK_PRIMARY_KEY_EXIST : string := "DDL_CHECK_PRIMARY_KEY_EXIST".
Definition DDL_CHECK_PRIMARY_KEY_TYPE : string := "DDL_CHECK_PRIMARY_KEY_TYPE".
Definition DDL_CHECK_OBJECT_NAME_LENGTH : string := "DDL_CHECK_OBJECT_NAME_LENGTH".
Definition DDL_DISABLE_USING_KEYWORD : string := "DDL_DISABLE_USING_KEYWORD".
Definition DDL_CHECK_INDEX_COUNT : string := "DDL_CHECK_INDEX_COUNT".
Definition DDL_CHECK_COMPOSITE_INDEX_MAX : string := "DDL_CHECK_COMPOSITE_INDEX_MAX".
Definition DDL_CREATE_TABLE_NOT_EXIST : string := "DDL_CREATE_TABLE_NOT_EXIST".
Definition DDL_DISABLE_DROP_STATEMENT : string := "DDL_DISABLE_DROP_STATEMENT".

(** [model.Rule]. *)
Record Rule := { Name : string; Level : string }.

(** One statement of the batch: the element type of [i.SqlArray].  The loop
    of [Advise] assigns to the fields of its range variable, and those
    assignments are the only way a result reaches the caller: the elements
    are pointers, and the records they point to are shared with the
    caller. *)
Record SqlRecord := {
  Sql : string;
  InspectStatus : string;
  InspectLevel : string;
  InspectResult : string
}.

(** A finding of the accumulator [i.Results]: the rule it was added for and
    the arguments of its message. *)
Record Finding := { rule : string; args : list string }.

(** How a call ends: it returns an [error] (nil is [None]), or it panics
    on a nil pointer. *)
Inductive status (E : Type) :=
| Returned (err : option E)
| Panicked.
Arguments Returned {E} err.
Arguments Panicked {E}.

Section Inspector.

(** [E] is the type of the errors that cross [Advise]; [Ctx] holds the
    fields of the [Inspector] that [advisor.go] reaches through helpers
    only (the connection, the schema context, [alterTableStmts]). *)
Variables (E Ctx : Type).

Record Inspector := {
  DbType : string;                 (* i.Db.DbType *)
  Rules : list Rule;
  isDDLStmt : bool;
  isDMLStmt : bool;
  currentRule : Rule;
  Results : list Finding;
  ctx : Ctx
}.

Definition set_isDDLStmt (i : Inspector) (b : bool) : Inspector :=
  {| DbType := i.(DbType); Rules := i.(Rules); isDDLStmt := b;
     isDMLStmt := i.(isDMLStmt); currentRule := i.(currentRule);
     Results := i.(Results); ctx := i.(ctx) |}.

Definition set_isDMLStmt (i : Inspector) (b : bool) : Inspector :=
  {| DbType := i.(DbType); Rules := i.(Rules); isDDLStmt := i.(isDDLStmt);
     isDMLStmt := b; currentRule := i.(currentRule);
     Results := i.(Results); ctx := i.(ctx) |}.

Definition set_currentRule (i : Inspector) (r : Rule) : Inspector :=
  {| DbType := i.(DbType); Rules := i.(Rules); isDDLStmt := i.(isDDLStmt);
     isDMLStmt := i.(isDMLStmt); currentRule := r;
     Results := i.(Results); ctx := i.(ctx) |}.

Definition set_Results (i : Inspector) (rs : list Finding) : Inspector :=
  {| DbType := i.(DbType); Rules := i.(Rules); isDDLStmt := i.(isDDLStmt);
     isDMLStmt := i.(isDMLStmt); currentRule := i.(currentRule);
     Results := rs; ctx := i.(ctx) |}.

(** [newInspectResults()]. *)
Definition newInspectResults : list Finding := [].

(** Modelled from the spec: [addResult] is a method of the [Inspector]
    declared in another file of the package.  The spec has a check function
    add its findings to the shared accumulator: the finding is appended to
    [i.Results]. *)
Definition addResult (i : Inspector) (ruleName : string) (args : list string)
  : Inspector :=
  set_Results i (i.(Results) ++ [{| rule := ruleName; args := args |}]).

(** The type of a rule check function,
    [func(node ast.StmtNode, rule string) error], as a method value of [i]. *)
Definition checkFunc : Type :=
  Inspector -> StmtNode -> string -> Inspector * status E.

(** *** Helpers that other files of the package declare *)

(** Modelled from the spec: [IsAllInOptions] is a helper of the package
    declared in another file; by its name and its uses it tells whether
    every given option type occurs among the options of the column. *)
Definition IsAllInOptions (options : list ColumnOption.t)
    (opTp : list ColumnOptionType) : bool :=
  forallb
    (fun tp =>
       existsb (fun op => bool_decide (ColumnOption.Tp op = tp)) options)
    opTp.

(** Modelled from the spec: [RemoveArrayRepeat] is a helper of the package
    declared in another file; the spec has the names of a finding
    deduplicated.  Each name is kept where it first occurs. *)
Fixpoint RemoveArrayRepeat_from (output input : list string) : list string :=
  match input with
  | [] => output
  | x :: input' =>
      if existsb (String.eqb x) output
      then RemoveArrayRepeat_from output input'
      else RemoveArrayRepeat_from (output ++ [x]) input'
  end.

Definition RemoveArrayRepeat (input : list string) : list string :=
  RemoveArrayRepeat_from [] input.

(** [IsMysqlReservedKeyword], whose keyword table is in another file;
    [getTableName] and [getCreateTableStmt], which read the schema context
    and the live engine.  [getCreateTableStmt] returns the statement and
    [exist] as one option: [None] is [exist = false]. *)
Variable IsMysqlReservedKeyword : string -> bool.
Variable getTableName : Inspector -> TableName.t -> string.
Variable getCreateTableStmt :
  Inspector -> string -> Inspector * option CreateTableStmt.t * option E.

(** *** [checkPrimaryKey] *)

(** The condition of lines 102-103 and 122-123. *)
Definition isAutoIncrementBigIntUnsigned (col : ColumnDef.t) : bool :=
  (FieldType.Tp col.(ColumnDef.Tp) =? TypeLonglong)%Z &&
  HasUnsignedFlag (FieldType.Flag col.(ColumnDef.Tp)) &&
  IsAllInOptions col.(ColumnDef.Options) [ColumnOptionAutoIncrement].

(** The loop over [stmt.Cols]; the state is
    [(hasPk, pkIsAutoIncrementBigIntUnsigned)]. *)
Definition primaryKey_cols (cols : list ColumnDef.t) (st : bool * bool)
  : bool * bool :=
  fold_left
    (fun '(hasPk, pkIsAutoIncrementBigIntUnsigned) col =>
       if IsAllInOptions col.(ColumnDef.Options) [ColumnOptionPrimaryKey]
       then (true,
             if isAutoIncrementBigIntUnsigned col then true
             else pkIsAutoIncrementBigIntUnsigned)
       else (hasPk, pkIsAutoIncrementBigIntUnsigned))
    cols st.

(** The loop over [stmt.Constraints], with its inner loop over
    [stmt.Cols]. *)
Definition primaryKey_constraints (stmt : CreateTableStmt.t)
    (st : bool * bool) : bool * bool :=
  fold_left
    (fun '(hasPk, pkIsAutoIncrementBigIntUnsigned) constraint =>
       if bool_decide (constraint.(Constraint.Tp) = ConstraintPrimaryKey)
       then (true,
             match constraint.(Constraint.Keys) with
             | [key] =>
                 let columnName := key.(IndexColName.Column) in
                 fold_left
                   (fun pk col =>
                      if String.eqb col.(ColumnDef.Name) columnName
                      then (if isAutoIncrementBigIntUnsigned col then true
                            else pk)
                      else pk)
                   stmt.(CreateTableStmt.Cols)
                   pkIsAutoIncrementBigIntUnsigned
             | _ => pkIsAutoIncrementBigIntUnsigned
             end)
       else (hasPk, pkIsAutoIncrementBigIntUnsigned))
    stmt.(CreateTableStmt.Constraints) st.

Definition checkPrimaryKey : checkFunc := fun i node rule =>
  match node with
  | CreateTable stmt =>
      let '(hasPk, pkIsAutoIncrementBigIntUnsigned) :=
        primaryKey_constraints stmt
          (primaryKey_cols stmt.(CreateTableStmt.Cols) (false, false)) in
      let i := if negb hasPk
               then addResult i DDL_CHECK_PRIMARY_KEY_EXIST [] else i in
      let i := if hasPk && negb pkIsAutoIncrementBigIntUnsigned
               then addResult i DDL_CHECK_PRIMARY_KEY_TYPE [] else i in
      (i, Returned None)
  | _ => (i, Returned None)
  end.

(** What the two loops of [checkPrimaryKey] look for, said without the
    loops: the statement declares a primary key, on a column or as a
    constraint of the table; the key is on an auto-increment unsigned BIGINT
    column. *)
Definition declaresPrimaryKey (stmt : CreateTableStmt.t) : bool :=
  existsb
    (fun col => IsAllInOptions col.(ColumnDef.Options) [ColumnOptionPrimaryKey])
    stmt.(CreateTableStmt.Cols) ||
  existsb
    (fun c => bool_decide (c.(Constraint.Tp) = ConstraintPrimaryKey))
    stmt.(CreateTableStmt.Constraints).

Definition primaryKeyIsAutoIncrementBigIntUnsigned (stmt : CreateTableStmt.t)
  : bool :=
  existsb
    (fun col =>
       IsAllInOptions col.(ColumnDef.Options) [ColumnOptionPrimaryKey] &&
       isAutoIncrementBigIntUnsigned col)
    stmt.(CreateTableStmt.Cols) ||
  existsb
    (fun c =>
       bool_decide (c.(Constraint.Tp) = ConstraintPrimaryKey) &&
       match c.(Constraint.Keys) with
       | [key] =>
           existsb
             (fun col =>
                String.eqb col.(ColumnDef.Name) key.(IndexColName.Column) &&
                isAutoIncrementBigIntUnsigned col)
             stmt.(CreateTableStmt.Cols)
       | _ => false
       end)
    stmt.(CreateTableStmt.Constraints).

(** *** [checkNewObjectName] *)

(** What the type switch of [checkNewObjectName] leaves in [names]. *)
Inductive collected :=
| Names (names : list string)
| NoNames          (* the default case: return nil *)
| NilPointer.      (* a nil [spec.NewTable] or [spec.Constraint] is read *)

Definition isIndexConstraint (tp : ConstraintType) : bool :=
  match tp with
  | ConstraintUniqKey | ConstraintKey | ConstraintUniqIndex
  | ConstraintIndex => true
  | _ => false
  end.

(** The names that one [spec] of an ALTER TABLE appends. *)
Definition spec_names (spec : AlterTableSpec.t) : option (list string) :=
  match spec.(AlterTableSpec.Tp) with
  | AlterTableRenameTable =>
      match spec.(AlterTableSpec.NewTable) with
      | Some t => Some [t.(TableName.Name)]
      | None => None
      end
  | AlterTableAddColumns =>
      Some (map ColumnDef.Name spec.(AlterTableSpec.NewColumns))
  | AlterTableChangeColumn =>
      Some (map ColumnDef.Name spec.(AlterTableSpec.NewColumns))
  | AlterTableAddConstraint =>
      match spec.(AlterTableSpec.Constraint) with
      | Some c => Some [c.(Constraint.Name)]
      | None => None
      end
  | AlterTableRenameIndex => Some [spec.(AlterTableSpec.ToKey)]
  | _ => Some []
  end.

Fixpoint specs_names (names : list string) (specs : list AlterTableSpec.t)
  : collected :=
  match specs with
  | [] => Names names
  | spec :: specs' =>
      match spec_names spec with
      | Some ns => specs_names (names ++ ns) specs'
      | None => NilPointer
      end
  end.

Definition newObjectNames (node : StmtNode) : collected :=
  match node with
  | CreateDatabase stmt => Names [stmt.(CreateDatabaseStmt.Name)]
  | CreateTable stmt =>
      Names
        ([stmt.(CreateTableStmt.Table).(TableName.Name)] ++
         map ColumnDef.Name stmt.(CreateTableStmt.Cols) ++
         map Constraint.Name
           (List.filter (fun c => isIndexConstraint c.(Constraint.Tp))
              stmt.(CreateTableStmt.Constraints)))
  | AlterTable stmt => specs_names [] stmt.(AlterTableStmt.Specs)
  | CreateIndex stmt => Names [stmt.(CreateIndexStmt.IndexName)]
  | _ => NoNames
  end.

(** The two checks on the collected names. *)
Definition checkNames (i : Inspector) (names : list string) : Inspector :=
  let i := if existsb (fun name => Nat.ltb 64 (String.length name)) names
           then addResult i DDL_CHECK_OBJECT_NAME_LENGTH [] else i in
  let invalidNames := List.filter IsMysqlReservedKeyword names in
  if Nat.ltb 0 (length invalidNames)
  then addResult i DDL_DISABLE_USING_KEYWORD
         [Join (RemoveArrayRepeat invalidNames) ", "]
  else i.

Definition checkNewObjectName : checkFunc := fun i node rule =>
  match newObjectNames node with
  | NoNames => (i, Returned None)
  | NilPointer => (i, Panicked)
  | Names names => (checkNames i names, Returned None)
  end.

(** *** [checkIndex] *)

(** One index constraint counted: [indexCounter++] and the maximum of
    [len(constraint.Keys)]. *)
Definition countIndex (st : Z * Z) (constraint : Constraint.t) : Z * Z :=
  let '(indexCounter, compositeIndexMax) := st in
  if isIndexConstraint constraint.(Constraint.Tp)
  then ((indexCounter + 1)%Z,
        let n := Z.of_nat (length constraint.(Constraint.Keys)) in
        if (compositeIndexMax <? n)%Z then n else compositeIndexMax)
  else st.

(** The indexes of the table as it was created. *)
Definition countExisting (indexCounter : Z)
    (createTableStmt : option CreateTableStmt.t) : Z :=
  match createTableStmt with
  | Some stmt =>
      fold_left
        (fun n constraint =>
           if isIndexConstraint constraint.(Constraint.Tp)
           then (n + 1)%Z else n)
        stmt.(CreateTableStmt.Constraints) indexCounter
  | None => indexCounter
  end.

(** The two findings at the end of [checkIndex]. *)
Definition reportIndex (i : Inspector) (indexCounter compositeIndexMax : Z)
  : Inspector :=
  let i := if (indexCounter >? 5)%Z
           then addResult i DDL_CHECK_INDEX_COUNT [] else i in
  if (compositeIndexMax >? 5)%Z
  then addResult i DDL_CHECK_COMPOSITE_INDEX_MAX [] else i.

Definition checkIndex : checkFunc := fun i node rule =>
  match node with
  | CreateTable stmt =>
      let '(indexCounter, compositeIndexMax) :=
        fold_left countIndex stmt.(CreateTableStmt.Constraints) (0%Z, 0%Z) in
      (reportIndex i indexCounter compositeIndexMax, Returned None)
  | AlterTable stmt =>
      let '(indexCounter, compositeIndexMax) :=
        fold_left
          (fun st spec =>
             match spec.(AlterTableSpec.Constraint) with
             | None => st
             | Some constraint => countIndex st constraint
             end)
          stmt.(AlterTableStmt.Specs) (0%Z, 0%Z) in
      match getCreateTableStmt i
              (getTableName i stmt.(AlterTableStmt.Table)) with
      | (i, _, Some err) => (i, Returned (Some err))
      | (i, createTableStmt, None) =>
          (reportIndex i (countExisting indexCounter createTableStmt)
             compositeIndexMax, Returned None)
      end
  | CreateIndex stmt =>
      let indexCounter := 1%Z in
      let n := Z.of_nat (length stmt.(CreateIndexStmt.IndexColNames)) in
      let compositeIndexMax := if (0 <? n)%Z then n else 0%Z in
      match getCreateTableStmt i
              (getTableName i stmt.(CreateIndexStmt.Table)) with
      | (i, _, Some err) => (i, Returned (Some err))
      | (i, createTableStmt, None) =>
          (reportIndex i (countExisting indexCounter createTableStmt)
             compositeIndexMax, Returned None)
      end
  | _ => (i, Returned None)
  end.

(** *** [checkIfNotExist] and [disableDropStmt] *)

Definition checkIfNotExist : checkFunc := fun i node rule =>
  match node with
  | CreateTable stmt =>
      if negb stmt.(CreateTableStmt.IfNotExists)
      then (addResult i DDL_CREATE_TABLE_NOT_EXIST [], Returned None)
      else (i, Returned None)
  | _ => (i, Returned None)
  end.

Definition disableDropStmt : checkFunc := fun i node rule =>
  match node with
  | DropDatabase => (addResult i DDL_DISABLE_DROP_STATEMENT [], Returned None)
  | DropTable => (addResult i DDL_DISABLE_DROP_STATEMENT [], Returned None)
  | _ => (i, Returned None)
  end.

(** *** [Advise] *)

(** What [Advise] calls and [advisor.go] does not define: the parser
    [parseOneSql]; the table [i.RulesFunc], which [initRulesFunc] fills (a
    name may be bound to nil, [Some None]); [updateSchemaCtx] and
    [closeDbConn]; the methods [level] and [message] of [i.Results]; the
    constants [model.TASK_ACTION_DONE] and [SQL_STMT_CONFLICT_ERROR]. *)
Variable parseOneSql : string -> string -> StmtNode + E.
Variable RulesFunc : gmap string (option checkFunc).
Variable updateSchemaCtx : Inspector -> StmtNode -> Inspector.
Variable closeDbConn : Inspector -> Inspector.
Variable Results_level : list Finding -> string.
Variable Results_message : list Finding -> string.
Variable TASK_ACTION_DONE : string.
Variable SQL_STMT_CONFLICT_ERROR : E.

(** A step that leaves the engine type and the two kind flags of the
    session as they are. *)
Definition sameSession (i i' : Inspector) : Prop :=
  i'.(DbType) = i.(DbType) /\
  i'.(isDDLStmt) = i.(isDDLStmt) /\
  i'.(isDMLStmt) = i.(isDMLStmt).

(** The rule check functions of the table and [updateSchemaCtx] do not
    write the engine type and the two kind flags: in [advisor.go] only
    [Advise] assigns to [isDDLStmt] and [isDMLStmt]. *)
Definition checksKeepSession : Prop :=
  forall name fn, RulesFunc !! name = Some (Some fn) ->
  forall i node rule, sameSession i (fst (fn i node rule)).

Definition updateKeepsSession : Prop :=
  forall i node, sameSession i (updateSchemaCtx i node).

(** The type switch of lines 21-32. *)
Definition classify (i : Inspector) (node : StmtNode) : Inspector + E :=
  match kind_of node with
  | DDLNode =>
      if i.(isDMLStmt) then inr SQL_STMT_CONFLICT_ERROR
      else inl (set_isDDLStmt i true)
  | DMLNode =>
      if i.(isDDLStmt) then inr SQL_STMT_CONFLICT_ERROR
      else inl (set_isDMLStmt i true)
  | NoKind => inl i
  end.

(** The loop over [i.Rules] of lines 34-45. *)
Fixpoint runRules (i : Inspector) (node : StmtNode) (rules : list Rule)
  : Inspector * status E :=
  match rules with
  | [] => (i, Returned None)
  | rule :: rules' =>
      let i := set_currentRule i rule in
      match RulesFunc !! rule.(Name) with
      | Some (Some fn) =>
          match fn i node rule.(Name) with
          | (i, Returned None) => runRules i node rules'
          | (i, st) => (i, st)
          end
      | Some None => runRules i node rules'
      | None => runRules i node rules'
      end
  end.

(** Lines 46-48: the result of the statement written to its record. *)
Definition inspected (i : Inspector) (sql : SqlRecord) : SqlRecord :=
  {| Sql := sql.(Sql);
     InspectStatus := TASK_ACTION_DONE;
     InspectLevel := Results_level i.(Results);
     InspectResult := Results_message i.(Results) |}.

(** The loop over [i.SqlArray].  The list returned holds the records of the
    batch as the loop leaves them. *)
Fixpoint AdviseLoop (i : Inspector) (SqlArray : list SqlRecord)
  : Inspector * list SqlRecord * status E :=
  match SqlArray with
  | [] => (i, [], Returned None)
  | sql :: rest =>
      match parseOneSql i.(DbType) sql.(Sql) with
      | inr err => (i, sql :: rest, Returned (Some err))
      | inl node =>
          match classify i node with
          | inr err => (i, sql :: rest, Returned (Some err))
          | inl i =>
              match runRules i node i.(Rules) with
              | (i, Returned None) =>
                  let sql := inspected i sql in
                  let i := updateSchemaCtx i node in
                  let i := set_Results i newInspectResults in
                  let '(i, rest, st) := AdviseLoop i rest in
                  (i, sql :: rest, st)
              | (i, st) => (i, sql :: rest, st)
              end
          end
      end
  end.

(** [Advise]: [initRulesFunc] has given [RulesFunc]; the deferred
    [closeDbConn] runs when the loop is left, in every case. *)
Definition Advise (i : Inspector) (SqlArray : list SqlRecord)
  : Inspector * list SqlRecord * status E :=
  let '(i, SqlArray, st) := AdviseLoop i SqlArray in
  (closeDbConn i, SqlArray, st).

End Inspector.

Arguments DbType {Ctx} i.
Arguments Rules {Ctx} i.
Arguments isDDLStmt {Ctx} i.
Arguments isDMLStmt {Ctx} i.
Arguments currentRule {Ctx} i.
Arguments Results {Ctx} i.
Arguments ctx {Ctx} i.
Arguments set_Results {Ctx} i rs.
Arguments set_currentRule {Ctx} i r.
Arguments set_isDDLStmt {Ctx} i b.
Arguments set_isDMLStmt {Ctx} i b.
Arguments addResult {Ctx} i ruleName args.
Arguments checkPrimaryKey {E Ctx} i node rule.
Arguments checkNames {Ctx} IsMysqlReservedKeyword i names.
Arguments checkNewObjectName {E Ctx} IsMysqlReservedKeyword i node rule.
Arguments checkIndex {E Ctx} getTableName getCreateTableStmt i node rule.
Arguments checkIfNotExist {E Ctx} i node rule.
Arguments disableDropStmt {E Ctx} i node rule.
Arguments classify {E Ctx} SQL_STMT_CONFLICT_ERROR i node.
Arguments runRules {E Ctx} RulesFunc i node rules.
Arguments inspected {Ctx} Results_level Results_message TASK_ACTION_DONE i sql.
Arguments sameSession {Ctx} i i'.
Arguments checksKeepSession {E Ctx} RulesFunc.
Arguments updateKeepsSession {Ctx} updateSchemaCtx.

End Inspector.

(** ** Concrete inputs

    The statements of the spec's examples as the parser builds them, and an
    instance of every parameter, for the closed lemmas below. *)

Module Examples.

Import Ast Inspector.

(** Modelled from the spec: the level constants of package [model] are
    not embedded; the spec writes the levels Normal, Notice, Warn and
    Error, and the tag of a message as [[Error]]. *)
Definition RuleLevelNormal : string := "Normal".
Definition RuleLevelNotice : string := "Notice".
Definition RuleLevelWarn : string := "Warn".
Definition RuleLevelError : string := "Error".

(** [fmt.Sprintf] on arguments that are strings, for a format without
    verbs. *)
Definition Sprintf (format : string) (args : list string) : string := format.

(** Findings at Normal and Warn, the second with a tagged message. *)
Definition normal_and_warn : Driver.AuditResult :=
  {| Driver.results :=
       [{| Driver.level := RuleLevelNormal;
           Driver.message := "table created" |};
        {| Driver.level := RuleLevelWarn;
           Driver.message := "[Warn]no primary key" |}] |}.

(** An instance of an engine type that no plugin registered, and a registry
    with one plugin, whose handler cannot connect. *)
Definition oracle : Driver.Instance := {| Driver.DbType := "oracle" |}.

Definition drivers : gmap string (Driver.handler unit) :=
  {[ "mysql" :=
       fun _ _ => (None, Some (Driver.errorString "connection refused")) ]}.

Definition column (name : string) (tp flag flen : Z)
    (options : list ColumnOptionType) : ColumnDef.t :=
  {| ColumnDef.Name := name;
     ColumnDef.Tp := {| FieldType.Tp := tp; FieldType.Flag := flag;
                        FieldType.Flen := flen |};
     ColumnDef.Options := map ColumnOption.Build_t options |}.

Definition table (name : string) : TableName.t :=
  {| TableName.Schema := ""; TableName.Name := name |}.

(** CREATE TABLE t1 (id INT(10) UNSIGNED NOT NULL AUTO_INCREMENT PRIMARY KEY):
    INT is [mysql.TypeLong], UNSIGNED sets [mysql.UnsignedFlag]. *)
Definition create_t1 : CreateTableStmt.t :=
  {| CreateTableStmt.IfNotExists := false;
     CreateTableStmt.Table := table "t1";
     CreateTableStmt.Cols :=
       [column "id" Mysql.TypeLong Mysql.UnsignedFlag 10
          [ColumnOptionNotNull; ColumnOptionAutoIncrement;
           ColumnOptionPrimaryKey]];
     CreateTableStmt.Constraints := [] |}.

(** CREATE TABLE t1 (id BIGINT UNSIGNED NOT NULL AUTO_INCREMENT PRIMARY KEY). *)
Definition create_t1_bigint : CreateTableStmt.t :=
  {| CreateTableStmt.IfNotExists := false;
     CreateTableStmt.Table := table "t1";
     CreateTableStmt.Cols :=
       [column "id" Mysql.TypeLonglong Mysql.UnsignedFlag (-1)
          [ColumnOptionNotNull; ColumnOptionAutoIncrement;
           ColumnOptionPrimaryKey]];
     CreateTableStmt.Constraints := [] |}.

(** CREATE TABLE t1 (id INT). *)
Definition create_t1_int : CreateTableStmt.t :=
  {| CreateTableStmt.IfNotExists := false;
     CreateTableStmt.Table := table "t1";
     CreateTableStmt.Cols := [column "id" Mysql.TypeLong 0 (-1) []];
     CreateTableStmt.Constraints := [] |}.

(** CREATE TABLE t2 (id INT). *)
Definition create_t2 : CreateTableStmt.t :=
  {| CreateTableStmt.IfNotExists := false;
     CreateTableStmt.Table := table "t2";
     CreateTableStmt.Cols := [column "id" Mysql.TypeLong 0 (-1) []];
     CreateTableStmt.Constraints := [] |}.

(** ALTER TABLE t0 ADD INDEX idx1 (id). *)
Definition alter_t0 : AlterTableStmt.t :=
  {| AlterTableStmt.Table := table "t0";
     AlterTableStmt.Specs :=
       [{| AlterTableSpec.Tp := AlterTableAddConstraint;
           AlterTableSpec.NewTable := None;
           AlterTableSpec.NewColumns := [];
           AlterTableSpec.Constraint :=
             Some {| Constraint.Tp := ConstraintIndex;
                     Constraint.Name := "idx1";
                     Constraint.Keys := [{| IndexColName.Column := "id" |}] |};
           AlterTableSpec.ToKey := "" |}] |}.

(** A name of 65 letters, and a table of that name. *)
Definition long_name : string :=
  "aaaaaaaaaaaaaaaaaaaaaaaaaaaaaaaaaaaaaaaaaaaaaaaaaaaaaaaaaaaaaaaaa".

Definition create_long : CreateTableStmt.t :=
  {| CreateTableStmt.IfNotExists := false;
     CreateTableStmt.Table := table long_name;
     CreateTableStmt.Cols := [column "select" Mysql.TypeLong 0 (-1) [];
                              column "select" Mysql.TypeLong 0 (-1) []];
     CreateTableStmt.Constraints := [] |}.

(** A keyword table that holds SELECT and, so that one name can be both too
    long and reserved, the long name. *)
Definition IsMysqlReservedKeyword (name : string) : bool :=
  String.eqb name "select" || String.eqb name long_name.

(** The parser on the statements of the examples. *)
Definition parseOneSql (dbType sql : string) : StmtNode + string :=
  if String.eqb sql "CREATE TABLE t1 (id INT)"
  then inl (CreateTable create_t1_int)
  else if String.eqb sql "CREATE TABLE t2 (id INT)"
       then inl (CreateTable create_t2)
  else if String.eqb sql "ALTER TABLE t0 ADD INDEX idx1 (id)"
       then inl (AlterTable alter_t0)
  else if String.eqb sql "SELECT * FROM t1" then inl Select
  else if String.eqb sql "INSERT INTO t1 VALUES (1)" then inl Insert
  else inr ("syntax error: " +:+ sql).

(** A session whose live engine cannot be reached: the lookup of a table
    that the batch did not create fails. *)
Definition getTableName (i : Inspector unit) (t : TableName.t) : string :=
  t.(TableName.Name).

Definition getCreateTableStmt (i : Inspector unit) (name : string)
  : Inspector unit * option CreateTableStmt.t * option string :=
  (i, None, Some "connection refused").

(** The table of rule check functions: two rules with their function, and
    one rule bound to nil. *)
Definition RulesFunc : gmap string (option (checkFunc string unit)) :=
  {[ DDL_CHECK_PRIMARY_KEY_EXIST := Some checkPrimaryKey;
     DDL_CHECK_INDEX_COUNT :=
       Some (checkIndex getTableName getCreateTableStmt);
     DDL_CREATE_TABLE_NOT_EXIST := None ]}.

(** The context is empty: [updateSchemaCtx] and [closeDbConn] have nothing
    to write. *)
Definition updateSchemaCtx (i : Inspector unit) (node : StmtNode)
  : Inspector unit := i.

Definition closeDbConn (i : Inspector unit) : Inspector unit := i.

(** The methods [level] and [message] of [i.Results] for the examples: every
    rule is of level Error, and the message of a finding is the name of its
    rule. *)
Definition Results_level (rs : list Finding) : string :=
  match rs with [] => RuleLevelNormal | _ => RuleLevelError end.

Definition Results_message (rs : list Finding) : string :=
  GoStrings.Join (map rule rs) Driver.newline.

(** The status of a statement that is processed, and the error of a batch
    that mixes the kinds. *)
Definition TASK_ACTION_DONE : string := "done".
Definition SQL_STMT_CONFLICT_ERROR : string := "sql stmt conflict".

Definition rules : list Rule :=
  [{| Name := DDL_CHECK_PRIMARY_KEY_EXIST; Level := RuleLevelError |};
   {| Name := DDL_CHECK_INDEX_COUNT; Level := RuleLevelError |};
   {| Name := DDL_CREATE_TABLE_NOT_EXIST; Level := RuleLevelError |}].

(** A new inspector. *)
Definition inspector : Inspector unit :=
  {| DbType := "mysql"; Rules := rules; isDDLStmt := false;
     isDMLStmt := false; currentRule := {| Name := ""; Level := "" |};
     Results := []; ctx := tt |}.

(** A statement of a batch, before it is inspected. *)
Definition statement (sql : string) : SqlRecord :=
  {| Sql := sql; InspectStatus := "initialized"; InspectLevel := "";
     InspectResult := "" |}.

Definition AdviseLoop :=
  Inspector.AdviseLoop string unit parseOneSql RulesFunc updateSchemaCtx
    Results_level Results_message TASK_ACTION_DONE SQL_STMT_CONFLICT_ERROR.

Definition Advise :=
  Inspector.Advise string unit parseOneSql RulesFunc updateSchemaCtx
    closeDbConn Results_level Results_message TASK_ACTION_DONE
    SQL_STMT_CONFLICT_ERROR.

(** A batch whose second statement needs the live engine, and the batch of
    the spec that mixes the kinds. *)
Definition create_then_alter : list SqlRecord :=
  [statement "CREATE TABLE t2 (id INT)";
   statement "ALTER TABLE t0 ADD INDEX idx1 (id)";
   statement "CREATE TABLE t1 (id INT)"].

Definition create_then_select : list SqlRecord :=
  [statement "CREATE TABLE t1 (id INT)";
   statement "SELECT * FROM t1";
   statement "CREATE TABLE t2 (id INT)"].

(** The inspector and the record of the first statement of each batch once
    that statement is processed, and the inspector when [checkIndex] has
    failed on the ALTER TABLE. *)
Definition after_create_t2 : Inspector unit :=
  Eval vm_compute in
    fst (fst (AdviseLoop inspector [statement "CREATE TABLE t2 (id INT)"])).

Definition inspected_t2 : SqlRecord :=
  Eval vm_compute in
    hd (statement "")
      (snd (fst (AdviseLoop inspector [statement "CREATE TABLE t2 (id INT)"]))).

Definition after_create_t1 : Inspector unit :=
  Eval vm_compute in
    fst (fst (AdviseLoop inspector [statement "CREATE TABLE t1 (id INT)"])).

Definition inspected_t1 : SqlRecord :=
  Eval vm_compute in
    hd (statement "")
      (snd (fst (AdviseLoop inspector [statement "CREATE TABLE t1 (id INT)"]))).

Definition failed_alter_t0 : Inspector unit :=
  Eval vm_compute in
    fst (runRules RulesFunc (set_isDDLStmt after_create_t2 true)
           (AlterTable alter_t0) rules).

End Examples.

(** ** Package [driver]: the package state

    The variables [drivers] and [rules] of the package, and the functions
    that read and write them.  The two mutexes order the accesses; they have
    no effect on the values. *)

Module Registry.

Section Registry.

Variables (DriverT Rule : Type).

Record state := {
  drivers : gmap string (Driver.handler DriverT);
  rules : list Rule
}.

(** The state when the package is loaded: an empty map and a nil slice. *)
Definition init : state := {| drivers := ∅; rules := [] |}.

(** [Register] on the package state; [None] is the panic. *)
Definition Register (st : state) (name : string)
    (h : Driver.handler DriverT) (rs : list Rule) : option state :=
  match Driver.Register DriverT st.(drivers) st.(rules) name h rs with
  | Some (drivers', rules') => Some {| drivers := drivers'; rules := rules' |}
  | None => None
  end.

Definition NewDriver (st : state) (inst : Driver.Instance) (schema : string)
  : option DriverT * option Driver.error :=
  Driver.NewDriver DriverT st.(drivers) inst schema.

(** [AllRules]. *)
Definition AllRules (st : state) : list Rule := st.(rules).

(** [AllDrivers]: the keys of the map, in the order in which the [range]
    loop meets them, which Go leaves open; [map_to_list] fixes one. *)
Definition AllDrivers (st : state) : list string :=
  (map_to_list st.(drivers)).*1.

(** A plugin as it registers itself: its name, its handler, its rules. *)
Definition plugin : Type := string * Driver.handler DriverT * list Rule.

(** The calls of [Register] of a start-up, one after the other; a panic
    ends it. *)
Fixpoint RegisterAll (st : state) (plugins : list plugin) : option state :=
  match plugins with
  | [] => Some st
  | (name, h, rs) :: plugins' =>
      match Register st name h rs with
      | Some st' => RegisterAll st' plugins'
      | None => None
      end
  end.

End Registry.

Arguments drivers {DriverT Rule} s.
Arguments rules {DriverT Rule} s.
Arguments init {DriverT Rule}.
Arguments Register {DriverT Rule} st name h rs.
Arguments NewDriver {DriverT Rule} st inst schema.
Arguments AllRules {DriverT Rule} st.
Arguments AllDrivers {DriverT Rule} st.
Arguments RegisterAll {DriverT Rule} st plugins.

End Registry.

(** ** Package [inspector]: more rule checks of [advisor.go] *)

Module Checks.

Import GoStrings Mysql Ast Inspector.

(** [mysql.TypeString], the type of a CHAR column. *)
Definition TypeString : Z := 254.

(** More rule names, modelled like the others by their identifiers. *)
Definition DDL_DISABLE_FOREIGN_KEY : string := "DDL_DISABLE_FOREIGN_KEY".
Definition DDL_CHECK_TYPE_CHAR_LENGTH : string := "DDL_CHECK_TYPE_CHAR_LENGTH".
Definition DDL_CHECK_ALTER_TABLE_NEED_MERGE : string :=
  "DDL_CHECK_ALTER_TABLE_NEED_MERGE".
Definition DDL_DISABLE_INDEX_DATA_TYPE_BLOB : string :=
  "DDL_DISABLE_INDEX_DATA_TYPE_BLOB".

(** Modelled from the spec: [HasOneInOptions] is a helper of the package
    declared in another file; by its name and its uses it tells whether one
    of the given option types occurs among the options of the column. *)
Definition HasOneInOptions (options : list ColumnOption.t)
    (opTp : list ColumnOptionType) : bool :=
  existsb
    (fun op => existsb (fun tp => bool_decide (ColumnOption.Tp op = tp)) opTp)
    options.

(** The field [alterTableStmts] of the [Inspector], with the fields that
    [checkMergeAlterTable] does not reach. *)
Record Context (Other : Type) := {
  alterTableStmts : gmap string (list AlterTableStmt.t);
  other : Other
}.
Arguments alterTableStmts {Other} c.
Arguments other {Other} c.

Definition set_ctx {Ctx : Type} (i : Inspector Ctx) (c : Ctx) : Inspector Ctx :=
  {| DbType := i.(DbType); Rules := i.(Rules); isDDLStmt := i.(isDDLStmt);
     isDMLStmt := i.(isDMLStmt); currentRule := i.(currentRule);
     Results := i.(Results); ctx := c |}.

Section Checks.

Variables (E Ctx : Type).

(** *** [checkForeignKey] *)

Definition checkForeignKey : checkFunc E Ctx := fun i node rule =>
  match node with
  | CreateTable stmt =>
      let hasFk :=
        existsb
          (fun constraint =>
             bool_decide (constraint.(Constraint.Tp) = ConstraintForeignKey))
          stmt.(CreateTableStmt.Constraints) in
      (if hasFk then addResult i DDL_DISABLE_FOREIGN_KEY [] else i,
       Returned None)
  | AlterTable stmt =>
      let hasFk :=
        existsb
          (fun spec =>
             match spec.(AlterTableSpec.Constraint) with
             | Some constraint =>
                 bool_decide
                   (constraint.(Constraint.Tp) = ConstraintForeignKey)
             | None => false
             end)
          stmt.(AlterTableStmt.Specs) in
      (if hasFk then addResult i DDL_DISABLE_FOREIGN_KEY [] else i,
       Returned None)
  | _ => (i, Returned None)
  end.

(** *** [checkStringType] *)

(** The condition of lines 470 and 477: a CHAR column of length above 20. *)
Definition isLongChar (col : ColumnDef.t) : bool :=
  (FieldType.Tp col.(ColumnDef.Tp) =? TypeString)%Z &&
  (FieldType.Flen col.(ColumnDef.Tp) >? 20)%Z.

(** The loop over columns: one finding for each long CHAR column. *)
Definition checkStringType_cols (i : Inspector Ctx) (cols : list ColumnDef.t)
  : Inspector Ctx :=
  fold_left
    (fun i col =>
       if isLongChar col then addResult i DDL_CHECK_TYPE_CHAR_LENGTH [] else i)
    cols i.

Definition checkStringType : checkFunc E Ctx := fun i node rule =>
  match node with
  | CreateTable stmt =>
      (checkStringType_cols i stmt.(CreateTableStmt.Cols), Returned None)
  | AlterTable stmt =>
      (fold_left
         (fun i spec => checkStringType_cols i spec.(AlterTableSpec.NewColumns))
         stmt.(AlterTableStmt.Specs) i,
       Returned None)
  | _ => (i, Returned None)
  end.

(** *** [disableAddIndexForColumnsTypeBlob] *)

(** [getTableName] and [getCreateTableStmt], as in [checkIndex], and
    [MysqlDataTypeIsBlob], whose list of types is in another file. *)
Variable getTableName : Inspector Ctx -> TableName.t -> string.
Variable MysqlDataTypeIsBlob : Z -> bool.
Variable getCreateTableStmt :
  Inspector Ctx -> string -> Inspector Ctx * option CreateTableStmt.t * option E.

Definition isBlob (col : ColumnDef.t) : bool :=
  MysqlDataTypeIsBlob (FieldType.Tp col.(ColumnDef.Tp)).

Definition isUniqKey (col : ColumnDef.t) : bool :=
  HasOneInOptions col.(ColumnDef.Options) [ColumnOptionUniqKey].

(** [indexColumns[col.Column.Name.String()] = struct{}{}] for every key. *)
Definition addKeys (indexColumns : gset string) (keys : list IndexColName.t)
  : gset string :=
  fold_left (fun s col => {[ col.(IndexColName.Column) ]} ∪ s) keys
    indexColumns.

(** [isTypeBlobCols[col.Name.Name.String()] = ...] for every column. *)
Definition setBlobCols (value : ColumnDef.t -> bool)
    (isTypeBlobCols : gmap string bool) (cols : list ColumnDef.t)
  : gmap string bool :=
  fold_left (fun m col => <[ col.(ColumnDef.Name) := value col ]> m) cols
    isTypeBlobCols.

(** [isTypeBlobCols[name]]: a missing key reads as false. *)
Definition blobCol (isTypeBlobCols : gmap string bool) (name : string)
  : bool :=
  default false (isTypeBlobCols !! name).

(** The index columns of a CREATE TABLE: the keys of its index
    constraints. *)
Definition createTable_indexColumns (stmt : CreateTableStmt.t) : gset string :=
  fold_left
    (fun s constraint =>
       if isIndexConstraint constraint.(Constraint.Tp)
       then addKeys s constraint.(Constraint.Keys) else s)
    stmt.(CreateTableStmt.Constraints) ∅.

(** The index columns of an ALTER TABLE.  A [spec] whose [NewColumns] is
    nil is passed over, its constraint with it (line 215).  The empty list
    stands for the nil slice: the field is nil unless the statement gives
    the [spec] a column. *)
Definition alterTable_indexColumns (stmt : AlterTableStmt.t) : gset string :=
  fold_left
    (fun s spec =>
       match spec.(AlterTableSpec.NewColumns) with
       | [] => s
       | cols =>
           let s :=
             fold_left
               (fun s col =>
                  if isUniqKey col then {[ col.(ColumnDef.Name) ]} ∪ s else s)
               cols s in
           match spec.(AlterTableSpec.Constraint) with
           | Some constraint =>
               if isIndexConstraint constraint.(Constraint.Tp)
               then addKeys s constraint.(Constraint.Keys) else s
           | None => s
           end
       end)
    stmt.(AlterTableStmt.Specs) ∅.

Definition reportBlob (i : Inspector Ctx) (indexDataTypeIsBlob : bool)
  : Inspector Ctx :=
  if indexDataTypeIsBlob
  then addResult i DDL_DISABLE_INDEX_DATA_TYPE_BLOB [] else i.

Definition disableAddIndexForColumnsTypeBlob : checkFunc E Ctx :=
  fun i node rule =>
  match node with
  | CreateTable stmt =>
      let indexColumns := createTable_indexColumns stmt in
      let indexDataTypeIsBlob :=
        existsb
          (fun col =>
             isUniqKey col && isBlob col ||
             bool_decide (col.(ColumnDef.Name) ∈ indexColumns) && isBlob col)
          stmt.(CreateTableStmt.Cols) in
      (reportBlob i indexDataTypeIsBlob, Returned None)
  | AlterTable stmt =>
      let indexColumns := alterTable_indexColumns stmt in
      if Nat.leb (size indexColumns) 0 then (i, Returned None)
      else
        match getCreateTableStmt i
                (getTableName i stmt.(AlterTableStmt.Table)) with
        | (i, _, Some err) => (i, Returned (Some err))
        | (i, createTableStmt, None) =>
            let isTypeBlobCols :=
              match createTableStmt with
              | Some created =>
                  setBlobCols isBlob ∅ created.(CreateTableStmt.Cols)
              | None => ∅
              end in
            let isTypeBlobCols :=
              fold_left
                (fun m spec =>
                   setBlobCols isBlob m spec.(AlterTableSpec.NewColumns))
                stmt.(AlterTableStmt.Specs) isTypeBlobCols in
            let indexDataTypeIsBlob :=
              existsb (blobCol isTypeBlobCols) (elements indexColumns) in
            (reportBlob i indexDataTypeIsBlob, Returned None)
        end
  | CreateIndex stmt =>
      match getCreateTableStmt i
              (getTableName i stmt.(CreateIndexStmt.Table)) with
      | (i, _, Some err) => (i, Returned (Some err))
      | (i, None, None) => (i, Returned None)
      | (i, Some created, None) =>
          let isTypeBlobCols :=
            setBlobCols (fun col => isUniqKey col && isBlob col) ∅
              created.(CreateTableStmt.Cols) in
          let indexDataTypeIsBlob :=
            existsb
              (fun indexColumns =>
                 blobCol isTypeBlobCols indexColumns.(IndexColName.Column))
              stmt.(CreateIndexStmt.IndexColNames) in
          (reportBlob i indexDataTypeIsBlob, Returned None)
      end
  | _ => (i, Returned None)
  end.

End Checks.

Arguments checkForeignKey {E Ctx} i node rule.
Arguments checkStringType_cols {Ctx} i cols.
Arguments checkStringType {E Ctx} i node rule.
Arguments reportBlob {Ctx} i indexDataTypeIsBlob.
Arguments disableAddIndexForColumnsTypeBlob {E Ctx} getTableName
  MysqlDataTypeIsBlob getCreateTableStmt i node rule.

(** *** What [checkIndex] counts, said without its loops *)

(** The number of index constraints among [constraints], and the largest
    number of keys of one of them (0 when there is none). *)
Definition indexCount (constraints : list Constraint.t) : Z :=
  Z.of_nat
    (length
       (List.filter (fun c => isIndexConstraint c.(Constraint.Tp))
          constraints)).

Definition widestIndex (constraints : list Constraint.t) : Z :=
  fold_right Z.max 0%Z
    (List.map (fun c => Z.of_nat (length c.(Constraint.Keys)))
       (List.filter (fun c => isIndexConstraint c.(Constraint.Tp))
          constraints)).

(** The constraints that the [spec]s of an ALTER TABLE carry. *)
Definition specConstraints (stmt : AlterTableStmt.t) : list Constraint.t :=
  flat_map
    (fun spec =>
       match spec.(AlterTableSpec.Constraint) with
       | Some constraint => [constraint]
       | None => []
       end)
    stmt.(AlterTableStmt.Specs).

(** The indexes of a table that the session knows, none if it does not. *)
Definition createdConstraints (created : option CreateTableStmt.t)
  : list Constraint.t :=
  match created with
  | Some stmt => stmt.(CreateTableStmt.Constraints)
  | None => []
  end.

(** *** [checkMergeAlterTable] *)

Section Merge.

Variables (E Other : Type).
Variable getTableName : Inspector (Context Other) -> TableName.t -> string.

Definition set_alterTableStmts (i : Inspector (Context Other))
    (m : gmap string (list AlterTableStmt.t)) : Inspector (Context Other) :=
  set_ctx i {| alterTableStmts := m; other := i.(ctx).(other) |}.

Definition checkMergeAlterTable : checkFunc E (Context Other) :=
  fun i node rule =>
  match node with
  | AlterTable stmt =>
      let tableName := getTableName i stmt.(AlterTableStmt.Table) in
      match i.(ctx).(alterTableStmts) !! tableName with
      | Some stmts =>
          let i := addResult i DDL_CHECK_ALTER_TABLE_NEED_MERGE [] in
          (set_alterTableStmts i
             (<[ tableName := stmts ++ [stmt] ]> i.(ctx).(alterTableStmts)),
           Returned None)
      | None =>
          (set_alterTableStmts i
             (<[ tableName := [stmt] ]> i.(ctx).(alterTableStmts)),
           Returned None)
      end
  | _ => (i, Returned None)
  end.

End Merge.

Arguments set_alterTableStmts {Other} i m.
Arguments checkMergeAlterTable {E Other} getTableName i node rule.

End Checks.

(** ** More concrete inputs *)

Module MoreExamples.

Import Ast Inspector Checks.

(** Two plugins: one that connects, one that cannot; both bring a rule of
    the same name. *)
Definition mysql_handler : Driver.handler unit :=
  fun _ _ => (Some tt, None).

Definition postgres_handler : Driver.handler unit :=
  fun _ _ => (None, Some (Driver.errorString "connection refused")).

Definition plugins : list (Registry.plugin unit string) :=
  [("mysql", mysql_handler, ["ddl_check_primary_key"; "dml_check_where"]);
   ("postgres", postgres_handler, ["ddl_check_primary_key"])].

Definition mysql_only : Registry.state unit string :=
  {| Registry.drivers := {[ "mysql" := mysql_handler ]};
     Registry.rules := ["ddl_check_primary_key"; "dml_check_where"] |}.

Definition registered : Registry.state unit string :=
  {| Registry.drivers :=
       <[ "postgres" := postgres_handler ]> {[ "mysql" := mysql_handler ]};
     Registry.rules :=
       ["ddl_check_primary_key"; "dml_check_where"; "ddl_check_primary_key"] |}.

Definition mysql : Driver.Instance := {| Driver.DbType := "mysql" |}.

(** The findings of [Examples.normal_and_warn] in the other order. *)
Definition warn_and_normal : Driver.AuditResult :=
  {| Driver.results := rev Examples.normal_and_warn.(Driver.results) |}.

(** A finding whose message names a level in the middle of a sentence. *)
Definition warned : Driver.auditResult :=
  {| Driver.level := Examples.RuleLevelError;
     Driver.message := "no Warning was raised" |}.

(** A name of 22 characters of three bytes each, and a table of that
    name. *)
Definition wide_name : string :=
  string_of_list_ascii
    (concat (repeat ["232"; "161"; "168"]%char 22)).

Definition create_wide : CreateTableStmt.t :=
  {| CreateTableStmt.IfNotExists := false;
     CreateTableStmt.Table := Examples.table wide_name;
     CreateTableStmt.Cols := [Examples.column "id" Mysql.TypeLong 0 (-1) []];
     CreateTableStmt.Constraints := [] |}.

Definition index (name : string) (keys : list string) : Constraint.t :=
  {| Constraint.Tp := ConstraintIndex; Constraint.Name := name;
     Constraint.Keys := List.map IndexColName.Build_t keys |}.

(** [mysql.TypeBlob], and the blob test over the four blob type codes
    (tiny, medium, long and plain blob: 249 to 252). *)
Definition TypeBlob : Z := 252.

Definition MysqlDataTypeIsBlob (tp : Z) : bool :=
  (249 <=? tp)%Z && (tp <=? 252)%Z.

(** The table t0 as a session knows it: an INT column, a BLOB column with
    the unique-key option, a CHAR(30) column, and five indexes. *)
Definition created_t0 : CreateTableStmt.t :=
  {| CreateTableStmt.IfNotExists := false;
     CreateTableStmt.Table := Examples.table "t0";
     CreateTableStmt.Cols :=
       [Examples.column "id" Mysql.TypeLong 0 (-1) [];
        Examples.column "doc" TypeBlob 0 (-1) [ColumnOptionUniqKey];
        Examples.column "code" TypeString 0 30 []];
     CreateTableStmt.Constraints :=
       [index "idx1" ["id"]; index "idx2" ["id"]; index "idx3" ["id"];
        index "idx4" ["id"]; index "idx5" ["id"]] |}.

(** A session that knows t0 and no other table. *)
Definition getCreateTableStmt (i : Inspector unit) (name : string)
  : Inspector unit * option CreateTableStmt.t * option string :=
  (i, if String.eqb name "t0" then Some created_t0 else None, None).

(** CREATE INDEX idx_doc ON t0 (doc). *)
Definition create_index_doc : CreateIndexStmt.t :=
  {| CreateIndexStmt.IndexName := "idx_doc";
     CreateIndexStmt.Table := Examples.table "t0";
     CreateIndexStmt.IndexColNames := [IndexColName.Build_t "doc"] |}.

(** An inspector that has altered no table yet. *)
Definition merge_inspector : Inspector (Context unit) :=
  {| DbType := "mysql"; Rules := []; isDDLStmt := false;
     isDMLStmt := false; currentRule := {| Name := ""; Level := "" |};
     Results := [];
     ctx := {| alterTableStmts := ∅; other := tt |} |}.

Definition merge_getTableName (i : Inspector (Context unit))
    (t : TableName.t) : string := t.(TableName.Name).

(** Rules that have no function in [Examples.RulesFunc]: one bound to nil,
    one not bound. *)
Definition rules_without_function : list Rule :=
  [{| Name := DDL_CREATE_TABLE_NOT_EXIST; Level := Examples.RuleLevelError |};
   {| Name := "no_such_rule"; Level := Examples.RuleLevelError |}].

(** A batch with a statement that does not parse, and a batch that is
    processed to its end, with what [Advise] leaves of it. *)
Definition create_then_typo : list SqlRecord :=
  [Examples.statement "CREATE TABLE t2 (id INT)";
   Examples.statement "SELEC 1";
   Examples.statement "CREATE TABLE t1 (id INT)"].

Definition two_creates : list SqlRecord :=
  [Examples.statement "CREATE TABLE t2 (id INT)";
   Examples.statement "CREATE TABLE t1 (id INT)"].

Definition advised_two_creates : Inspector unit * list SqlRecord :=
  Eval vm_compute in fst (Examples.Advise Examples.inspector two_creates).

Definition advised_create_t1 : Inspector unit * list SqlRecord :=
  Eval vm_compute in
    fst (Examples.Advise Examples.inspector
           [Examples.statement "CREATE TABLE t1 (id INT)"]).

End MoreExamples.

(** * Properties *)

Import GoStrings.

(** ** Strings and patterns *)

Lemma append_assoc (a b c : string) : (a +:+ b) +:+ c = a +:+ (b +:+ c).
Proof.
  induction a as [|x a IH]; [reflexivity|].
  change (String x ((a +:+ b) +:+ c) = String x (a +:+ (b +:+ c))).
  now rewrite IH.
Qed.

Lemma prefix_append (p s : string) : String.prefix p (p +:+ s) = true.
Proof.
  induction p as [|c p IH]; simpl.
  - now destruct s.
  - destruct (ascii_dec c c); [exact IH | congruence].
Qed.

Lemma prefix_split (p s : string) :
  String.prefix p s = true -> exists t, s = p +:+ t.
Proof.
  revert s; induction p as [|c p IH]; intros s H.
  - now exists s.
  - destruct s as [|d s]; simpl in H; [discriminate|].
    destruct (ascii_dec c d) as [->|]; [|discriminate].
    destruct (IH _ H) as [t ->]. now exists t.
Qed.

Lemma tag_prefix (l m : string) :
  HasPrefix ("[" +:+ l +:+ "]" +:+ m) ("[" +:+ l +:+ "]") = true.
Proof.
  unfold HasPrefix.
  replace ("[" +:+ l +:+ "]" +:+ m) with (("[" +:+ l +:+ "]") +:+ m).
  - apply prefix_append.
  - now rewrite !append_assoc.
Qed.

Lemma characters_le_len (s : string) : characters s <= String.length s.
Proof.
  induction s as [|c s IH]; simpl; [lia|].
  destruct (is_continuation c); lia.
Qed.

Module RegexpFacts.

Import Regexp.

Lemma parse_from_char (c : ascii) (cur : list item) (p : string) :
  is_meta c = false ->
  parse_from cur (String c p) = parse_from (Chr c :: cur) p.
Proof.
  destruct c as [[] [] [] [] [] [] [] []]; intros H;
    first [discriminate H | reflexivity].
Qed.

Lemma parse_from_plain (w : string) : forall cur rest,
  plain w = true ->
  parse_from cur (w +:+ rest) = parse_from (rev (lits w) ++ cur) rest.
Proof.
  induction w as [|c w IH]; intros cur rest H; [reflexivity|].
  unfold plain in H; simpl in H. apply andb_prop in H as [Hc Hw].
  apply negb_true_iff in Hc.
  change (String c w +:+ rest) with (String c (w +:+ rest)).
  rewrite (parse_from_char _ _ _ Hc), (IH _ _ Hw).
  unfold lits; simpl. now rewrite <- app_assoc.
Qed.

Lemma match_here_lits (w : string) : forall b s,
  match_here b (lits w) s = String.prefix w s.
Proof.
  induction w as [|c w IH]; intros b s; simpl.
  - now destruct s.
  - destruct s as [|d s]; [reflexivity|].
    destruct (Ascii.eqb_spec c d) as [->|Hne]; simpl.
    + destruct (ascii_dec d d); [apply IH | congruence].
    + destruct (ascii_dec c d); [congruence | reflexivity].
Qed.

Lemma search_here (b : bool) (re : regex) (s : string) (its : list item) :
  In its re -> match_here b its s = true -> search b re s = true.
Proof.
  intros Hin Hm. destruct s; simpl; apply orb_true_iff; left;
    apply existsb_exists; eauto.
Qed.

Lemma search_next (b : bool) (re : regex) (c : ascii) (s : string) :
  search false re s = true -> search b re (String c s) = true.
Proof. intros H. simpl. rewrite H. apply orb_true_r. Qed.

End RegexpFacts.

(** ** Package [driver]: audit results *)

Section LevelFacts.

Variables Normal Notice Warn ErrorL : string.

Local Abbreviation RuleLevelMap :=
  (Driver.RuleLevelMap Normal Notice Warn ErrorL).
Local Abbreviation rank := (Driver.index RuleLevelMap).
Local Abbreviation Level := (Driver.Level Normal Notice Warn ErrorL).
Local Abbreviation pattern := (Driver.pattern Normal Notice Warn ErrorL).
Local Abbreviation line := (Driver.line Normal Notice Warn ErrorL).
Local Abbreviation messages := (Driver.messages Normal Notice Warn ErrorL).
Local Abbreviation Message := (Driver.Message Normal Notice Warn ErrorL).
Local Abbreviation levels := [Normal; Notice; Warn; ErrorL].

Import Regexp RegexpFacts.

(** The pattern of [Message] is an alternation of five branches: only the
    first is anchored and opens a bracket, only the last closes one. *)
Lemma parse_pattern :
  plain Normal = true -> plain Notice = true ->
  plain Warn = true -> plain ErrorL = true ->
  parse pattern =
    [ Bol :: Chr "[" :: lits ErrorL; lits Warn; lits Notice; lits Normal;
      [Chr "o"; Chr "s"; Chr "c"; Chr "]"] ].
Proof.
  intros Hn Ht Hw He. unfold Driver.pattern, parse.
  change ("^\[" +:+ ?x) with (String "^" (String "\" (String "[" x))).
  cbn [parse_from].
  rewrite (parse_from_plain _ _ _ He).
  change ("|" +:+ ?x) with (String "|" x). cbn [parse_from].
  rewrite (parse_from_plain _ _ _ Hw).
  change ("|" +:+ ?x) with (String "|" x). cbn [parse_from].
  rewrite (parse_from_plain _ _ _ Ht).
  change ("|" +:+ ?x) with (String "|" x). cbn [parse_from].
  rewrite (parse_from_plain _ _ _ Hn).
  change ("|" +:+ ?x) with (String "|" x). cbn [parse_from].
  rewrite !app_nil_r, !rev_app_distr, !rev_involutive. reflexivity.
Qed.

(** What the pattern matches: a text that begins with an open bracket and
    the Error level, or that holds, anywhere, the Warn level, the Notice
    level, the Normal level, or the three letters osc and a closing
    bracket. *)
Lemma search_pattern (s : string) : forall start,
  search start
    [ Bol :: lits ("[" +:+ ErrorL); lits Warn; lits Notice; lits Normal;
      lits "osc]" ] s =
  start && HasPrefix s ("[" +:+ ErrorL) || Contains s Warn ||
  Contains s Notice || Contains s Normal || Contains s "osc]".
Proof.
  unfold HasPrefix.
  induction s as [|c s IH]; intros start;
    cbn [search existsb Contains]; cbn [match_here]; rewrite !match_here_lits.
  - destruct start, (String.prefix ("[" +:+ ErrorL) ""),
      (String.prefix Warn ""), (String.prefix Notice ""),
      (String.prefix Normal ""); reflexivity.
  - rewrite IH. cbn [andb orb].
    destruct start, (String.prefix ("[" +:+ ErrorL) (String c s)),
      (String.prefix Warn (String c s)), (String.prefix Notice (String c s)),
      (String.prefix Normal (String c s)), (String.prefix "osc]" (String c s)),
      (Contains s Warn), (Contains s Notice), (Contains s Normal),
      (Contains s "osc]"); reflexivity.
Qed.

Lemma MatchString_pattern (s : string) :
  plain Normal = true -> plain Notice = true ->
  plain Warn = true -> plain ErrorL = true ->
  MatchString pattern s =
  HasPrefix s ("[" +:+ ErrorL) || Contains s Warn || Contains s Notice ||
  Contains s Normal || Contains s "osc]".
Proof.
  intros Hn Ht Hw He. unfold MatchString.
  rewrite parse_pattern by assumption. apply (search_pattern s true).
Qed.

Lemma line_tagged (result : Driver.auditResult) (tag : string) :
  plain Normal = true -> plain Notice = true ->
  plain Warn = true -> plain ErrorL = true ->
  In tag levels ->
  HasPrefix result.(Driver.message) ("[" +:+ tag +:+ "]") = true ->
  line result = result.(Driver.message).
Proof.
  intros Hn Ht Hw He Htag Hpre.
  unfold Driver.line, MatchString. rewrite parse_pattern by assumption.
  apply prefix_split in Hpre as [t ->].
  change (("[" +:+ tag +:+ "]") +:+ t) with (String "[" ((tag +:+ "]") +:+ t)).
  rewrite append_assoc.
  match goal with |- (if ?b then _ else _) = _ => assert (b = true) as -> end;
    [|reflexivity].
  simpl in Htag. destruct Htag as [<-|[<-|[<-|[<-|[]]]]].
  - apply search_next, search_here with (its := lits Normal);
      [simpl; tauto | rewrite match_here_lits; apply prefix_append].
  - apply search_next, search_here with (its := lits Notice);
      [simpl; tauto | rewrite match_here_lits; apply prefix_append].
  - apply search_next, search_here with (its := lits Warn);
      [simpl; tauto | rewrite match_here_lits; apply prefix_append].
  - apply search_here with (its := Bol :: Chr "[" :: lits ErrorL);
      [simpl; tauto|].
    cbn [match_here andb]. rewrite Ascii.eqb_refl, match_here_lits.
    apply prefix_append.
Qed.

(** C8.  A finding whose message already begins with the bracketed tag of
    one of the four levels gives its message, unchanged, as its line of
    [Message]: the level is not prefixed a second time. *)
Theorem Message_tagged_line_unchanged
    (rs : Driver.AuditResult) (n : nat) (result : Driver.auditResult)
    (tag : string) :
  plain Normal = true -> plain Notice = true ->
  plain Warn = true -> plain ErrorL = true ->
  In tag levels ->
  rs.(Driver.results) !! n = Some result ->
  HasPrefix result.(Driver.message) ("[" +:+ tag +:+ "]") = true ->
  messages rs !! n = Some result.(Driver.message) /\
  Message rs = Join (messages rs) Driver.newline.
Proof.
  intros Hn Ht Hw He Htag Hres Hpre. split; [|reflexivity].
  unfold Driver.messages. rewrite list_lookup_fmap, Hres. simpl.
  f_equal. now apply line_tagged with (tag := tag).
Qed.

(** Formatting twice is formatting once: a line that [Message] built for a
    finding of one of the four levels is kept as it is when it is the message
    of a finding. *)
Lemma line_idempotent (result : Driver.auditResult) :
  plain Normal = true -> plain Notice = true ->
  plain Warn = true -> plain ErrorL = true ->
  In result.(Driver.level) levels ->
  line {| Driver.level := result.(Driver.level);
          Driver.message := line result |} = line result.
Proof.
  intros Hn Ht Hw He Hl.
  destruct (MatchString pattern result.(Driver.message)) eqn:Hm.
  - assert (line result = result.(Driver.message)) as ->
      by (unfold Driver.line; now rewrite Hm).
    unfold Driver.line; simpl. now rewrite Hm.
  - assert (line result =
            "[" +:+ result.(Driver.level) +:+ "]" +:+ result.(Driver.message))
      as -> by (unfold Driver.line; now rewrite Hm).
    apply line_tagged with (tag := result.(Driver.level)); try assumption.
    apply tag_prefix.
Qed.

(** C4.  A message that holds the letters osc and a closing bracket
    somewhere, here in the middle of a sentence that does not begin with a
    bracket, is its own line: the level of the finding is not prefixed,
    whatever the level constants are. *)
Theorem Message_untagged_line_raw (lvl : string) :
  plain Normal = true -> plain Notice = true ->
  plain Warn = true -> plain ErrorL = true ->
  Message {| Driver.results :=
               [{| Driver.level := lvl;
                   Driver.message := "use [pt-osc] now" |}] |}
  = "use [pt-osc] now" /\
  HasPrefix "use [pt-osc] now" "[" = false.
Proof.
  intros Hn Ht Hw He. split; [|reflexivity].
  unfold Driver.Message, Driver.messages, Driver.line, MatchString.
  rewrite parse_pattern by assumption. cbn [Driver.results map Driver.message].
  match goal with
  | |- context [if ?b then _ else _] => assert (b = true) as ->
  end; [|reflexivity].
  do 8 apply search_next.
  apply search_here with (its := [Chr "o"; Chr "s"; Chr "c"; Chr "]"]);
    [simpl; tauto | reflexivity].
Qed.

(** The ranks of the four levels, when the constants differ (a Go map
    literal with two equal constant keys does not compile). *)
Lemma rank_levels :
  NoDup levels ->
  rank Normal = 0%Z /\ rank Notice = 1%Z /\ rank Warn = 2%Z /\
  rank ErrorL = 3%Z.
Proof.
  intros Hnd.
  inversion_clear Hnd as [|? ? H1 Hnd1].
  inversion_clear Hnd1 as [|? ? H2 Hnd2].
  inversion_clear Hnd2 as [|? ? H3 _].
  apply not_elem_of_cons in H1 as [? H1].
  apply not_elem_of_cons in H1 as [? H1].
  apply not_elem_of_cons in H1 as [? _].
  apply not_elem_of_cons in H2 as [? H2].
  apply not_elem_of_cons in H2 as [? _].
  apply not_elem_of_cons in H3 as [? _].
  unfold Driver.index, Driver.RuleLevelMap.
  repeat split; simplify_map_eq; reflexivity.
Qed.

(** The loop of [Level], started at any level. *)
Lemma Level_loop_bound (l : list Driver.auditResult) : forall highest,
  (rank highest <=
   rank (fold_left
           (fun highest result =>
              if (rank highest <? rank result.(Driver.level))%Z
              then result.(Driver.level) else highest) l highest))%Z /\
  forall r, In r l ->
    (rank r.(Driver.level) <=
     rank (fold_left
             (fun highest result =>
                if (rank highest <? rank result.(Driver.level))%Z
                then result.(Driver.level) else highest) l highest))%Z.
Proof.
  induction l as [|x l IH]; intros highest; simpl.
  - split; [lia | tauto].
  - destruct (Z.ltb_spec (rank highest) (rank x.(Driver.level))) as [Hlt|Hge].
    + destruct (IH x.(Driver.level)) as [Hb Hall]. split; [lia|].
      intros r [<-|Hin]; [exact Hb | now apply Hall].
    + destruct (IH highest) as [Hb Hall]. split; [exact Hb|].
      intros r [<-|Hin]; [lia | now apply Hall].
Qed.

Lemma Level_loop_from (l : list Driver.auditResult) : forall highest,
  let out :=
    fold_left
      (fun highest result =>
         if (rank highest <? rank result.(Driver.level))%Z
         then result.(Driver.level) else highest) l highest in
  out = highest \/ exists r, In r l /\ r.(Driver.level) = out.
Proof.
  induction l as [|x l IH]; intros highest; simpl; [now left|].
  destruct (rank highest <? rank x.(Driver.level))%Z.
  - right. destruct (IH x.(Driver.level)) as [->|(r & Hin & Hr)]; eauto.
  - destruct (IH highest) as [->|(r & Hin & Hr)]; eauto.
Qed.

(** C7.  [Level] of no finding is Normal; [Level] of some findings, each of
    one of the four levels, is the level of one of them, and no finding has
    a level of a higher rank, where Normal < Notice < Warn < Error. *)
Theorem Level_highest (rs : Driver.AuditResult) :
  NoDup levels ->
  Forall (fun r => In r.(Driver.level) levels) rs.(Driver.results) ->
  (rank Normal < rank Notice < rank Warn /\ rank Warn < rank ErrorL)%Z /\
  (rs.(Driver.results) = [] -> Level rs = Normal) /\
  (rs.(Driver.results) <> [] ->
   (exists r, In r rs.(Driver.results) /\ r.(Driver.level) = Level rs) /\
   (forall r, In r rs.(Driver.results) ->
      (rank r.(Driver.level) <= rank (Level rs))%Z)).
Proof.
  intros Hnd Hknown. destruct rs as [l]. cbn [Driver.results] in *.
  destruct (rank_levels Hnd) as (R0 & R1 & R2 & R3).
  split; [lia|]. split.
  - intros ->. reflexivity.
  - intros Hne. unfold Driver.Level. cbn [Driver.results].
    destruct (Level_loop_bound l Normal) as [_ Hall].
    split; [|exact Hall].
    destruct (Level_loop_from l Normal) as [Heq|Hex]; [|exact Hex].
    destruct l as [|r0 l]; [congruence|].
    exists r0. split; [now left|].
    rewrite Heq.
    pose proof (Hall r0 (or_introl eq_refl)) as H0. rewrite Heq, R0 in H0.
    apply Forall_cons in Hknown as [Hk _].
    destruct Hk as [Hk|[Hk|[Hk|[Hk|[]]]]]; rewrite <- Hk in H0 |- *;
      [reflexivity|lia|lia|lia].
Qed.

(** The level is an upper bound whatever the levels of the findings are. *)
Lemma Level_upper_bound (rs : Driver.AuditResult) (r : Driver.auditResult) :
  In r rs.(Driver.results) -> (rank r.(Driver.level) <= rank (Level rs))%Z.
Proof. apply (Level_loop_bound rs.(Driver.results) Normal). Qed.

Variable arg : Type.
Variable Sprintf : string -> list arg -> string.

(** C10.  [Add] with an empty level or an empty message changes nothing:
    the findings, and with them [Level] and [Message], are as before. *)
Theorem Add_empty_noop
    (rs : Driver.AuditResult) (level message : string) (args : list arg) :
  level = "" \/ message = "" ->
  Driver.Add arg Sprintf rs level message args = rs /\
  Level (Driver.Add arg Sprintf rs level message args) = Level rs /\
  Message (Driver.Add arg Sprintf rs level message args) = Message rs.
Proof.
  intros H.
  assert (Driver.Add arg Sprintf rs level message args = rs) as ->;
    [|now repeat split].
  unfold Driver.Add. destruct H as [-> | ->]; simpl; [reflexivity|].
  now rewrite orb_true_r.
Qed.

(** With a level and a message, [Add] appends one finding. *)
Lemma Add_appends
    (rs : Driver.AuditResult) (level message : string) (args : list arg) :
  level <> "" -> message <> "" ->
  (Driver.Add arg Sprintf rs level message args).(Driver.results) =
  rs.(Driver.results) ++
    [{| Driver.level := level; Driver.message := Sprintf message args |}].
Proof.
  intros Hl Hm. unfold Driver.Add.
  apply String.eqb_neq in Hl, Hm. now rewrite Hl, Hm.
Qed.

End LevelFacts.

(** *** Instances *)

Lemma Message_tagged_line_unchanged_witness :
  Regexp.plain Examples.RuleLevelNormal = true /\
  In Examples.RuleLevelWarn
     [Examples.RuleLevelNormal; Examples.RuleLevelNotice;
      Examples.RuleLevelWarn; Examples.RuleLevelError] /\
  Driver.messages Examples.RuleLevelNormal Examples.RuleLevelNotice
    Examples.RuleLevelWarn Examples.RuleLevelError Examples.normal_and_warn
    !! 1 = Some "[Warn]no primary key".
Proof.
  split; [reflexivity|]. split; [simpl; tauto|].
  apply (Message_tagged_line_unchanged
           Examples.RuleLevelNormal Examples.RuleLevelNotice
           Examples.RuleLevelWarn Examples.RuleLevelError
           Examples.normal_and_warn 1
           {| Driver.level := Examples.RuleLevelWarn;
              Driver.message := "[Warn]no primary key" |}
           Examples.RuleLevelWarn);
    first [reflexivity | simpl; tauto].
Defined.

Lemma Message_untagged_line_raw_witness :
  Regexp.plain Examples.RuleLevelError = true /\
  Driver.Message Examples.RuleLevelNormal Examples.RuleLevelNotice
    Examples.RuleLevelWarn Examples.RuleLevelError
    {| Driver.results :=
         [{| Driver.level := Examples.RuleLevelError;
             Driver.message := "use [pt-osc] now" |}] |}
  = "use [pt-osc] now".
Proof.
  split; [reflexivity|].
  apply (Message_untagged_line_raw
           Examples.RuleLevelNormal Examples.RuleLevelNotice
           Examples.RuleLevelWarn Examples.RuleLevelError
           Examples.RuleLevelError); reflexivity.
Defined.

Lemma Level_highest_witness :
  NoDup [Examples.RuleLevelNormal; Examples.RuleLevelNotice;
         Examples.RuleLevelWarn; Examples.RuleLevelError] /\
  Examples.normal_and_warn.(Driver.results) <> [] /\
  (exists r, In r Examples.normal_and_warn.(Driver.results) /\
     r.(Driver.level) =
     Driver.Level Examples.RuleLevelNormal Examples.RuleLevelNotice
       Examples.RuleLevelWarn Examples.RuleLevelError
       Examples.normal_and_warn).
Proof.
  assert (Hnd : NoDup [Examples.RuleLevelNormal; Examples.RuleLevelNotice;
                       Examples.RuleLevelWarn; Examples.RuleLevelError]).
  { repeat constructor; rewrite ?elem_of_cons, ?elem_of_nil;
      intuition discriminate. }
  split; [exact Hnd|]. split; [discriminate|].
  apply (Level_highest
           Examples.RuleLevelNormal Examples.RuleLevelNotice
           Examples.RuleLevelWarn Examples.RuleLevelError
           Examples.normal_and_warn Hnd).
  - repeat constructor; simpl; tauto.
  - discriminate.
Defined.

Lemma Add_empty_noop_witness :
  Driver.Add string Examples.Sprintf Examples.normal_and_warn
    Examples.RuleLevelError "" []
  = Examples.normal_and_warn.
Proof.
  apply (Add_empty_noop
           Examples.RuleLevelNormal Examples.RuleLevelNotice
           Examples.RuleLevelWarn Examples.RuleLevelError
           string Examples.Sprintf Examples.normal_and_warn
           Examples.RuleLevelError "" []).
  right. reflexivity.
Defined.

(** ** Package [driver]: the registry *)

Section RegistryFacts.

Variable DriverT : Type.

(** A registered engine type: [NewDriver] gives what the handler gives, its
    error included. *)
Lemma NewDriver_registered
    (drivers : gmap string (Driver.handler DriverT))
    (d : Driver.handler DriverT) (inst : Driver.Instance) (schema : string) :
  drivers !! inst.(Driver.DbType) = Some d ->
  Driver.NewDriver DriverT drivers inst schema = d inst schema.
Proof.
  intros H. unfold Driver.NewDriver, Driver.handler in *. now rewrite H.
Qed.

(** An engine type that is not registered: no driver, and an error made by
    [fmt.Errorf].  Its text names the type, and is the text that an
    [ErrDriverNotSupported] of that type has, but it is not a value of that
    type. *)
Lemma NewDriver_not_registered
    (drivers : gmap string (Driver.handler DriverT))
    (inst : Driver.Instance) (schema : string) :
  drivers !! inst.(Driver.DbType) = None ->
  exists err,
    Driver.NewDriver DriverT drivers inst schema = (None, Some err) /\
    Driver.Error err =
      Driver.Error (Driver.ErrDriverNotSupported inst.(Driver.DbType)) /\
    Driver.is_ErrDriverNotSupported err = false.
Proof.
  intros H. unfold Driver.NewDriver, Driver.handler in *. rewrite H.
  eexists. split; [reflexivity|]. split; reflexivity.
Qed.

End RegistryFacts.

(** C6.  For the engine type oracle, which the registry does not hold,
    [NewDriver] returns the error that [fmt.Errorf] builds: its text is
    "driver type oracle is not supported", and it is not an
    [ErrDriverNotSupported]. *)
Theorem NewDriver_unknown_type_untyped :
  Examples.drivers !! Examples.oracle.(Driver.DbType) = None /\
  Driver.NewDriver unit Examples.drivers Examples.oracle "" =
    (None, Some (Driver.errorString "driver type oracle is not supported")) /\
  Driver.is_ErrDriverNotSupported
    (Driver.errorString "driver type oracle is not supported") = false /\
  Driver.errorString "driver type oracle is not supported" <>
    Driver.ErrDriverNotSupported "oracle".
Proof.
  split; [reflexivity|]. split; [reflexivity|]. split; [reflexivity|].
  discriminate.
Qed.

(** ** Package [inspector]: the rule checks *)

Section CheckFacts.

Import Ast Inspector.

Variables (E Ctx : Type).

Local Abbreviation missingPrimaryKey :=
  {| rule := DDL_CHECK_PRIMARY_KEY_EXIST; args := [] |}.
Local Abbreviation wrongPrimaryKeyType :=
  {| rule := DDL_CHECK_PRIMARY_KEY_TYPE; args := [] |}.

Lemma addResult_Results (i : Inspector Ctx) (name : string) (a : list string) :
  (addResult i name a).(Results) =
  i.(Results) ++ [{| rule := name; args := a |}].
Proof. reflexivity. Qed.

(** The loop over the columns, from any state. *)
Lemma primaryKey_cols_spec (cols : list ColumnDef.t) : forall hasPk pk,
  primaryKey_cols cols (hasPk, pk) =
  (hasPk ||
   existsb
     (fun col =>
        IsAllInOptions col.(ColumnDef.Options) [ColumnOptionPrimaryKey])
     cols,
   pk ||
   existsb
     (fun col =>
        IsAllInOptions col.(ColumnDef.Options) [ColumnOptionPrimaryKey] &&
        isAutoIncrementBigIntUnsigned col)
     cols).
Proof.
  unfold primaryKey_cols.
  induction cols as [|col cols IH]; intros hasPk pk; cbn [fold_left existsb].
  - now rewrite !orb_false_r.
  - destruct (IsAllInOptions (ColumnDef.Options col) [ColumnOptionPrimaryKey]);
      [destruct (isAutoIncrementBigIntUnsigned col)|]; rewrite IH;
      cbn [andb orb]; f_equal;
      rewrite ?orb_true_r, ?orb_true_l, ?orb_false_l; reflexivity.
Qed.

(** The inner loop of the loop over the constraints. *)
Lemma primaryKey_key_spec (columnName : string) (cols : list ColumnDef.t) :
  forall pk,
  fold_left
    (fun pk col =>
       if String.eqb col.(ColumnDef.Name) columnName
       then (if isAutoIncrementBigIntUnsigned col then true else pk)
       else pk) cols pk =
  pk ||
  existsb
    (fun col =>
       String.eqb col.(ColumnDef.Name) columnName &&
       isAutoIncrementBigIntUnsigned col) cols.
Proof.
  induction cols as [|col cols IH]; intros pk; cbn [fold_left existsb].
  - now rewrite orb_false_r.
  - rewrite IH.
    destruct (String.eqb (ColumnDef.Name col) columnName),
      (isAutoIncrementBigIntUnsigned col), pk; reflexivity.
Qed.

Lemma primaryKey_constraints_spec (stmt : CreateTableStmt.t)
    (cs : list Constraint.t) : forall hasPk pk,
  fold_left
    (fun '(hasPk, pk) constraint =>
       if bool_decide (constraint.(Constraint.Tp) = ConstraintPrimaryKey)
       then (true,
             match constraint.(Constraint.Keys) with
             | [key] =>
                 let columnName := key.(IndexColName.Column) in
                 fold_left
                   (fun pk col =>
                      if String.eqb col.(ColumnDef.Name) columnName
                      then (if isAutoIncrementBigIntUnsigned col then true
                            else pk)
                      else pk)
                   stmt.(CreateTableStmt.Cols) pk
             | _ => pk
             end)
       else (hasPk, pk)) cs (hasPk, pk) =
  (hasPk ||
   existsb (fun c => bool_decide (c.(Constraint.Tp) = ConstraintPrimaryKey)) cs,
   pk ||
   existsb
     (fun c =>
        bool_decide (c.(Constraint.Tp) = ConstraintPrimaryKey) &&
        match c.(Constraint.Keys) with
        | [key] =>
            existsb
              (fun col =>
                 String.eqb col.(ColumnDef.Name) key.(IndexColName.Column) &&
                 isAutoIncrementBigIntUnsigned col)
              stmt.(CreateTableStmt.Cols)
        | _ => false
        end) cs).
Proof.
  induction cs as [|c cs IH]; intros hasPk pk; cbn [fold_left existsb].
  - now rewrite !orb_false_r.
  - destruct (bool_decide (Constraint.Tp c = ConstraintPrimaryKey)).
    + rewrite IH. cbn [andb orb]. rewrite orb_true_r. f_equal.
      destruct (Constraint.Keys c) as [|key [|key' keys]];
        cbn zeta; rewrite ?primaryKey_key_spec, ?orb_false_l, ?orb_assoc;
        reflexivity.
    + rewrite IH. reflexivity.
Qed.

(** The state of [checkPrimaryKey] when its two loops end. *)
Lemma primaryKey_loops (stmt : CreateTableStmt.t) :
  primaryKey_constraints stmt
    (primaryKey_cols stmt.(CreateTableStmt.Cols) (false, false)) =
  (declaresPrimaryKey stmt, primaryKeyIsAutoIncrementBigIntUnsigned stmt).
Proof.
  rewrite primaryKey_cols_spec. unfold primaryKey_constraints.
  rewrite primaryKey_constraints_spec. reflexivity.
Qed.

(** The findings of one run of [checkPrimaryKey]. *)
Lemma checkPrimaryKey_findings
    (i : Inspector Ctx) (stmt : CreateTableStmt.t) (rule : string) :
  exists i',
    checkPrimaryKey (E := E) i (CreateTable stmt) rule = (i', Returned None) /\
    i'.(Results) =
      i.(Results) ++
      (if negb (declaresPrimaryKey stmt) then [missingPrimaryKey]
       else if negb (primaryKeyIsAutoIncrementBigIntUnsigned stmt)
            then [wrongPrimaryKeyType]
            else []).
Proof.
  unfold checkPrimaryKey. rewrite primaryKey_loops.
  destruct (declaresPrimaryKey stmt),
    (primaryKeyIsAutoIncrementBigIntUnsigned stmt);
    cbn [negb andb]; eexists; (split; [reflexivity|]);
    rewrite ?addResult_Results, ?app_nil_r; reflexivity.
Qed.

(** C3, as the code has it.  The two findings exclude each other: one run
    on a CREATE TABLE statement adds the missing-primary-key finding, once,
    when the statement declares no primary key; the wrong-type finding,
    once, when it declares one that is not on an auto-increment unsigned
    BIGINT column; and nothing otherwise. *)
Theorem checkPrimaryKey_one_finding
    (i : Inspector Ctx) (stmt : CreateTableStmt.t) (rule : string) :
  exists i' added,
    checkPrimaryKey (E := E) i (CreateTable stmt) rule = (i', Returned None) /\
    i'.(Results) = i.(Results) ++ added /\
    (added = [missingPrimaryKey] <-> declaresPrimaryKey stmt = false) /\
    (added = [wrongPrimaryKeyType] <->
       declaresPrimaryKey stmt = true /\
       primaryKeyIsAutoIncrementBigIntUnsigned stmt = false) /\
    (added = [] <->
       declaresPrimaryKey stmt = true /\
       primaryKeyIsAutoIncrementBigIntUnsigned stmt = true) /\
    ~ (In missingPrimaryKey added /\ In wrongPrimaryKeyType added).
Proof.
  destruct (checkPrimaryKey_findings i stmt rule) as (i' & Hrun & Hres).
  eexists i', _. split; [exact Hrun|]. split; [exact Hres|].
  destruct (declaresPrimaryKey stmt),
    (primaryKeyIsAutoIncrementBigIntUnsigned stmt); cbn [negb];
    repeat split; try discriminate; try tauto;
    try (intros [? ?]; discriminate);
    try (intros [H1 H2]; simpl in H1, H2; intuition discriminate).
Qed.

(** C2, as the code has it.  On CREATE TABLE t1 (id INT(10) UNSIGNED NOT
    NULL AUTO_INCREMENT PRIMARY KEY) one run adds no missing-primary-key
    finding and one wrong-primary-key-type finding, since INT is not BIGINT;
    with BIGINT for INT(10) it adds nothing; on CREATE TABLE t2 (id INT) it
    adds one missing-primary-key finding and nothing else. *)
Theorem checkPrimaryKey_t1_t2 (i : Inspector Ctx) (rule : string) :
  (checkPrimaryKey (E := E) i (CreateTable Examples.create_t1) rule
     = (addResult i DDL_CHECK_PRIMARY_KEY_TYPE [], Returned None) /\
   (addResult i DDL_CHECK_PRIMARY_KEY_TYPE []).(Results)
     = i.(Results) ++ [wrongPrimaryKeyType]) /\
  checkPrimaryKey (E := E) i (CreateTable Examples.create_t1_bigint) rule
     = (i, Returned None) /\
  (checkPrimaryKey (E := E) i (CreateTable Examples.create_t2) rule
     = (addResult i DDL_CHECK_PRIMARY_KEY_EXIST [], Returned None) /\
   (addResult i DDL_CHECK_PRIMARY_KEY_EXIST []).(Results)
     = i.(Results) ++ [missingPrimaryKey]).
Proof.
  assert (H1 : primaryKey_constraints Examples.create_t1
                 (primaryKey_cols Examples.create_t1.(CreateTableStmt.Cols)
                    (false, false)) = (true, false)) by reflexivity.
  assert (H2 : primaryKey_constraints Examples.create_t1_bigint
                 (primaryKey_cols
                    Examples.create_t1_bigint.(CreateTableStmt.Cols)
                    (false, false)) = (true, true)) by reflexivity.
  assert (H3 : primaryKey_constraints Examples.create_t2
                 (primaryKey_cols Examples.create_t2.(CreateTableStmt.Cols)
                    (false, false)) = (false, false)) by reflexivity.
  unfold checkPrimaryKey. rewrite H1, H2, H3. cbn [negb andb].
  repeat split.
Qed.

(** *** The names of new objects *)

Variable IsMysqlReservedKeyword : string -> bool.

Lemma existsb_eqb_In (x : string) (l : list string) :
  existsb (String.eqb x) l = true <-> In x l.
Proof.
  rewrite existsb_exists. split.
  - intros (y & Hy & Heq). apply String.eqb_eq in Heq. now subst.
  - intros H. exists x. split; [exact H | apply String.eqb_refl].
Qed.

Lemma RemoveArrayRepeat_from_spec (input : list string) : forall output,
  NoDup output ->
  NoDup (RemoveArrayRepeat_from output input) /\
  forall x, In x (RemoveArrayRepeat_from output input) <->
            In x output \/ In x input.
Proof.
  induction input as [|y input IH]; intros output Hnd; simpl.
  - split; [exact Hnd | tauto].
  - destruct (existsb (String.eqb y) output) eqn:Hy.
    + apply existsb_eqb_In in Hy. destruct (IH output Hnd) as [H1 H2].
      split; [exact H1|]. intros x. rewrite H2.
      split; [tauto|]. intros [H|[<-|H]]; tauto.
    + assert (Hnot : ~ In y output).
      { intros H. apply existsb_eqb_In in H. congruence. }
      destruct (IH (output ++ [y])) as [H1 H2].
      { apply NoDup_app. split; [exact Hnd|]. split.
        - intros x Hx Hx'. apply list_elem_of_singleton in Hx'. subst.
          apply Hnot. now apply list_elem_of_In.
        - apply NoDup_singleton. }
      split; [exact H1|]. intros x. rewrite H2, in_app_iff. simpl. tauto.
Qed.

(** The names listed in the reserved-keyword finding: each reserved name of
    the statement, once. *)
Lemma RemoveArrayRepeat_spec (input : list string) :
  NoDup (RemoveArrayRepeat input) /\
  forall x, In x (RemoveArrayRepeat input) <-> In x input.
Proof.
  destruct (RemoveArrayRepeat_from_spec input [] (NoDup_nil_2 (A := string)))
    as [H1 H2].
  split; [exact H1|]. intros x. unfold RemoveArrayRepeat. rewrite H2.
  simpl. tauto.
Qed.

(** The findings of the two checks on the names. *)
Lemma checkNames_findings (i : Inspector Ctx) (names : list string) :
  (checkNames IsMysqlReservedKeyword i names).(Results) =
  i.(Results) ++
  (if existsb (fun name => Nat.ltb 64 (String.length name)) names
   then [{| rule := DDL_CHECK_OBJECT_NAME_LENGTH; args := [] |}] else []) ++
  (if existsb IsMysqlReservedKeyword names
   then [{| rule := DDL_DISABLE_USING_KEYWORD;
            args :=
              [Join (RemoveArrayRepeat
                       (List.filter IsMysqlReservedKeyword names)) ", "] |}]
   else []).
Proof.
  unfold checkNames.
  assert (Hk : Nat.ltb 0 (length (List.filter IsMysqlReservedKeyword names)) =
               existsb IsMysqlReservedKeyword names).
  { induction names as [|n names IH]; [reflexivity|]. simpl.
    destruct (IsMysqlReservedKeyword n); [reflexivity | exact IH]. }
  rewrite Hk.
  destruct (existsb (fun name => Nat.ltb 64 (String.length name)) names),
    (existsb IsMysqlReservedKeyword names);
    rewrite ?addResult_Results, ?app_nil_r, <- ?app_assoc; reflexivity.
Qed.

(** The table of a CREATE TABLE is one of the new names. *)
Lemma newObjectNames_table (stmt : CreateTableStmt.t) :
  exists names,
    newObjectNames (CreateTable stmt) = Names names /\
    In stmt.(CreateTableStmt.Table).(TableName.Name) names.
Proof. eexists. split; [reflexivity | now left]. Qed.

(** C9.  Among the new names of a statement, a name of more than 64
    characters makes the check add the object-name-length finding, once; a
    reserved keyword makes it add the reserved-keyword finding, once, whose
    argument lists every reserved name of the statement, each once; a name
    that is both makes the run add exactly these two findings, which
    differ. *)
Theorem checkNewObjectName_findings
    (i : Inspector Ctx) (node : StmtNode) (rule : string)
    (names : list string) (name : string) :
  newObjectNames node = Names names ->
  In name names ->
  let listed := RemoveArrayRepeat (List.filter IsMysqlReservedKeyword names) in
  let tooLong := {| rule := DDL_CHECK_OBJECT_NAME_LENGTH; args := [] |} in
  let reserved :=
    {| rule := DDL_DISABLE_USING_KEYWORD; args := [Join listed ", "] |} in
  exists i' added,
    checkNewObjectName (E := E) IsMysqlReservedKeyword i node rule
      = (i', Returned None) /\
    i'.(Results) = i.(Results) ++ added /\
    NoDup listed /\
    (forall n, In n listed <-> In n names /\ IsMysqlReservedKeyword n = true) /\
    (64 < characters name ->
       exists rest, added = tooLong :: rest /\ ~ In tooLong rest) /\
    (IsMysqlReservedKeyword name = true ->
       exists before, added = before ++ [reserved] /\ ~ In reserved before) /\
    (64 < characters name -> IsMysqlReservedKeyword name = true ->
       added = [tooLong; reserved] /\ tooLong <> reserved).
Proof.
  intros Hnames Hin listed tooLong reserved.
  unfold checkNewObjectName. rewrite Hnames.
  eexists _, _. split; [reflexivity|]. split; [apply checkNames_findings|].
  destruct (RemoveArrayRepeat_spec (List.filter IsMysqlReservedKeyword names))
    as [Hnd Hlisted].
  split; [exact Hnd|]. split.
  { intros n. unfold listed. rewrite Hlisted. apply filter_In. }
  assert (Hlong : 64 < characters name ->
                  existsb (fun name => Nat.ltb 64 (String.length name)) names
                  = true).
  { intros H. apply existsb_exists. exists name. split; [exact Hin|].
    apply Nat.ltb_lt. pose proof (characters_le_len name). lia. }
  assert (Hkw : IsMysqlReservedKeyword name = true ->
                existsb IsMysqlReservedKeyword names = true).
  { intros H. apply existsb_exists. eauto. }
  assert (Hne : tooLong <> reserved) by discriminate.
  fold listed. fold tooLong. fold reserved.
  split; [|split].
  - intros H. rewrite (Hlong H). eexists. split; [reflexivity|].
    destruct (existsb IsMysqlReservedKeyword names); simpl;
      intuition congruence.
  - intros H. rewrite (Hkw H).
    destruct (existsb (fun name => Nat.ltb 64 (String.length name)) names).
    + exists [tooLong]. split; [reflexivity|]. simpl. intuition congruence.
    + exists []. split; [reflexivity|]. simpl. tauto.
  - intros H1 H2. rewrite (Hlong H1), (Hkw H2).
    split; [reflexivity | exact Hne].
Qed.

End CheckFacts.

(** ** Package [inspector]: [Advise] *)

Section AdviseFacts.

Import Ast Inspector.

Variables (E Ctx : Type).
Variable parseOneSql : string -> string -> StmtNode + E.
Variable RulesFunc : gmap string (option (checkFunc E Ctx)).
Variable updateSchemaCtx : Inspector Ctx -> StmtNode -> Inspector Ctx.
Variable closeDbConn : Inspector Ctx -> Inspector Ctx.
Variable Results_level : list Finding -> string.
Variable Results_message : list Finding -> string.
Variable TASK_ACTION_DONE : string.
Variable SQL_STMT_CONFLICT_ERROR : E.

Local Abbreviation classify := (Inspector.classify SQL_STMT_CONFLICT_ERROR).
Local Abbreviation runRules := (Inspector.runRules RulesFunc).
Local Abbreviation inspected :=
  (Inspector.inspected Results_level Results_message TASK_ACTION_DONE).
Local Abbreviation AdviseLoop :=
  (Inspector.AdviseLoop E Ctx parseOneSql RulesFunc updateSchemaCtx
     Results_level Results_message TASK_ACTION_DONE SQL_STMT_CONFLICT_ERROR).
Local Abbreviation Advise :=
  (Inspector.Advise E Ctx parseOneSql RulesFunc updateSchemaCtx closeDbConn
     Results_level Results_message TASK_ACTION_DONE SQL_STMT_CONFLICT_ERROR).
Local Abbreviation checksKeepSession := (Inspector.checksKeepSession RulesFunc).
Local Abbreviation updateKeepsSession :=
  (Inspector.updateKeepsSession updateSchemaCtx).

(** Splits the cases of one turn of the loop of [Advise]. *)
Ltac loop_cases H :=
  cbn [Inspector.AdviseLoop] in H |- *;
  destruct (parseOneSql _ _) as [?node|?err] eqn:?Hparse; [|discriminate H];
  destruct (Inspector.classify _ _ _) as [?ic|?err] eqn:?Hclass;
    [|discriminate H];
  destruct (Inspector.runRules _ _ _ _) as [?ir [[?err|]|]] eqn:?Hrules;
    [discriminate H | | discriminate H].

(** The loop on a batch of which a first part is processed: it goes on with
    the rest from the state that the first part left. *)
Lemma AdviseLoop_app (pre : list SqlRecord) :
  forall (i i1 : Inspector Ctx) (done rest : list SqlRecord),
  AdviseLoop i pre = (i1, done, Returned None) ->
  AdviseLoop i (pre ++ rest) =
  (let '(i2, rest', st) := AdviseLoop i1 rest in (i2, done ++ rest', st)).
Proof.
  induction pre as [|sql pre IH]; intros i i1 done rest H.
  - simpl in H. injection H as <- <-. simpl.
    now destruct (Inspector.AdviseLoop _ _ _ _ _ _ _ _ _ i rest) as [[? ?] ?].
  - rewrite <- app_comm_cons. loop_cases H.
    destruct (Inspector.AdviseLoop _ _ _ _ _ _ _ _ _ _ pre)
      as [[i5 r5] st5] eqn:Hloop.
    injection H as <- <- ->.
    rewrite (IH _ _ _ rest Hloop).
    now destruct (Inspector.AdviseLoop _ _ _ _ _ _ _ _ _ i5 rest) as [[? ?] ?].
Qed.

(** Every statement that the loop has gone past holds the status, the level
    and the message that lines 46-48 wrote to it. *)
Lemma AdviseLoop_records (pre : list SqlRecord) :
  forall (i i1 : Inspector Ctx) (done : list SqlRecord),
  AdviseLoop i pre = (i1, done, Returned None) ->
  Forall2 (fun old new => exists j : Inspector Ctx, new = inspected j old)
    pre done.
Proof.
  induction pre as [|sql pre IH]; intros i i1 done H.
  - simpl in H. injection H as <- <-. constructor.
  - loop_cases H.
    destruct (Inspector.AdviseLoop _ _ _ _ _ _ _ _ _ _ pre)
      as [[i5 r5] st5] eqn:Hloop.
    injection H as <- <- ->.
    constructor; [eauto | eapply IH; eauto].
Qed.

(** C1, as the code has it.  When a rule check function returns an error on
    a statement, [Advise] returns that error; that statement and the
    statements after it are as they were; the statements before it keep the
    status, the level and the message that were written to them. *)
Theorem Advise_check_error
    (i i1 ic i2 : Inspector Ctx) (pre done post : list SqlRecord)
    (sql : SqlRecord) (node : StmtNode) (err : E) :
  AdviseLoop i pre = (i1, done, Returned None) ->
  parseOneSql i1.(DbType) sql.(Sql) = inl node ->
  classify i1 node = inl ic ->
  runRules ic node ic.(Rules) = (i2, Returned (Some err)) ->
  Advise i (pre ++ sql :: post) =
    (closeDbConn i2, done ++ sql :: post, Returned (Some err)) /\
  Forall2 (fun old new => exists j : Inspector Ctx, new = inspected j old)
    pre done.
Proof.
  intros Hpre Hparse Hclass Hrules.
  split; [|now apply AdviseLoop_records with (i := i) (i1 := i1)].
  unfold Inspector.Advise. rewrite (AdviseLoop_app _ _ _ _ _ Hpre).
  cbn [Inspector.AdviseLoop]. rewrite Hparse, Hclass, Hrules. reflexivity.
Qed.

(** *** The kind of the batch *)

Lemma sameSession_refl (i : Inspector Ctx) : sameSession i i.
Proof. repeat split. Qed.

Lemma sameSession_trans (i j k : Inspector Ctx) :
  sameSession i j -> sameSession j k -> sameSession i k.
Proof.
  unfold sameSession. intros (? & ? & ?) (? & ? & ?).
  repeat split; congruence.
Qed.

Lemma runRules_session (node : StmtNode) (rules : list Rule) :
  checksKeepSession ->
  forall i, sameSession i (fst (runRules i node rules)).
Proof.
  intros Hfn. induction rules as [|rule rules IH]; intros i.
  - apply sameSession_refl.
  - cbn [Inspector.runRules].
    assert (Hcur : sameSession i (set_currentRule i rule)) by repeat split.
    destruct (RulesFunc !! Name rule) as [[fn|]|] eqn:Hlook.
    + pose proof (Hfn _ _ Hlook (set_currentRule i rule) node (Name rule))
        as Hs.
      destruct (fn (set_currentRule i rule) node (Name rule))
        as [j [[err|]|]]; cbn beta iota zeta delta [fst] in Hs |- *.
      * exact (sameSession_trans _ _ _ Hcur Hs).
      * exact (sameSession_trans _ _ _
                 (sameSession_trans _ _ _ Hcur Hs) (IH j)).
      * exact (sameSession_trans _ _ _ Hcur Hs).
    + eapply sameSession_trans; [exact Hcur | apply IH].
    + eapply sameSession_trans; [exact Hcur | apply IH].
Qed.

(** What [classify] does to the session. *)
Lemma classify_session (i ic : Inspector Ctx) (node : StmtNode) :
  classify i node = inl ic ->
  ic.(DbType) = i.(DbType) /\
  (i.(isDDLStmt) = true \/ kind_of node = DDLNode -> ic.(isDDLStmt) = true) /\
  (i.(isDMLStmt) = true \/ kind_of node = DMLNode -> ic.(isDMLStmt) = true).
Proof.
  unfold Inspector.classify. destruct (kind_of node).
  - destruct (isDMLStmt i) eqn:Hd; [discriminate|]. intros [= <-].
    cbn. rewrite Hd. intuition discriminate.
  - destruct (isDDLStmt i) eqn:Hd; [discriminate|]. intros [= <-].
    cbn. rewrite Hd. intuition discriminate.
  - intros [= <-]. intuition discriminate.
Qed.

(** One statement processed, up to the reset of the accumulator. *)
Lemma turn_session (i ic ir : Inspector Ctx) (node : StmtNode) st :
  checksKeepSession -> updateKeepsSession ->
  classify i node = inl ic ->
  runRules ic node ic.(Rules) = (ir, st) ->
  let j := set_Results (updateSchemaCtx ir node) newInspectResults in
  j.(DbType) = i.(DbType) /\
  (i.(isDDLStmt) = true \/ kind_of node = DDLNode -> j.(isDDLStmt) = true) /\
  (i.(isDMLStmt) = true \/ kind_of node = DMLNode -> j.(isDMLStmt) = true).
Proof.
  intros Hfn Hupd Hclass Hrules j.
  destruct (classify_session _ _ _ Hclass) as (Ht & Hddl & Hdml).
  pose proof (runRules_session node ic.(Rules) Hfn ic) as Hr.
  rewrite Hrules in Hr. cbn [fst] in Hr.
  destruct Hr as (Hr1 & Hr2 & Hr3).
  destruct (Hupd ir node) as (Hu1 & Hu2 & Hu3).
  subst j. cbn [DbType isDDLStmt isDMLStmt set_Results].
  rewrite Hu1, Hu2, Hu3, Hr1, Hr2, Hr3. auto.
Qed.

(** The loop never clears a kind flag, and a statement of a kind that it
    has gone past has set the flag of that kind. *)
Lemma AdviseLoop_kind (pre : list SqlRecord) :
  checksKeepSession -> updateKeepsSession ->
  forall (i i1 : Inspector Ctx) (done : list SqlRecord),
  AdviseLoop i pre = (i1, done, Returned None) ->
  i1.(DbType) = i.(DbType) /\
  (i.(isDDLStmt) = true -> i1.(isDDLStmt) = true) /\
  (i.(isDMLStmt) = true -> i1.(isDMLStmt) = true) /\
  forall d nd, In d pre -> parseOneSql i.(DbType) d.(Sql) = inl nd ->
    (kind_of nd = DDLNode -> i1.(isDDLStmt) = true) /\
    (kind_of nd = DMLNode -> i1.(isDMLStmt) = true).
Proof.
  intros Hfn Hupd.
  induction pre as [|sql pre IH]; intros i i1 done H.
  - simpl in H. injection H as <- <-. repeat split; auto; contradiction.
  - loop_cases H.
    destruct (Inspector.AdviseLoop _ _ _ _ _ _ _ _ _ _ pre)
      as [[i5 r5] st5] eqn:Hloop.
    injection H as <- <- ->.
    destruct (turn_session _ _ _ _ _ Hfn Hupd Hclass Hrules)
      as (Ht & Hddl & Hdml).
    destruct (IH _ _ _ Hloop) as (It & Iddl & Idml & Iall).
    split; [congruence|]. split; [auto|]. split; [auto|].
    intros d nd [<-|Hin] Hd.
    + rewrite Hparse in Hd. injection Hd as <-. split; auto.
    + apply (Iall d nd Hin). now rewrite Ht.
Qed.

(** C5.  In a batch in which an earlier statement is DDL, a DML statement
    that the loop reaches makes [Advise] return the conflict error; so does
    a DDL statement after an earlier DML one.  The inspector is then as the
    statements before left it, so no rule check has run on the statement,
    and its record and the records after it are as they were. *)
Theorem Advise_kind_conflict
    (i i1 : Inspector Ctx) (pre done post : list SqlRecord)
    (d sql : SqlRecord) (nd node : StmtNode) :
  checksKeepSession -> updateKeepsSession ->
  AdviseLoop i pre = (i1, done, Returned None) ->
  In d pre ->
  parseOneSql i.(DbType) d.(Sql) = inl nd ->
  parseOneSql i.(DbType) sql.(Sql) = inl node ->
  (kind_of nd = DDLNode /\ kind_of node = DMLNode) \/
  (kind_of nd = DMLNode /\ kind_of node = DDLNode) ->
  Advise i (pre ++ sql :: post) =
    (closeDbConn i1, done ++ sql :: post,
     Returned (Some SQL_STMT_CONFLICT_ERROR)).
Proof.
  intros Hfn Hupd Hpre Hin Hd Hparse Hkinds.
  destruct (AdviseLoop_kind pre Hfn Hupd _ _ _ Hpre) as (Ht & _ & _ & Hall).
  destruct (Hall d nd Hin Hd) as [Hddl Hdml].
  unfold Inspector.Advise. rewrite (AdviseLoop_app _ _ _ _ _ Hpre).
  cbn [Inspector.AdviseLoop]. rewrite Ht, Hparse.
  unfold Inspector.classify.
  destruct Hkinds as [[Hk1 Hk2]|[Hk1 Hk2]]; rewrite Hk2.
  - rewrite (Hddl Hk1). reflexivity.
  - rewrite (Hdml Hk1). reflexivity.
Qed.

End AdviseFacts.

(** ** The examples of the spec *)

Import Ast Inspector.

Lemma addResult_session {Ctx : Type} (i : Inspector Ctx) name a :
  sameSession i (addResult i name a).
Proof. repeat split. Qed.

Lemma checkPrimaryKey_session {E Ctx : Type} (i : Inspector Ctx) node rule :
  sameSession i (fst (checkPrimaryKey (E := E) i node rule)).
Proof.
  destruct node; try (repeat split; fail).
  unfold checkPrimaryKey.
  destruct (primaryKey_constraints _ _) as [[] []]; repeat split.
Qed.

Lemma reportIndex_session {Ctx : Type} (i : Inspector Ctx) n m :
  sameSession i (reportIndex Ctx i n m).
Proof.
  unfold reportIndex. destruct (n >? 5)%Z, (m >? 5)%Z; repeat split.
Qed.

(** [checkIndex] in a session whose engine cannot be reached. *)
Lemma checkIndex_session (i : Inspector unit) node rule :
  sameSession i
    (fst (checkIndex (E := string) Examples.getTableName
            Examples.getCreateTableStmt i node rule)).
Proof.
  destruct node; unfold checkIndex;
    try destruct (fold_left _ _ _) as [n m];
    first [apply reportIndex_session | repeat split].
Qed.

Lemma example_checks_keep_session : checksKeepSession Examples.RulesFunc.
Proof.
  intros name fn H i node rule. unfold Examples.RulesFunc in H.
  apply lookup_insert_Some in H as [[_ H]|[_ H]].
  { injection H as <-. apply checkPrimaryKey_session. }
  apply lookup_insert_Some in H as [[_ H]|[_ H]].
  { injection H as <-. apply checkIndex_session. }
  apply lookup_singleton_Some in H as [_ H]. discriminate H.
Qed.

(** C1.  The batch CREATE TABLE t2 (id INT); ALTER TABLE t0 ADD INDEX idx1
    (id); CREATE TABLE t1 (id INT), with an engine that cannot be reached:
    [checkIndex] fails on the second statement and [Advise] returns its
    error, yet the batch is not left without a recorded result: the first
    statement has its status, level and message written. *)
Lemma Advise_error_keeps_earlier_results :
  ~ (forall i' batch err,
       Examples.Advise Examples.inspector Examples.create_then_alter =
         (i', batch, Returned (Some err)) ->
       Forall2
         (fun old new =>
            new.(InspectStatus) = old.(InspectStatus) /\
            new.(InspectLevel) = old.(InspectLevel) /\
            new.(InspectResult) = old.(InspectResult))
         Examples.create_then_alter batch).
Proof.
  intros H.
  specialize (H (Examples.closeDbConn Examples.failed_alter_t0)
                [Examples.inspected_t2;
                 Examples.statement "ALTER TABLE t0 ADD INDEX idx1 (id)";
                 Examples.statement "CREATE TABLE t1 (id INT)"]
                "connection refused" eq_refl).
  inversion H as [|old new ? ? (Hstatus & _) _]; subst.
  discriminate Hstatus.
Qed.

(** C2.  One run of the check on CREATE TABLE t1 (id INT(10) UNSIGNED NOT
    NULL AUTO_INCREMENT PRIMARY KEY), from an empty accumulator, leaves a
    wrong-primary-key-type finding in it. *)
Lemma checkPrimaryKey_t1_wrong_type :
  ~ (forall f,
       In f (fst (checkPrimaryKey (E := string) Examples.inspector
                    (CreateTable Examples.create_t1)
                    DDL_CHECK_PRIMARY_KEY_TYPE)).(Results) ->
       f.(rule) <> DDL_CHECK_PRIMARY_KEY_EXIST /\
       f.(rule) <> DDL_CHECK_PRIMARY_KEY_TYPE).
Proof.
  intros H.
  destruct (H {| rule := DDL_CHECK_PRIMARY_KEY_TYPE; args := [] |}) as [_ Hne].
  - now left.
  - now apply Hne.
Qed.

(** C3.  No CREATE TABLE statement makes one run of the check add both the
    missing-primary-key finding and the wrong-primary-key-type finding. *)
Lemma checkPrimaryKey_never_both :
  ~ exists (stmt : CreateTableStmt.t) (i : Inspector unit) (rule : string)
      (added : list Finding),
      (fst (checkPrimaryKey (E := string) i (CreateTable stmt) rule)).(Results)
        = i.(Results) ++ added /\
      In {| rule := DDL_CHECK_PRIMARY_KEY_EXIST; args := [] |} added /\
      In {| rule := DDL_CHECK_PRIMARY_KEY_TYPE; args := [] |} added.
Proof.
  intros (stmt & i & rule & added & Hres & Hm & Hw).
  destruct (checkPrimaryKey_findings string unit i stmt rule)
    as (i' & Hrun & Hres').
  rewrite Hrun in Hres. cbn [fst] in Hres. rewrite Hres' in Hres.
  apply app_inv_head in Hres. subst added.
  destruct (declaresPrimaryKey stmt),
    (primaryKeyIsAutoIncrementBigIntUnsigned stmt);
    simpl in Hm, Hw; intuition discriminate.
Qed.

(** *** Instances *)

Lemma Advise_check_error_witness :
  Examples.AdviseLoop Examples.inspector
    [Examples.statement "CREATE TABLE t2 (id INT)"]
  = (Examples.after_create_t2, [Examples.inspected_t2], Returned None) /\
  Examples.Advise Examples.inspector Examples.create_then_alter =
    (Examples.closeDbConn Examples.failed_alter_t0,
     [Examples.inspected_t2;
      Examples.statement "ALTER TABLE t0 ADD INDEX idx1 (id)";
      Examples.statement "CREATE TABLE t1 (id INT)"],
     Returned (Some "connection refused")).
Proof.
  split; [vm_compute; reflexivity|].
  apply (Advise_check_error string unit Examples.parseOneSql
           Examples.RulesFunc Examples.updateSchemaCtx Examples.closeDbConn
           Examples.Results_level Examples.Results_message
           Examples.TASK_ACTION_DONE Examples.SQL_STMT_CONFLICT_ERROR
           Examples.inspector Examples.after_create_t2
           (set_isDDLStmt Examples.after_create_t2 true)
           Examples.failed_alter_t0
           [Examples.statement "CREATE TABLE t2 (id INT)"]
           [Examples.inspected_t2]
           [Examples.statement "CREATE TABLE t1 (id INT)"]
           (Examples.statement "ALTER TABLE t0 ADD INDEX idx1 (id)")
           (AlterTable Examples.alter_t0) "connection refused");
    vm_compute; reflexivity.
Defined.

Lemma Advise_kind_conflict_witness :
  In (Examples.statement "CREATE TABLE t1 (id INT)")
     [Examples.statement "CREATE TABLE t1 (id INT)"] /\
  kind_of (CreateTable Examples.create_t1_int) = DDLNode /\
  kind_of Select = DMLNode /\
  Examples.Advise Examples.inspector Examples.create_then_select =
    (Examples.closeDbConn Examples.after_create_t1,
     [Examples.inspected_t1;
      Examples.statement "SELECT * FROM t1";
      Examples.statement "CREATE TABLE t2 (id INT)"],
     Returned (Some Examples.SQL_STMT_CONFLICT_ERROR)).
Proof.
  split; [now left|]. split; [reflexivity|]. split; [reflexivity|].
  apply (Advise_kind_conflict string unit Examples.parseOneSql
           Examples.RulesFunc Examples.updateSchemaCtx Examples.closeDbConn
           Examples.Results_level Examples.Results_message
           Examples.TASK_ACTION_DONE Examples.SQL_STMT_CONFLICT_ERROR
           Examples.inspector Examples.after_create_t1
           [Examples.statement "CREATE TABLE t1 (id INT)"]
           [Examples.inspected_t1]
           [Examples.statement "CREATE TABLE t2 (id INT)"]
           (Examples.statement "CREATE TABLE t1 (id INT)")
           (Examples.statement "SELECT * FROM t1")
           (CreateTable Examples.create_t1_int) Select).
  - exact example_checks_keep_session.
  - intros i node. repeat split.
  - vm_compute; reflexivity.
  - now left.
  - reflexivity.
  - reflexivity.
  - left. split; reflexivity.
Defined.

Lemma checkNewObjectName_findings_witness :
  newObjectNames (CreateTable Examples.create_long) =
    Names [Examples.long_name; "select"; "select"] /\
  64 < characters Examples.long_name /\
  Examples.IsMysqlReservedKeyword Examples.long_name = true /\
  exists i',
    checkNewObjectName (E := string) Examples.IsMysqlReservedKeyword
      Examples.inspector (CreateTable Examples.create_long)
      DDL_DISABLE_USING_KEYWORD = (i', Returned None) /\
    i'.(Results) =
      [{| rule := DDL_CHECK_OBJECT_NAME_LENGTH; args := [] |};
       {| rule := DDL_DISABLE_USING_KEYWORD;
          args := [Examples.long_name +:+ ", select"] |}].
Proof.
  assert (Hlen : 64 < characters Examples.long_name) by (vm_compute; lia).
  split; [reflexivity|]. split; [exact Hlen|]. split; [reflexivity|].
  destruct (checkNewObjectName_findings string unit
              Examples.IsMysqlReservedKeyword Examples.inspector
              (CreateTable Examples.create_long) DDL_DISABLE_USING_KEYWORD
              [Examples.long_name; "select"; "select"] Examples.long_name
              eq_refl (or_introl eq_refl))
    as (i' & added & Hrun & Hres & _ & _ & _ & _ & Hboth).
  exists i'. split; [exact Hrun|].
  destruct (Hboth Hlen eq_refl) as [-> _]. exact Hres.
Defined.

(** * Further properties *)

(** ** Package [driver]: [Register], [NewDriver], [AllRules], [AllDrivers] *)

Section RegistryStateFacts.

Variables (DriverT Rule : Type).

Local Abbreviation state := (Registry.state DriverT Rule).
Local Abbreviation plugin := (Registry.plugin DriverT Rule).

(** The name that a plugin registers. *)
Local Abbreviation names :=
  (List.map (fun p : plugin => p.1.1)).

Lemma Register_inv (st st' : state) name h (rs : list Rule) :
  Registry.Register st name h rs = Some st' ->
  st.(Registry.drivers) !! name = None /\
  st'.(Registry.drivers) = <[name := h]> st.(Registry.drivers) /\
  st'.(Registry.rules) = st.(Registry.rules) ++ rs.
Proof.
  unfold Registry.Register, Driver.Register, Driver.handler in *.
  destruct (_ !! name) eqn:Hfree; [discriminate|].
  cbn. intros H. injection H as <-. repeat split.
Qed.

Lemma Register_taken (st : state) name h (rs : list Rule) :
  Registry.Register st name h rs = None <->
  is_Some (st.(Registry.drivers) !! name).
Proof.
  unfold Registry.Register, Driver.Register, Driver.handler in *.
  destruct (_ !! name) eqn:Hfree; split;
    first [discriminate | intros [? ?]; discriminate | eauto].
Qed.

(** X1.  Once [Register] has bound a name, [NewDriver] for an instance of
    that type gives what the handler gives, where before it gave the
    not-supported error; instances of every other type get what they got
    before. *)
Theorem Register_then_NewDriver
    (st st' : state) (name : string) (h : Driver.handler DriverT)
    (rs : list Rule) (inst : Driver.Instance) (schema : string) :
  Registry.Register st name h rs = Some st' ->
  (inst.(Driver.DbType) = name ->
   Registry.NewDriver st inst schema =
     (None, Some (Driver.errorString
                    ("driver type " +:+ name +:+ " is not supported"))) /\
   Registry.NewDriver st' inst schema = h inst schema) /\
  (inst.(Driver.DbType) <> name ->
   Registry.NewDriver st' inst schema = Registry.NewDriver st inst schema).
Proof.
  intros H. apply Register_inv in H as (Hfree & Hd & _).
  unfold Registry.NewDriver, Driver.NewDriver, Driver.handler in *.
  rewrite Hd. split.
  - intros ->. rewrite Hfree, lookup_insert_eq. split; reflexivity.
  - intros Hne. rewrite lookup_insert_ne by congruence. reflexivity.
Qed.

(** X2.  A name that [Register] has bound cannot be bound again: the second
    call panics, whatever handler and rules it brings. *)
Theorem Register_twice_panics
    (st st' : state) (name : string) (h h' : Driver.handler DriverT)
    (rs rs' : list Rule) :
  Registry.Register st name h rs = Some st' ->
  Registry.Register st' name h' rs' = None.
Proof.
  intros H. apply Register_inv in H as (_ & Hd & _).
  apply Register_taken. unfold Driver.handler in *.
  rewrite Hd, lookup_insert_eq. eauto.
Qed.

Lemma RegisterAll_inv (plugins : list plugin) : forall st st' : state,
  Registry.RegisterAll st plugins = Some st' ->
  st'.(Registry.rules) = st.(Registry.rules) ++ concat (List.map snd plugins) /\
  NoDup (names plugins) /\
  (forall name, In name (names plugins) ->
     st.(Registry.drivers) !! name = None) /\
  (forall name h rs, In (name, h, rs) plugins ->
     st'.(Registry.drivers) !! name = Some h) /\
  (forall name, ~ In name (names plugins) ->
     st'.(Registry.drivers) !! name = st.(Registry.drivers) !! name).
Proof.
  induction plugins as [|[[name h] rs] plugins IH]; intros st st' H.
  - injection H as <-. simpl. rewrite app_nil_r.
    repeat split; try tauto. constructor.
  - cbn [Registry.RegisterAll] in H.
    destruct (Registry.Register st name h rs) as [st1|] eqn:Hreg;
      [|discriminate].
    apply Register_inv in Hreg as (Hfree & Hd & Hr).
    destruct (IH _ _ H) as (Hrules & Hnd & Hnew & Hbound & Hother).
    unfold Driver.handler in *.
    assert (Hnotin : ~ In name (names plugins)).
    { intros Hin. specialize (Hnew _ Hin).
      rewrite Hd, lookup_insert_eq in Hnew. discriminate. }
    split; [|split; [|split; [|split]]].
    + rewrite Hrules, Hr. cbn. now rewrite app_assoc.
    + cbn. apply NoDup_cons. split; [|exact Hnd].
      intros Hin. apply Hnotin. now apply list_elem_of_In.
    + intros n [<-|Hin]; [exact Hfree|].
      specialize (Hnew _ Hin). rewrite Hd in Hnew.
      destruct (decide (name = n)) as [->|Hne]; [contradiction|].
      now rewrite lookup_insert_ne in Hnew.
    + intros n h0 rs0 [[= <- <- <-]|Hin]; [|eauto].
      rewrite (Hother _ Hnotin), Hd. apply lookup_insert_eq.
    + intros n Hn. cbn in Hn.
      rewrite Hother by tauto. rewrite Hd.
      apply lookup_insert_ne. tauto.
Qed.

(** X3.  When the plugins of a start-up have all registered, [AllRules] is
    their rules in the order of registration, nothing merged or dropped;
    their names differ from each other and are, in some order, what
    [AllDrivers] lists; and [NewDriver] for the type of any of them calls
    its handler. *)
Theorem RegisterAll_catalogue
    (plugins : list plugin) (st : state)
    (name : string) (h : Driver.handler DriverT) (rs : list Rule)
    (inst : Driver.Instance) (schema : string) :
  Registry.RegisterAll Registry.init plugins = Some st ->
  In (name, h, rs) plugins ->
  inst.(Driver.DbType) = name ->
  Registry.AllRules st = concat (List.map snd plugins) /\
  NoDup (names plugins) /\
  Permutation (Registry.AllDrivers st) (names plugins) /\
  Registry.NewDriver st inst schema = h inst schema.
Proof.
  intros H Hin Hty.
  destruct (RegisterAll_inv _ _ _ H) as (Hrules & Hnd & _ & Hbound & Hother).
  split; [exact Hrules|]. split; [exact Hnd|]. split.
  - apply NoDup_Permutation; [apply NoDup_fst_map_to_list | exact Hnd |].
    intros n. unfold Registry.AllDrivers. rewrite list_elem_of_fmap. split.
    + intros ([n' x] & -> & Hx). apply elem_of_map_to_list in Hx. cbn in Hx.
      apply list_elem_of_In.
      destruct (In_dec string_dec n' (names plugins)) as [Hi|Hni];
        [exact Hi|].
      unfold Driver.handler in *. rewrite (Hother _ Hni) in Hx.
      cbn in Hx. rewrite lookup_empty in Hx. discriminate.
    + intros Hn. apply list_elem_of_In, in_map_iff in Hn
        as ([[n' h'] rs'] & <- & Hp).
      exists (n', h'). split; [reflexivity|].
      apply elem_of_map_to_list. eauto.
  - unfold Registry.NewDriver, Driver.NewDriver, Driver.handler in *.
    rewrite Hty, (Hbound _ _ _ Hin). reflexivity.
Qed.

(** Plugins of different names always register, on an empty registry. *)
Lemma RegisterAll_succeeds (plugins : list plugin) : forall st : state,
  NoDup (names plugins) ->
  (forall name, In name (names plugins) ->
     st.(Registry.drivers) !! name = None) ->
  exists st', Registry.RegisterAll st plugins = Some st'.
Proof.
  induction plugins as [|[[name h] rs] plugins IH]; intros st Hnd Hfree.
  - eexists. reflexivity.
  - cbn [Registry.RegisterAll]. cbn in Hnd. apply NoDup_cons in Hnd as [Hn Hnd].
    destruct (Registry.Register st name h rs) as [st1|] eqn:Hreg.
    + apply IH; [exact Hnd|]. intros n Hin.
      apply Register_inv in Hreg as (_ & Hd & _).
      unfold Driver.handler in *. rewrite Hd.
      rewrite lookup_insert_ne.
      * apply Hfree. now right.
      * intros ->. apply Hn. now apply list_elem_of_In.
    + apply Register_taken in Hreg as [x Hx].
      unfold Driver.handler in *.
      rewrite Hfree in Hx by now left. discriminate.
Qed.

(** X4.  [AllDrivers] lists every bound name once and nothing else: a name
    is in the list exactly when [Register] would panic on it. *)
Theorem AllDrivers_registered
    (st : state) (name : string) (h : Driver.handler DriverT)
    (rs : list Rule) :
  NoDup (Registry.AllDrivers st) /\
  (In name (Registry.AllDrivers st) <->
   Registry.Register st name h rs = None).
Proof.
  unfold Registry.AllDrivers. split.
  - apply NoDup_fst_map_to_list.
  - rewrite Register_taken, <- list_elem_of_In, list_elem_of_fmap. split.
    + intros ([n x] & -> & Hx). apply elem_of_map_to_list in Hx. eauto.
    + intros [x Hx]. exists (name, x). split; [reflexivity|].
      now apply elem_of_map_to_list.
Qed.

End RegistryStateFacts.

(** ** Package [driver]: findings added one after the other *)

Section AuditResultFacts.

Variables Normal Notice Warn ErrorL : string.
Variable arg : Type.
Variable Sprintf : string -> list arg -> string.

Local Abbreviation RuleLevelMap :=
  (Driver.RuleLevelMap Normal Notice Warn ErrorL).
Local Abbreviation rank := (Driver.index RuleLevelMap).
Local Abbreviation Level := (Driver.Level Normal Notice Warn ErrorL).
Local Abbreviation pattern := (Driver.pattern Normal Notice Warn ErrorL).
Local Abbreviation line := (Driver.line Normal Notice Warn ErrorL).
Local Abbreviation messages := (Driver.messages Normal Notice Warn ErrorL).
Local Abbreviation Message := (Driver.Message Normal Notice Warn ErrorL).
Local Abbreviation Add := (Driver.Add arg Sprintf).
Local Abbreviation levels := [Normal; Notice; Warn; ErrorL].

(** X5.  The line of a finding is its message as it is exactly when the
    message begins with an open bracket and the Error level, or holds
    somewhere the Warn, the Notice or the Normal level, or osc and a
    closing bracket; in every other case it is the message behind the
    bracketed level of the finding. *)
Theorem line_cases (result : Driver.auditResult) :
  Regexp.plain Normal = true -> Regexp.plain Notice = true ->
  Regexp.plain Warn = true -> Regexp.plain ErrorL = true ->
  line result =
  if HasPrefix result.(Driver.message) ("[" +:+ ErrorL) ||
     Contains result.(Driver.message) Warn ||
     Contains result.(Driver.message) Notice ||
     Contains result.(Driver.message) Normal ||
     Contains result.(Driver.message) "osc]"
  then result.(Driver.message)
  else "[" +:+ result.(Driver.level) +:+ "]" +:+ result.(Driver.message).
Proof.
  intros Hn Ht Hw He. unfold Driver.line.
  now rewrite (MatchString_pattern Normal Notice Warn ErrorL _ Hn Ht Hw He).
Qed.

(** The rank of any string is one of 0, 1, 2 and 3. *)
Lemma rank_range (l : string) : (0 <= rank l <= 3)%Z.
Proof.
  unfold Driver.index, Driver.RuleLevelMap.
  repeat (rewrite lookup_insert; case_decide; [cbn; lia|]).
  rewrite lookup_singleton. case_decide; cbn; lia.
Qed.

Lemma rank_Normal : rank Normal = 0%Z.
Proof.
  unfold Driver.index, Driver.RuleLevelMap. now rewrite lookup_insert_eq.
Qed.

(** On the four levels the rank tells the level. *)
Lemma rank_inj (a b : string) :
  NoDup levels -> In a levels -> In b levels -> rank a = rank b -> a = b.
Proof.
  intros Hnd Ha Hb Hr.
  destruct (rank_levels Normal Notice Warn ErrorL Hnd) as (R0 & R1 & R2 & R3).
  simpl in Ha, Hb.
  destruct Ha as [<-|[<-|[<-|[<-|[]]]]], Hb as [<-|[<-|[<-|[<-|[]]]]];
    first [reflexivity | exfalso; lia].
Qed.

(** X6.  After [Add] of a finding with a level and a message, [Level] is
    the level of that finding when its rank is above the rank of the level
    before, and the level before otherwise. *)
Theorem Level_Add
    (rs : Driver.AuditResult) (level message : string) (args : list arg) :
  level <> "" -> message <> "" ->
  Level (Add rs level message args) =
  if (rank (Level rs) <? rank level)%Z then level else Level rs.
Proof.
  intros Hl Hm. unfold Driver.Level.
  rewrite (Add_appends arg Sprintf rs level message args Hl Hm).
  now rewrite fold_left_app.
Qed.

Lemma Join_snoc (sep x : string) (l : list string) :
  Join (l ++ [x]) sep =
  match l with [] => x | _ => Join l sep +:+ sep +:+ x end.
Proof.
  unfold Join. induction l as [|a l IH]; [reflexivity|].
  destruct l as [|b l]; [reflexivity|].
  change (String.concat sep ((a :: b :: l) ++ [x]))
    with (a +:+ sep +:+ String.concat sep ((b :: l) ++ [x])).
  rewrite IH.
  change (String.concat sep (a :: b :: l))
    with (a +:+ sep +:+ String.concat sep (b :: l)).
  now rewrite !append_assoc.
Qed.

(** X7.  After [Add] of a finding with a level and a message, [Message] is
    the message before, a newline, and the line of the new finding; the
    first finding gives its line alone. *)
Theorem Message_Add
    (rs : Driver.AuditResult) (level message : string) (args : list arg) :
  level <> "" -> message <> "" ->
  let added :=
    {| Driver.level := level; Driver.message := Sprintf message args |} in
  Message (Add rs level message args) =
  match rs.(Driver.results) with
  | [] => line added
  | _ => Message rs +:+ Driver.newline +:+ line added
  end.
Proof.
  intros Hl Hm added. unfold Driver.Message, Driver.messages.
  rewrite (Add_appends arg Sprintf rs level message args Hl Hm).
  rewrite map_app. cbn [map]. rewrite Join_snoc.
  now destruct rs.(Driver.results).
Qed.

(** X8.  [Level] does not depend on the order of the findings, when their
    levels are among the four. *)
Theorem Level_Permutation (rs1 rs2 : Driver.AuditResult) :
  NoDup levels ->
  Forall (fun r => In r.(Driver.level) levels) rs1.(Driver.results) ->
  Permutation rs1.(Driver.results) rs2.(Driver.results) ->
  Level rs1 = Level rs2.
Proof.
  intros Hnd Hknown Hperm.
  assert (Hknown2 : Forall (fun r => In r.(Driver.level) levels)
                      rs2.(Driver.results)).
  { rewrite Forall_forall in Hknown |- *. intros r Hr. apply Hknown.
    rewrite list_elem_of_In in Hr |- *.
    eapply Permutation_in; [symmetry; exact Hperm | exact Hr]. }
  assert (Hside : forall a b : Driver.AuditResult,
             Forall (fun r => In r.(Driver.level) levels) a.(Driver.results) ->
             (forall r, In r a.(Driver.results) -> In r b.(Driver.results)) ->
             In (Level a) levels /\ (rank (Level a) <= rank (Level b))%Z).
  { intros a b Ha Hab. unfold Driver.Level.
    destruct (Level_loop_from Normal Notice Warn ErrorL a.(Driver.results)
                Normal) as [Heq|(r & Hr & Hlr)]; cbv zeta in *.
    - rewrite Heq. split; [now left|].
      apply (Level_loop_bound Normal Notice Warn ErrorL b.(Driver.results)
               Normal).
    - rewrite <- Hlr. split.
      + rewrite Forall_forall in Ha. apply Ha. now apply list_elem_of_In.
      + apply (Level_loop_bound Normal Notice Warn ErrorL
                 b.(Driver.results) Normal). now apply Hab. }
  destruct (Hside rs1 rs2 Hknown) as [H1 H12].
  { intros r. apply Permutation_in. exact Hperm. }
  destruct (Hside rs2 rs1 Hknown2) as [H2 H21].
  { intros r. apply Permutation_in. symmetry. exact Hperm. }
  apply rank_inj; try assumption. lia.
Qed.

(** The loop of [Level] passes over a finding whose level has rank 0. *)
Lemma Level_loop_rank0 (l : list Driver.auditResult) : forall highest,
  fold_left
    (fun highest result =>
       if (rank highest <? rank result.(Driver.level))%Z
       then result.(Driver.level) else highest)
    (List.filter (fun r => (0 <? rank r.(Driver.level))%Z) l) highest =
  fold_left
    (fun highest result =>
       if (rank highest <? rank result.(Driver.level))%Z
       then result.(Driver.level) else highest) l highest.
Proof.
  induction l as [|x l IH]; intros highest; [reflexivity|].
  cbn [List.filter fold_left].
  destruct (Z.ltb_spec 0 (rank x.(Driver.level))) as [Hpos|Hzero].
  - cbn [fold_left]. apply IH.
  - rewrite IH. pose proof (rank_range highest).
    destruct (Z.ltb_spec (rank highest) (rank x.(Driver.level)));
      [lia | reflexivity].
Qed.

(** X9.  Findings whose level is Normal, or is no key of [RuleLevelMap],
    count for nothing in [Level]: without them [Level] is the same. *)
Theorem Level_ignores_rank0 (rs : Driver.AuditResult) :
  Level {| Driver.results :=
             List.filter (fun r => (0 <? rank r.(Driver.level))%Z)
               rs.(Driver.results) |}
  = Level rs /\
  ((forall r, In r rs.(Driver.results) -> rank r.(Driver.level) = 0%Z) ->
   Level rs = Normal).
Proof.
  split; [apply Level_loop_rank0|].
  intros Hall. unfold Driver.Level.
  rewrite <- (Level_loop_rank0 rs.(Driver.results) Normal).
  replace (List.filter _ _) with (@nil Driver.auditResult); [reflexivity|].
  symmetry. induction rs.(Driver.results) as [|x l IH]; [reflexivity|].
  cbn [List.filter]. rewrite (Hall x) by now left.
  apply IH. intros r Hr. apply Hall. now right.
Qed.

(** X10.  Formatting is idempotent on the whole result: when every finding
    has one of the four levels, the findings whose messages are replaced by
    their lines give the same [Message]. *)
Theorem Message_reformat (rs : Driver.AuditResult) :
  Regexp.plain Normal = true -> Regexp.plain Notice = true ->
  Regexp.plain Warn = true -> Regexp.plain ErrorL = true ->
  Forall (fun r => In r.(Driver.level) levels) rs.(Driver.results) ->
  Message
    {| Driver.results :=
         List.map
           (fun r => {| Driver.level := r.(Driver.level);
                        Driver.message := line r |})
           rs.(Driver.results) |}
  = Message rs.
Proof.
  intros Hn Ht Hw He Hknown. unfold Driver.Message, Driver.messages.
  cbn [Driver.results]. f_equal. rewrite map_map.
  induction Hknown as [|r l Hr _ IH]; [reflexivity|].
  cbn [map]. rewrite IH. f_equal.
  now apply (line_idempotent Normal Notice Warn ErrorL).
Qed.

End AuditResultFacts.

(** ** Package [inspector]: more rule checks *)

Section MoreCheckFacts.

Import Ast Inspector Checks.

Variables (E Ctx : Type).

(** *** [checkStringType] *)

Lemma checkStringType_cols_Results (cols : list ColumnDef.t) :
  forall i : Inspector Ctx,
  (checkStringType_cols i cols).(Results) =
  i.(Results) ++
  repeat {| rule := DDL_CHECK_TYPE_CHAR_LENGTH; args := [] |}
    (length (List.filter isLongChar cols)).
Proof.
  unfold checkStringType_cols.
  induction cols as [|col cols IH]; intros i; cbn [fold_left List.filter].
  - cbn. now rewrite app_nil_r.
  - destruct (isLongChar col); rewrite IH; [|reflexivity].
    rewrite addResult_Results, <- app_assoc. reflexivity.
Qed.

(** The columns that [checkStringType] looks at. *)
Local Abbreviation checkedColumns node :=
  (match node with
   | CreateTable stmt => stmt.(CreateTableStmt.Cols)
   | AlterTable stmt =>
       concat (List.map AlterTableSpec.NewColumns stmt.(AlterTableStmt.Specs))
   | _ => []
   end).

(** X11.  [checkStringType] adds one finding for each CHAR column of length
    above 20 that the statement defines, in a CREATE TABLE or in any [spec]
    of an ALTER TABLE, and nothing for another statement; it never returns
    an error. *)
Theorem checkStringType_findings
    (i : Inspector Ctx) (node : StmtNode) (rule : string) :
  exists i',
    checkStringType (E := E) i node rule = (i', Returned None) /\
    i'.(Results) =
      i.(Results) ++
      repeat {| rule := DDL_CHECK_TYPE_CHAR_LENGTH; args := [] |}
        (length (List.filter isLongChar (checkedColumns node))).
Proof.
  destruct node; try (exists i; split; [reflexivity|]; cbn;
                      now rewrite app_nil_r).
  - eexists. split; [reflexivity|]. apply checkStringType_cols_Results.
  - eexists. split; [reflexivity|].
    generalize dependent i.
    induction stmt.(AlterTableStmt.Specs) as [|spec specs IH]; intros i.
    + cbn. now rewrite app_nil_r.
    + cbn [fold_left List.map concat]. rewrite IH.
      rewrite checkStringType_cols_Results, List.filter_app, List.length_app,
        List.repeat_app, app_assoc.
      reflexivity.
Qed.

(** *** [checkForeignKey] *)

(** X12.  [checkForeignKey] adds its finding once to a CREATE TABLE with a
    foreign key constraint or an ALTER TABLE of which a [spec] carries one,
    however many there are, and nothing to any other statement. *)
Theorem checkForeignKey_findings
    (i : Inspector Ctx) (node : StmtNode) (rule : string) :
  let constraints :=
    match node with
    | CreateTable stmt => stmt.(CreateTableStmt.Constraints)
    | AlterTable stmt => specConstraints stmt
    | _ => []
    end in
  exists i',
    checkForeignKey (E := E) i node rule = (i', Returned None) /\
    ((exists c, In c constraints /\
                c.(Constraint.Tp) = ConstraintForeignKey) ->
     i'.(Results) =
       i.(Results) ++ [{| rule := DDL_DISABLE_FOREIGN_KEY; args := [] |}]) /\
    ((forall c, In c constraints ->
                c.(Constraint.Tp) <> ConstraintForeignKey) ->
     i' = i).
Proof.
  intros constraints.
  assert (Hex : forall cs : list Constraint.t,
            existsb (fun c => bool_decide (c.(Constraint.Tp) = ConstraintForeignKey))
              cs = true <->
            exists c, In c cs /\ c.(Constraint.Tp) = ConstraintForeignKey).
  { intros cs. rewrite existsb_exists. split; intros (c & Hc & Ht); exists c;
      (split; [exact Hc|]);
      [now apply bool_decide_eq_true in Ht | now apply bool_decide_eq_true]. }
  assert (Hspecs : forall specs : list AlterTableSpec.t,
            existsb
              (fun spec =>
                 match spec.(AlterTableSpec.Constraint) with
                 | Some c => bool_decide (c.(Constraint.Tp) = ConstraintForeignKey)
                 | None => false
                 end) specs =
            existsb (fun c => bool_decide (c.(Constraint.Tp) = ConstraintForeignKey))
              (flat_map
                 (fun spec =>
                    match spec.(AlterTableSpec.Constraint) with
                    | Some c => [c]
                    | None => []
                    end) specs)).
  { induction specs as [|spec specs IH]; [reflexivity|].
    cbn [existsb flat_map]. rewrite existsb_app, IH.
    destruct spec.(AlterTableSpec.Constraint); cbn;
      [now rewrite orb_false_r | reflexivity]. }
  destruct node; subst constraints;
    try (exists i; split; [reflexivity|]; split;
         [intros (c & [] & _) | reflexivity]).
  - unfold checkForeignKey.
    destruct (existsb _ stmt.(CreateTableStmt.Constraints)) eqn:Hfk;
      eexists; (split; [reflexivity|]); split; try reflexivity.
    + intros Hnone. apply Hex in Hfk as (c & Hc & Ht).
      now destruct (Hnone c Hc).
    + intros Hsome. apply Hex in Hsome. congruence.
  - unfold checkForeignKey, specConstraints. rewrite Hspecs.
    destruct (existsb _ (flat_map _ _)) eqn:Hfk;
      eexists; (split; [reflexivity|]); split; try reflexivity.
    + intros Hnone. apply Hex in Hfk as (c & Hc & Ht).
      now destruct (Hnone c Hc).
    + intros Hsome. apply Hex in Hsome. congruence.
Qed.

(** *** [checkIndex] *)

Variable getTableName : Inspector Ctx -> TableName.t -> string.
Variable getCreateTableStmt :
  Inspector Ctx -> string -> Inspector Ctx * option CreateTableStmt.t * option E.

Local Abbreviation checkIndex :=
  (Inspector.checkIndex (E := E) getTableName getCreateTableStmt).

(** The findings that [checkIndex] adds for a count and a width. *)
Local Abbreviation indexFindings n w :=
  ((if (n >? 5)%Z
    then [{| rule := DDL_CHECK_INDEX_COUNT; args := [] |}] else []) ++
   (if (w >? 5)%Z
    then [{| rule := DDL_CHECK_COMPOSITE_INDEX_MAX; args := [] |}] else [])).

Lemma countIndex_fold (cs : list Constraint.t) : forall n m,
  (0 <= m)%Z ->
  fold_left countIndex cs (n, m) =
  ((n + indexCount cs)%Z, Z.max m (widestIndex cs)).
Proof.
  unfold indexCount, widestIndex.
  induction cs as [|c cs IH]; intros n m Hm.
  - cbn. f_equal; lia.
  - cbn [fold_left List.filter]. unfold countIndex at 2.
    destruct (isIndexConstraint (Constraint.Tp c)).
    + cbn [List.map fold_right length].
      destruct (Z.ltb_spec m (Z.of_nat (length (Constraint.Keys c))));
        rewrite IH by lia; f_equal; lia.
    + now apply IH.
Qed.

Lemma countIndex_specs (stmt : AlterTableStmt.t) (st : Z * Z) :
  fold_left
    (fun st spec =>
       match spec.(AlterTableSpec.Constraint) with
       | None => st
       | Some constraint => countIndex st constraint
       end)
    stmt.(AlterTableStmt.Specs) st =
  fold_left countIndex (specConstraints stmt) st.
Proof.
  unfold specConstraints. revert st.
  induction stmt.(AlterTableStmt.Specs) as [|spec specs IH]; intros st;
    [reflexivity|].
  cbn [fold_left flat_map]. rewrite fold_left_app, IH.
  now destruct spec.(AlterTableSpec.Constraint).
Qed.

Lemma countExisting_spec (n : Z) (created : option CreateTableStmt.t) :
  countExisting n created = (n + indexCount (createdConstraints created))%Z.
Proof.
  unfold countExisting, createdConstraints, indexCount.
  destruct created as [stmt|]; [|cbn; lia].
  revert n. induction stmt.(CreateTableStmt.Constraints) as [|c cs IH];
    intros n; [cbn; lia|].
  cbn [fold_left List.filter].
  destruct (isIndexConstraint (Constraint.Tp c)); rewrite IH;
    cbn [length]; lia.
Qed.

Lemma reportIndex_Results (i : Inspector Ctx) (n w : Z) :
  (reportIndex Ctx i n w).(Results) = i.(Results) ++ indexFindings n w.
Proof.
  unfold reportIndex. destruct (n >? 5)%Z, (w >? 5)%Z;
    rewrite ?addResult_Results, ?app_nil_r, <- ?app_assoc; reflexivity.
Qed.

(** X13.  On a CREATE TABLE, [checkIndex] adds the index-count finding
    exactly when the statement declares more than 5 index constraints, and
    the composite-index finding exactly when one of them has more than 5
    keys; it makes no lookup and returns no error. *)
Theorem checkIndex_CreateTable
    (i : Inspector Ctx) (stmt : CreateTableStmt.t) (rule : string) :
  exists i',
    checkIndex i (CreateTable stmt) rule = (i', Returned None) /\
    i'.(Results) =
      i.(Results) ++
      indexFindings (indexCount stmt.(CreateTableStmt.Constraints))
        (widestIndex stmt.(CreateTableStmt.Constraints)) /\
    sameSession i i' /\ i'.(ctx) = i.(ctx).
Proof.
  unfold Inspector.checkIndex. rewrite countIndex_fold by lia.
  eexists. split; [reflexivity|]. rewrite reportIndex_Results.
  assert (Hw : (0 <= widestIndex stmt.(CreateTableStmt.Constraints))%Z).
  { unfold widestIndex.
    induction (List.filter _ _) as [|c cs IH]; cbn; lia. }
  rewrite Z.add_0_l, Z.max_r by exact Hw.
  split; [reflexivity|]. unfold reportIndex.
  destruct (_ >? 5)%Z, (_ >? 5)%Z; repeat split.
Qed.

(** X14.  On an ALTER TABLE, [checkIndex] looks the table up.  When the
    lookup fails, its error is returned and no finding is added; when it
    succeeds, the index-count finding is added exactly when the index
    constraints of the statement and those of the table as the session
    knows it are more than 5 together, while the composite-index finding
    looks at the constraints of the statement only. *)
Theorem checkIndex_AlterTable
    (i i1 : Inspector Ctx) (stmt : AlterTableStmt.t) (rule : string)
    (created : option CreateTableStmt.t) (err : option E) :
  getCreateTableStmt i (getTableName i stmt.(AlterTableStmt.Table)) =
    (i1, created, err) ->
  exists i',
    checkIndex i (AlterTable stmt) rule = (i', Returned err) /\
    i'.(Results) =
      i1.(Results) ++
      match err with
      | Some _ => []
      | None =>
          indexFindings
            (indexCount (specConstraints stmt) +
             indexCount (createdConstraints created))
            (widestIndex (specConstraints stmt))
      end.
Proof.
  intros Hlook. unfold Inspector.checkIndex.
  rewrite countIndex_specs, countIndex_fold, Hlook by lia.
  assert (Hw : (0 <= widestIndex (specConstraints stmt))%Z).
  { unfold widestIndex.
    induction (List.filter _ _) as [|c cs IH]; cbn; lia. }
  destruct err as [e|].
  - eexists. split; [reflexivity|]. now rewrite app_nil_r.
  - eexists. split; [reflexivity|].
    rewrite reportIndex_Results, countExisting_spec, Z.add_0_l,
      Z.max_r by exact Hw.
    reflexivity.
Qed.

(** X15.  On a CREATE INDEX, [checkIndex] counts the new index with those
    of the table as the session knows it, and takes the number of columns
    of the new index for the composite-index finding; an error of the
    lookup is returned with no finding added. *)
Theorem checkIndex_CreateIndex
    (i i1 : Inspector Ctx) (stmt : CreateIndexStmt.t) (rule : string)
    (created : option CreateTableStmt.t) (err : option E) :
  getCreateTableStmt i (getTableName i stmt.(CreateIndexStmt.Table)) =
    (i1, created, err) ->
  exists i',
    checkIndex i (CreateIndex stmt) rule = (i', Returned err) /\
    i'.(Results) =
      i1.(Results) ++
      match err with
      | Some _ => []
      | None =>
          indexFindings
            (1 + indexCount (createdConstraints created))
            (Z.of_nat (length stmt.(CreateIndexStmt.IndexColNames)))
      end.
Proof.
  intros Hlook. unfold Inspector.checkIndex. rewrite Hlook.
  destruct err as [e|].
  - eexists. split; [reflexivity|]. now rewrite app_nil_r.
  - eexists. split; [reflexivity|].
    rewrite reportIndex_Results, countExisting_spec.
    destruct (Z.ltb_spec 0
                (Z.of_nat (length stmt.(CreateIndexStmt.IndexColNames))));
      [reflexivity|].
    replace (Z.of_nat (length stmt.(CreateIndexStmt.IndexColNames)))
      with 0%Z by lia.
    reflexivity.
Qed.

End MoreCheckFacts.

Section NameAndObjectFacts.

Import Ast Inspector Checks.

Variables (E Ctx : Type).
Variable IsMysqlReservedKeyword : string -> bool.

(** X16.  The length check of [checkNewObjectName] counts bytes: the
    object-name-length finding is added exactly when a new name of the
    statement has more than 64 bytes, so also for a name of fewer
    characters in a multi-byte encoding; the reserved-keyword finding is
    added exactly when a new name is reserved; and nothing else is added. *)
Theorem checkNewObjectName_bytes
    (i : Inspector Ctx) (node : StmtNode) (rule : string)
    (names : list string) :
  newObjectNames node = Names names ->
  exists i' added,
    checkNewObjectName (E := E) IsMysqlReservedKeyword i node rule
      = (i', Returned None) /\
    i'.(Results) = i.(Results) ++ added /\
    ((exists f, In f added /\ f.(Inspector.rule) = DDL_CHECK_OBJECT_NAME_LENGTH) <->
     (exists name, In name names /\ 64 < String.length name)) /\
    ((exists f, In f added /\ f.(Inspector.rule) = DDL_DISABLE_USING_KEYWORD) <->
     (exists name, In name names /\ IsMysqlReservedKeyword name = true)) /\
    (forall f, In f added ->
       f.(Inspector.rule) = DDL_CHECK_OBJECT_NAME_LENGTH \/
       f.(Inspector.rule) = DDL_DISABLE_USING_KEYWORD).
Proof.
  intros Hnames. unfold checkNewObjectName. rewrite Hnames.
  eexists _, _. split; [reflexivity|].
  split; [apply checkNames_findings|].
  assert (Hlong : existsb (fun name => Nat.ltb 64 (String.length name)) names
                  = true <->
                  exists name, In name names /\ 64 < String.length name).
  { rewrite existsb_exists. split; intros (n & Hn & Hl); exists n;
      (split; [exact Hn|]); now apply Nat.ltb_lt. }
  rewrite <- Hlong, <- (existsb_exists IsMysqlReservedKeyword names).
  destruct (existsb (fun name => Nat.ltb 64 (String.length name)) names),
    (existsb IsMysqlReservedKeyword names); cbn;
    repeat split; try discriminate; try tauto; eauto;
    try (intros (f & Hf & Hr); intuition (subst; discriminate));
    try (intros f Hf; intuition (subst; auto)).
Qed.

End NameAndObjectFacts.

(** *** [checkMergeAlterTable] *)

Section MergeFacts.

Import Ast Inspector Checks.

Variables (E Other : Type).
Variable getTableName : Inspector (Context Other) -> TableName.t -> string.

Local Abbreviation check :=
  (checkMergeAlterTable (E := E) getTableName).
Local Abbreviation stored i name :=
  (i.(ctx).(alterTableStmts) !! name).
Local Abbreviation needMerge :=
  {| rule := DDL_CHECK_ALTER_TABLE_NEED_MERGE; args := [] |}.

(** One ALTER TABLE: the statement is stored behind those already stored
    for its table, and the finding is added when there were some. *)
Lemma checkMergeAlterTable_step
    (i : Inspector (Context Other)) (stmt : AlterTableStmt.t) (rule name : string) :
  getTableName i stmt.(AlterTableStmt.Table) = name ->
  exists i',
    check i (AlterTable stmt) rule = (i', Returned None) /\
    stored i' name = Some (default [] (stored i name) ++ [stmt]) /\
    (forall n, n <> name -> stored i' n = stored i n) /\
    i'.(Results) =
      i.(Results) ++
      match stored i name with Some _ => [needMerge] | None => [] end.
Proof.
  intros Hname. unfold checkMergeAlterTable. rewrite Hname.
  destruct (stored i name) as [stmts|] eqn:Hst; eexists;
    (split; [reflexivity|]); cbn; rewrite ?app_nil_r;
    (split; [now rewrite lookup_insert_eq|]);
    (split; [|reflexivity]); intros n Hn;
    now rewrite lookup_insert_ne by congruence.
Qed.

(** The check run on one ALTER TABLE after the other. *)
Local Abbreviation run rule stmts i :=
  (fold_left (fun i stmt => fst (check i (AlterTable stmt) rule)) stmts i).

Lemma checkMergeAlterTable_run (rule name : string)
    (stmts : list AlterTableStmt.t) :
  forall i : Inspector (Context Other),
  (forall stmt j, In stmt stmts ->
     getTableName j stmt.(AlterTableStmt.Table) = name) ->
  (run rule stmts i).(Results) =
    i.(Results) ++
    repeat needMerge
      (length stmts - match stored i name with Some _ => 0 | None => 1 end) /\
  (stmts <> [] ->
   stored (run rule stmts i) name =
     Some (default [] (stored i name) ++ stmts)) /\
  (forall n, n <> name -> stored (run rule stmts i) n = stored i n).
Proof.
  induction stmts as [|stmt stmts IH]; intros i Hname.
  - cbn. rewrite app_nil_r. repeat split. congruence.
  - cbn [fold_left].
    destruct (checkMergeAlterTable_step i stmt rule name)
      as (i1 & Hrun & Hst & Hother & Hres); [apply Hname; now left|].
    rewrite Hrun. cbn [fst].
    destruct (IH i1) as (IHres & IHst & IHother);
      [intros s j Hs; apply Hname; now right|].
    rewrite Hst in IHres, IHst. split; [|split].
    + rewrite IHres, Hres, <- app_assoc. f_equal.
      rewrite Nat.sub_0_r. cbn [length].
      destruct (stored i name); [reflexivity|].
      cbn. now rewrite Nat.sub_0_r.
    + intros _. destruct stmts as [|s2 stmts]; [exact Hst|].
      rewrite IHst by discriminate. cbn. now rewrite <- app_assoc.
    + intros n Hn. rewrite IHother by exact Hn. now apply Hother.
Qed.

(** X17.  When a session runs the check on some ALTER TABLE statements of
    one table that it has not altered before, every statement but the first
    gets the merge finding, the statements are stored for the table in
    their order, and what is stored for other tables stays. *)
Theorem checkMergeAlterTable_session (rule name : string)
    (stmts : list AlterTableStmt.t) (i : Inspector (Context Other)) :
  (forall stmt j, In stmt stmts ->
     getTableName j stmt.(AlterTableStmt.Table) = name) ->
  stored i name = None ->
  stmts <> [] ->
  (run rule stmts i).(Results) =
    i.(Results) ++ repeat needMerge (length stmts - 1) /\
  stored (run rule stmts i) name = Some stmts /\
  (forall n, n <> name -> stored (run rule stmts i) n = stored i n).
Proof.
  intros Hname Hfresh Hne.
  destruct (checkMergeAlterTable_run rule name stmts i Hname)
    as (Hres & Hst & Hother).
  rewrite Hfresh in Hres, Hst. split; [exact Hres|].
  split; [now apply Hst | exact Hother].
Qed.

End MergeFacts.

(** *** [disableAddIndexForColumnsTypeBlob] *)

Section BlobFacts.

Import Ast Inspector Checks.

Variables (E Ctx : Type).
Variable getTableName : Inspector Ctx -> TableName.t -> string.
Variable MysqlDataTypeIsBlob : Z -> bool.
Variable getCreateTableStmt :
  Inspector Ctx -> string -> Inspector Ctx * option CreateTableStmt.t * option E.

Local Abbreviation check :=
  (disableAddIndexForColumnsTypeBlob (E := E) getTableName
     MysqlDataTypeIsBlob getCreateTableStmt).
Local Abbreviation isBlob := (Checks.isBlob MysqlDataTypeIsBlob).
Local Abbreviation blobIndex :=
  {| rule := DDL_DISABLE_INDEX_DATA_TYPE_BLOB; args := [] |}.

Lemma addKeys_elem (keys : list IndexColName.t) : forall (s : gset string) x,
  x ∈ addKeys s keys <->
  x ∈ s \/ exists k, In k keys /\ k.(IndexColName.Column) = x.
Proof.
  unfold addKeys. induction keys as [|k keys IH]; intros s x; cbn [fold_left].
  - split; [tauto | intros [H|(k & [] & _)]; exact H].
  - rewrite IH, elem_of_union, elem_of_singleton. split.
    + intros [[->|H]|(k' & Hk & <-)].
      * right. exists k. split; [now left | reflexivity].
      * now left.
      * right. exists k'. split; [now right | reflexivity].
    + intros [H|(k' & [<-|Hk] & <-)].
      * left. now right.
      * left. now left.
      * right. exists k'. split; [exact Hk | reflexivity].
Qed.

Lemma createTable_indexColumns_elem (stmt : CreateTableStmt.t) (x : string) :
  x ∈ createTable_indexColumns stmt <->
  exists c k,
    In c stmt.(CreateTableStmt.Constraints) /\
    isIndexConstraint c.(Constraint.Tp) = true /\
    In k c.(Constraint.Keys) /\ k.(IndexColName.Column) = x.
Proof.
  unfold createTable_indexColumns.
  assert (H : forall cs (s : gset string),
            x ∈ fold_left
                  (fun s c =>
                     if isIndexConstraint c.(Constraint.Tp)
                     then addKeys s c.(Constraint.Keys) else s) cs s <->
            x ∈ s \/
            exists c k, In c cs /\ isIndexConstraint c.(Constraint.Tp) = true /\
                        In k c.(Constraint.Keys) /\
                        k.(IndexColName.Column) = x).
  { induction cs as [|c cs IH]; intros s; cbn [fold_left].
    - split; [tauto | intros [H|(c & k & [] & _)]; exact H].
    - rewrite IH. destruct (isIndexConstraint (Constraint.Tp c)) eqn:Hidx.
      + rewrite addKeys_elem. split.
        * intros [[H|(k & Hk & Hx)]|(c' & k & Hc & Hi & Hk & Hx)].
          -- now left.
          -- right. exists c, k. split; [now left | auto].
          -- right. exists c', k. split; [now right | auto].
        * intros [H|(c' & k & [<-|Hc] & Hi & Hk & Hx)].
          -- left. now left.
          -- left. right. exists k. auto.
          -- right. exists c', k. auto.
      + split.
        * intros [H|(c' & k & Hc & Hi & Hk & Hx)].
          -- now left.
          -- right. exists c', k. split; [now right | auto].
        * intros [H|(c' & k & [<-|Hc] & Hi & Hk & Hx)].
          -- now left.
          -- congruence.
          -- right. exists c', k. auto. }
  rewrite H. split; [intros [Hx|Hx]; [set_solver | exact Hx] | eauto].
Qed.

(** X18.  On a CREATE TABLE the blob-index finding is added, once, exactly
    when a column of a blob type has the unique-key option or is a key of an
    index constraint of the statement; no lookup is made and no error
    returned. *)
Theorem blobIndex_CreateTable
    (i : Inspector Ctx) (stmt : CreateTableStmt.t) (rule : string) :
  let indexed (col : ColumnDef.t) :=
    isUniqKey col = true \/
    exists c k,
      In c stmt.(CreateTableStmt.Constraints) /\
      isIndexConstraint c.(Constraint.Tp) = true /\
      In k c.(Constraint.Keys) /\
      k.(IndexColName.Column) = col.(ColumnDef.Name) in
  let flagged :=
    exists col, In col stmt.(CreateTableStmt.Cols) /\
                isBlob col = true /\ indexed col in
  exists i',
    check i (CreateTable stmt) rule = (i', Returned None) /\
    (flagged -> i' = addResult i DDL_DISABLE_INDEX_DATA_TYPE_BLOB []) /\
    (~ flagged -> i' = i).
Proof.
  intros indexed flagged. unfold disableAddIndexForColumnsTypeBlob.
  eexists. split; [reflexivity|].
  match goal with |- context [reportBlob _ ?b] => destruct b eqn:Hb end;
    cbn [reportBlob]; (split; [|intros Hnot]); try reflexivity.
  - exfalso. apply Hnot. apply existsb_exists in Hb as (col & Hcol & Hc).
    exists col. split; [exact Hcol|].
    apply orb_true_iff in Hc as [Hc|Hc]; apply andb_true_iff in Hc as [H1 H2].
    + split; [exact H2 | now left].
    + split; [exact H2|]. right. apply bool_decide_eq_true in H1.
      now apply createTable_indexColumns_elem.
  - intros (col & Hcol & Hblob & Hidx). exfalso.
    assert (Htrue : existsb
              (fun col =>
                 isUniqKey col && isBlob col ||
                 bool_decide (col.(ColumnDef.Name) ∈
                                createTable_indexColumns stmt) && isBlob col)
              stmt.(CreateTableStmt.Cols) = true).
    { apply existsb_exists. exists col. split; [exact Hcol|].
      rewrite Hblob, !andb_true_r. apply orb_true_iff.
      destruct Hidx as [Hu|Hc]; [now left|]. right.
      apply bool_decide_eq_true. now apply createTable_indexColumns_elem. }
    congruence.
Qed.

(** The index columns of an ALTER TABLE whose [spec]s have no new column. *)
Lemma alterTable_indexColumns_none (stmt : AlterTableStmt.t) :
  Forall (fun spec => spec.(AlterTableSpec.NewColumns) = [])
    stmt.(AlterTableStmt.Specs) ->
  alterTable_indexColumns stmt = ∅.
Proof.
  unfold alterTable_indexColumns. intros H. generalize (∅ : gset string).
  induction H as [|spec specs Hspec _ IH]; intros s; [reflexivity|].
  cbn [fold_left]. rewrite Hspec. apply IH.
Qed.

(** X19.  An ALTER TABLE of which no [spec] defines a column is never
    given the blob-index finding, whatever index constraints its [spec]s
    add: the check passes over such a [spec], makes no lookup and leaves
    the inspector as it is. *)
Theorem blobIndex_AlterTable_no_columns
    (i : Inspector Ctx) (stmt : AlterTableStmt.t) (rule : string) :
  Forall (fun spec => spec.(AlterTableSpec.NewColumns) = [])
    stmt.(AlterTableStmt.Specs) ->
  check i (AlterTable stmt) rule = (i, Returned None).
Proof.
  intros H. unfold disableAddIndexForColumnsTypeBlob.
  now rewrite (alterTable_indexColumns_none stmt H).
Qed.

Lemma blobCol_insert (m : gmap string bool) (n x : string) (v : bool) :
  blobCol (<[n := v]> m) x = if decide (n = x) then v else blobCol m x.
Proof.
  unfold blobCol. rewrite lookup_insert. now destruct (decide (n = x)).
Qed.

Lemma setBlobCols_true (value : ColumnDef.t -> bool)
    (cols : list ColumnDef.t) : forall (m : gmap string bool) x,
  blobCol (setBlobCols value m cols) x = true ->
  blobCol m x = true \/
  exists col, In col cols /\ col.(ColumnDef.Name) = x /\ value col = true.
Proof.
  unfold setBlobCols. induction cols as [|col cols IH]; intros m x H;
    cbn [fold_left] in H; [now left|].
  apply IH in H as [H|(c & Hc & Hn & Hv)].
  - rewrite blobCol_insert in H.
    destruct (decide (ColumnDef.Name col = x)) as [Heq|Hne]; [|now left].
    right. exists col. split; [now left | split; assumption].
  - right. exists c. split; [now right | split; assumption].
Qed.

(** X20.  On a CREATE INDEX the blob-index finding can only come from a
    column of the table, as the session knows it, that is named in the
    index, is of a blob type and has itself the unique-key option: a blob
    column without that option is never reported.  An error of the lookup
    is returned, and a table that the session does not know gives no
    finding. *)
Theorem blobIndex_CreateIndex
    (i i1 : Inspector Ctx) (stmt : CreateIndexStmt.t) (rule : string)
    (created : option CreateTableStmt.t) (err : option E) :
  getCreateTableStmt i (getTableName i stmt.(CreateIndexStmt.Table)) =
    (i1, created, err) ->
  exists i',
    check i (CreateIndex stmt) rule = (i', Returned err) /\
    (i' = i1 \/
     i' = addResult i1 DDL_DISABLE_INDEX_DATA_TYPE_BLOB [] /\
     err = None /\
     exists table col key,
       created = Some table /\
       In col table.(CreateTableStmt.Cols) /\
       In key stmt.(CreateIndexStmt.IndexColNames) /\
       key.(IndexColName.Column) = col.(ColumnDef.Name) /\
       isUniqKey col = true /\ isBlob col = true).
Proof.
  intros Hlook. unfold disableAddIndexForColumnsTypeBlob. rewrite Hlook.
  destruct created as [table|], err as [e|];
    try (eexists; split; [reflexivity | now left]).
  eexists. split; [reflexivity|].
  match goal with |- context [reportBlob _ ?b] => destruct b eqn:Hb end;
    cbn [reportBlob]; [right | now left].
  split; [reflexivity|]. split; [reflexivity|].
  apply existsb_exists in Hb as (key & Hkey & Hb).
  apply setBlobCols_true in Hb as [Hb|(col & Hcol & Hn & Hv)];
    [discriminate Hb|].
  apply andb_true_iff in Hv as [Hu Hbl].
  exists table, col, key. repeat split; auto.
Qed.

End BlobFacts.

(** ** Package [inspector]: more on [Advise] *)

Section AdviseMoreFacts.

Import Ast Inspector.

Variables (E Ctx : Type).
Variable parseOneSql : string -> string -> StmtNode + E.
Variable RulesFunc : gmap string (option (checkFunc E Ctx)).
Variable updateSchemaCtx : Inspector Ctx -> StmtNode -> Inspector Ctx.
Variable closeDbConn : Inspector Ctx -> Inspector Ctx.
Variable Results_level : list Finding -> string.
Variable Results_message : list Finding -> string.
Variable TASK_ACTION_DONE : string.
Variable SQL_STMT_CONFLICT_ERROR : E.

Local Abbreviation classify := (Inspector.classify SQL_STMT_CONFLICT_ERROR).
Local Abbreviation runRules := (Inspector.runRules RulesFunc).
Local Abbreviation inspected :=
  (Inspector.inspected Results_level Results_message TASK_ACTION_DONE).
Local Abbreviation AdviseLoop :=
  (Inspector.AdviseLoop E Ctx parseOneSql RulesFunc updateSchemaCtx
     Results_level Results_message TASK_ACTION_DONE SQL_STMT_CONFLICT_ERROR).
Local Abbreviation Advise :=
  (Inspector.Advise E Ctx parseOneSql RulesFunc updateSchemaCtx closeDbConn
     Results_level Results_message TASK_ACTION_DONE SQL_STMT_CONFLICT_ERROR).
Local Abbreviation checksKeepSession := (Inspector.checksKeepSession RulesFunc).
Local Abbreviation updateKeepsSession :=
  (Inspector.updateKeepsSession updateSchemaCtx).



(** X22.  A statement that does not parse ends the batch with the error of
    the parser: no rule check runs for it, the inspector is as the
    statements before left it, and its record and those after it are as
    they were. *)
Theorem Advise_parse_error
    (i i1 : Inspector Ctx) (pre done post : list SqlRecord)
    (sql : SqlRecord) (err : E) :
  AdviseLoop i pre = (i1, done, Returned None) ->
  parseOneSql i1.(DbType) sql.(Sql) = inr err ->
  Advise i (pre ++ sql :: post) =
    (closeDbConn i1, done ++ sql :: post, Returned (Some err)).
Proof.
  intros Hpre Hparse. unfold Inspector.Advise.
  rewrite (AdviseLoop_app E Ctx parseOneSql RulesFunc updateSchemaCtx
             Results_level Results_message TASK_ACTION_DONE
             SQL_STMT_CONFLICT_ERROR _ _ _ _ _ Hpre).
  cbn [Inspector.AdviseLoop]. now rewrite Hparse.
Qed.

(** The rules run one part after the other. *)
Lemma runRules_app (node : StmtNode) (rules1 rules2 : list Rule) :
  forall i : Inspector Ctx,
  runRules i node (rules1 ++ rules2) =
  match runRules i node rules1 with
  | (i1, Returned None) => runRules i1 node rules2
  | (i1, st) => (i1, st)
  end.
Proof.
  induction rules1 as [|rule rules1 IH]; intros i; [reflexivity|].
  rewrite <- app_comm_cons. cbn [Inspector.runRules].
  destruct (RulesFunc !! Name rule) as [[fn|]|]; try apply IH.
  destruct (fn _ _ _) as [j [[err|]|]]; [reflexivity | apply IH | reflexivity].
Qed.

(** X23.  A rule whose name has no function in the table, or has nil, is
    passed over: rules of which none has a function add no finding, return
    no error and only leave the last of them as the current rule. *)
Theorem runRules_without_function
    (i : Inspector Ctx) (node : StmtNode) (rules : list Rule) :
  Forall
    (fun rule =>
       RulesFunc !! rule.(Name) = None \/
       RulesFunc !! rule.(Name) = Some None) rules ->
  runRules i node rules =
    (set_currentRule i (List.last rules i.(currentRule)), Returned None).
Proof.
  intros H. revert i. induction H as [|rule rules Hrule _ IH]; intros i.
  - now destruct i.
  - cbn [Inspector.runRules].
    assert (Hnext : runRules (set_currentRule i rule) node rules =
                    (set_currentRule i
                       (List.last (rule :: rules) i.(currentRule)),
                     Returned None)).
    { rewrite IH. f_equal.
      change (List.last (rule :: rules) (currentRule i))
        with (match rules with
              | [] => rule
              | _ => List.last rules (currentRule i)
              end).
      destruct rules as [|r rs]; [reflexivity|].
      cbn [currentRule set_currentRule].
      assert (Hlast : forall a b : Rule,
                List.last (r :: rs) a = List.last (r :: rs) b).
      { clear. revert r. induction rs as [|x rs IHrs]; intros r a b;
          [reflexivity|]. apply (IHrs x). }
      rewrite (Hlast rule (currentRule i)). reflexivity. }
    unfold checkFunc in *. destruct Hrule as [-> | ->]; exact Hnext.
Qed.

(** X24.  The first rule check function that does not return nil ends the
    rules of the statement: what it returns is what the run returns, and
    the rules behind it are not run. *)
Theorem runRules_fail_fast
    (i i1 i2 : Inspector Ctx) (node : StmtNode)
    (rules1 rules2 : list Rule) (rule : Rule) (fn : checkFunc E Ctx)
    (st : status E) :
  runRules i node rules1 = (i1, Returned None) ->
  RulesFunc !! rule.(Name) = Some (Some fn) ->
  fn (set_currentRule i1 rule) node rule.(Name) = (i2, st) ->
  st <> Returned None ->
  runRules i node (rules1 ++ rule :: rules2) = (i2, st).
Proof.
  intros H1 Hfn Hrun Hst.
  rewrite runRules_app, H1. cbn [Inspector.runRules].
  unfold checkFunc in *. rewrite Hfn, Hrun. destruct st as [[err|]|]; [reflexivity | | reflexivity].
  congruence.
Qed.

(** The accumulator is empty when the loop has gone past a statement. *)
Lemma AdviseLoop_reset (batch : list SqlRecord) :
  forall (i i1 : Inspector Ctx) (done : list SqlRecord),
  AdviseLoop i batch = (i1, done, Returned None) ->
  batch <> [] -> i1.(Results) = newInspectResults.
Proof.
  induction batch as [|sql batch IH]; intros i i1 done H Hne; [congruence|].
  cbn [Inspector.AdviseLoop] in H.
  destruct (parseOneSql _ _) as [node|err]; [|discriminate H].
  destruct (Inspector.classify _ _ _) as [ic|err]; [|discriminate H].
  destruct (Inspector.runRules _ _ _ _) as [ir [[err|]|]];
    [discriminate H | | discriminate H].
  destruct (Inspector.AdviseLoop _ _ _ _ _ _ _ _ _ _ batch)
    as [[i5 r5] st5] eqn:Hloop.
  injection H as <- <- ->.
  destruct batch as [|sql2 batch].
  - cbn in Hloop. injection Hloop as <- _. reflexivity.
  - eapply IH; [exact Hloop | discriminate].
Qed.

(** X25.  When [Advise] returns nil for a batch that is not empty, the
    accumulator of the inspector is empty: the findings are in the records
    of the statements only.  ([closeDbConn] is taken not to write the
    accumulator.) *)
Theorem Advise_leaves_no_findings
    (i i' : Inspector Ctx) (batch out : list SqlRecord) :
  (forall j, (closeDbConn j).(Results) = j.(Results)) ->
  Advise i batch = (i', out, Returned None) ->
  batch <> [] ->
  i'.(Results) = [] /\
  Forall (fun sql => sql.(InspectStatus) = TASK_ACTION_DONE) out.
Proof.
  intros Hclose H Hne. unfold Inspector.Advise in H.
  destruct (Inspector.AdviseLoop _ _ _ _ _ _ _ _ _ i batch)
    as [[i1 out1] st1] eqn:Hloop.
  injection H as <- <- ->. split.
  - rewrite Hclose. exact (AdviseLoop_reset _ _ _ _ Hloop Hne).
  - pose proof (AdviseLoop_records E Ctx parseOneSql RulesFunc updateSchemaCtx
                  Results_level Results_message TASK_ACTION_DONE
                  SQL_STMT_CONFLICT_ERROR _ _ _ _ Hloop) as Hrec.
    clear Hloop Hne.
    induction Hrec as [|old new pre done (j & ->) _ IH];
      constructor; [reflexivity | exact IH].
Qed.

(** X26.  The kind of a batch stays with the inspector: after a batch with
    a DDL statement for which [Advise] returned nil, a second [Advise] on
    the same inspector ends with the conflict error on a first statement
    that is DML, before any rule check, and so with DDL after DML.
    ([closeDbConn], like the checks, is taken not to write the engine type
    and the kind flags.) *)
Theorem Advise_kind_outlives_batch
    (i i1 : Inspector Ctx) (batch out post : list SqlRecord)
    (d sql : SqlRecord) (nd node : StmtNode) :
  checksKeepSession -> updateKeepsSession ->
  (forall j, sameSession j (closeDbConn j)) ->
  Advise i batch = (i1, out, Returned None) ->
  In d batch ->
  parseOneSql i.(DbType) d.(Sql) = inl nd ->
  parseOneSql i.(DbType) sql.(Sql) = inl node ->
  (kind_of nd = DDLNode /\ kind_of node = DMLNode) \/
  (kind_of nd = DMLNode /\ kind_of node = DDLNode) ->
  Advise i1 (sql :: post) =
    (closeDbConn i1, sql :: post, Returned (Some SQL_STMT_CONFLICT_ERROR)).
Proof.
  intros Hfn Hupd Hclose H Hin Hd Hparse Hkinds.
  unfold Inspector.Advise in H.
  destruct (Inspector.AdviseLoop _ _ _ _ _ _ _ _ _ i batch)
    as [[i0 out0] st0] eqn:Hloop.
  injection H as <- <- ->.
  destruct (AdviseLoop_kind E Ctx parseOneSql RulesFunc updateSchemaCtx
              closeDbConn Results_level Results_message TASK_ACTION_DONE
              SQL_STMT_CONFLICT_ERROR batch Hfn Hupd _ _ _ Hloop)
    as (Ht & _ & _ & Hall).
  destruct (Hall d nd Hin Hd) as [Hddl Hdml].
  destruct (Hclose i0) as (Hc1 & Hc2 & Hc3).
  unfold Inspector.Advise. cbn [Inspector.AdviseLoop].
  rewrite Hc1, Ht, Hparse. unfold Inspector.classify.
  destruct Hkinds as [[Hk1 Hk2]|[Hk1 Hk2]]; rewrite Hk2.
  - rewrite Hc2, (Hddl Hk1). reflexivity.
  - rewrite Hc3, (Hdml Hk1). reflexivity.
Qed.

End AdviseMoreFacts.

(** ** Instances of the further properties *)

Import Checks.

Lemma Register_then_NewDriver_witness :
  Registry.Register Registry.init "mysql" MoreExamples.mysql_handler
    ["ddl_check_primary_key"; "dml_check_where"]
  = Some MoreExamples.mysql_only /\
  Registry.NewDriver (Rule := string) MoreExamples.mysql_only
    MoreExamples.mysql "" = (Some tt, None).
Proof.
  assert (H : Registry.Register Registry.init "mysql"
                MoreExamples.mysql_handler
                ["ddl_check_primary_key"; "dml_check_where"]
              = Some MoreExamples.mysql_only) by reflexivity.
  split; [exact H|].
  destruct (Register_then_NewDriver unit string _ _ _ _ _
              MoreExamples.mysql "" H) as [Hsame _].
  destruct (Hsame eq_refl) as [_ Hnew]. exact Hnew.
Defined.

Lemma Register_twice_panics_witness :
  Registry.Register Registry.init "mysql" MoreExamples.mysql_handler
    ["ddl_check_primary_key"; "dml_check_where"]
  = Some MoreExamples.mysql_only /\
  Registry.Register MoreExamples.mysql_only "mysql"
    MoreExamples.postgres_handler ["other"] = None.
Proof.
  split; [reflexivity|].
  apply (Register_twice_panics unit string Registry.init
           MoreExamples.mysql_only "mysql" MoreExamples.mysql_handler
           MoreExamples.postgres_handler
           ["ddl_check_primary_key"; "dml_check_where"] ["other"]).
  reflexivity.
Defined.

Lemma RegisterAll_catalogue_witness :
  Registry.RegisterAll Registry.init MoreExamples.plugins
  = Some MoreExamples.registered /\
  Registry.AllRules MoreExamples.registered =
    ["ddl_check_primary_key"; "dml_check_where"; "ddl_check_primary_key"] /\
  Registry.NewDriver MoreExamples.registered MoreExamples.mysql ""
  = (Some tt, None).
Proof.
  assert (H : Registry.RegisterAll Registry.init MoreExamples.plugins
              = Some MoreExamples.registered) by reflexivity.
  split; [exact H|].
  destruct (RegisterAll_catalogue unit string MoreExamples.plugins
              MoreExamples.registered "mysql" MoreExamples.mysql_handler
              ["ddl_check_primary_key"; "dml_check_where"]
              MoreExamples.mysql "" H (or_introl eq_refl) eq_refl)
    as (Hrules & _ & _ & Hnew).
  split; [exact Hrules | exact Hnew].
Defined.

Lemma line_cases_witness :
  Regexp.plain Examples.RuleLevelWarn = true /\
  Driver.line Examples.RuleLevelNormal Examples.RuleLevelNotice
    Examples.RuleLevelWarn Examples.RuleLevelError MoreExamples.warned
  = "no Warning was raised".
Proof.
  split; [reflexivity|].
  rewrite (line_cases Examples.RuleLevelNormal Examples.RuleLevelNotice
             Examples.RuleLevelWarn Examples.RuleLevelError
             MoreExamples.warned eq_refl eq_refl eq_refl eq_refl).
  reflexivity.
Defined.

Lemma Level_Add_witness :
  Examples.RuleLevelError <> "" /\
  Driver.Level Examples.RuleLevelNormal Examples.RuleLevelNotice
    Examples.RuleLevelWarn Examples.RuleLevelError
    (Driver.Add string Examples.Sprintf Examples.normal_and_warn
       Examples.RuleLevelError "no index" [])
  = Examples.RuleLevelError.
Proof.
  split; [discriminate|].
  rewrite (Level_Add Examples.RuleLevelNormal Examples.RuleLevelNotice
             Examples.RuleLevelWarn Examples.RuleLevelError string
             Examples.Sprintf Examples.normal_and_warn
             Examples.RuleLevelError "no index" []);
    [reflexivity | discriminate | discriminate].
Defined.

Lemma Message_Add_witness :
  Examples.RuleLevelError <> "" /\
  Driver.Message Examples.RuleLevelNormal Examples.RuleLevelNotice
    Examples.RuleLevelWarn Examples.RuleLevelError
    (Driver.Add string Examples.Sprintf Examples.normal_and_warn
       Examples.RuleLevelError "no index" [])
  = Driver.Message Examples.RuleLevelNormal Examples.RuleLevelNotice
      Examples.RuleLevelWarn Examples.RuleLevelError Examples.normal_and_warn
    +:+ Driver.newline +:+ "[Error]no index".
Proof.
  split; [discriminate|].
  rewrite (Message_Add Examples.RuleLevelNormal Examples.RuleLevelNotice
             Examples.RuleLevelWarn Examples.RuleLevelError string
             Examples.Sprintf Examples.normal_and_warn
             Examples.RuleLevelError "no index" []);
    [reflexivity | discriminate | discriminate].
Defined.

Lemma example_levels_NoDup :
  NoDup [Examples.RuleLevelNormal; Examples.RuleLevelNotice;
         Examples.RuleLevelWarn; Examples.RuleLevelError].
Proof.
  repeat constructor; rewrite ?elem_of_cons, ?elem_of_nil;
    intuition discriminate.
Qed.

Lemma Level_Permutation_witness :
  Permutation Examples.normal_and_warn.(Driver.results)
    MoreExamples.warn_and_normal.(Driver.results) /\
  Driver.Level Examples.RuleLevelNormal Examples.RuleLevelNotice
    Examples.RuleLevelWarn Examples.RuleLevelError Examples.normal_and_warn
  = Driver.Level Examples.RuleLevelNormal Examples.RuleLevelNotice
      Examples.RuleLevelWarn Examples.RuleLevelError
      MoreExamples.warn_and_normal.
Proof.
  assert (Hp : Permutation Examples.normal_and_warn.(Driver.results)
                 MoreExamples.warn_and_normal.(Driver.results))
    by apply perm_swap.
  split; [exact Hp|].
  apply (Level_Permutation Examples.RuleLevelNormal Examples.RuleLevelNotice
           Examples.RuleLevelWarn Examples.RuleLevelError
           Examples.normal_and_warn MoreExamples.warn_and_normal
           example_levels_NoDup); [|exact Hp].
  repeat constructor; simpl; tauto.
Defined.

Lemma Message_reformat_witness :
  Forall
    (fun r =>
       In r.(Driver.level)
          [Examples.RuleLevelNormal; Examples.RuleLevelNotice;
           Examples.RuleLevelWarn; Examples.RuleLevelError])
    Examples.normal_and_warn.(Driver.results) /\
  Driver.Message Examples.RuleLevelNormal Examples.RuleLevelNotice
    Examples.RuleLevelWarn Examples.RuleLevelError
    {| Driver.results :=
         [{| Driver.level := Examples.RuleLevelNormal;
             Driver.message := "[Normal]table created" |};
          {| Driver.level := Examples.RuleLevelWarn;
             Driver.message := "[Warn]no primary key" |}] |}
  = Driver.Message Examples.RuleLevelNormal Examples.RuleLevelNotice
      Examples.RuleLevelWarn Examples.RuleLevelError Examples.normal_and_warn.
Proof.
  assert (Hk : Forall
                 (fun r =>
                    In r.(Driver.level)
                       [Examples.RuleLevelNormal; Examples.RuleLevelNotice;
                        Examples.RuleLevelWarn; Examples.RuleLevelError])
                 Examples.normal_and_warn.(Driver.results))
    by (repeat constructor; simpl; tauto).
  split; [exact Hk|].
  exact (Message_reformat Examples.RuleLevelNormal Examples.RuleLevelNotice
           Examples.RuleLevelWarn Examples.RuleLevelError
           Examples.normal_and_warn eq_refl eq_refl eq_refl eq_refl Hk).
Defined.

Lemma checkIndex_AlterTable_witness :
  MoreExamples.getCreateTableStmt Examples.inspector
    (Examples.getTableName Examples.inspector
       Examples.alter_t0.(AlterTableStmt.Table))
  = (Examples.inspector, Some MoreExamples.created_t0, None) /\
  exists i',
    checkIndex (E := string) Examples.getTableName
      MoreExamples.getCreateTableStmt Examples.inspector
      (AlterTable Examples.alter_t0) DDL_CHECK_INDEX_COUNT
    = (i', Returned None) /\
    i'.(Results) = [{| rule := DDL_CHECK_INDEX_COUNT; args := [] |}].
Proof.
  split; [reflexivity|].
  exact (checkIndex_AlterTable string unit Examples.getTableName
           MoreExamples.getCreateTableStmt Examples.inspector
           Examples.inspector Examples.alter_t0 DDL_CHECK_INDEX_COUNT
           (Some MoreExamples.created_t0) None eq_refl).
Defined.

Lemma checkIndex_CreateIndex_witness :
  MoreExamples.getCreateTableStmt Examples.inspector
    (Examples.getTableName Examples.inspector
       MoreExamples.create_index_doc.(CreateIndexStmt.Table))
  = (Examples.inspector, Some MoreExamples.created_t0, None) /\
  exists i',
    checkIndex (E := string) Examples.getTableName
      MoreExamples.getCreateTableStmt Examples.inspector
      (CreateIndex MoreExamples.create_index_doc) DDL_CHECK_INDEX_COUNT
    = (i', Returned None) /\
    i'.(Results) = [{| rule := DDL_CHECK_INDEX_COUNT; args := [] |}].
Proof.
  split; [reflexivity|].
  exact (checkIndex_CreateIndex string unit Examples.getTableName
           MoreExamples.getCreateTableStmt Examples.inspector
           Examples.inspector MoreExamples.create_index_doc
           DDL_CHECK_INDEX_COUNT (Some MoreExamples.created_t0) None
           eq_refl).
Defined.

Lemma checkNewObjectName_bytes_witness :
  newObjectNames (CreateTable MoreExamples.create_wide)
  = Names [MoreExamples.wide_name; "id"] /\
  characters MoreExamples.wide_name = 22 /\
  String.length MoreExamples.wide_name = 66 /\
  exists i' added,
    checkNewObjectName (E := string) Examples.IsMysqlReservedKeyword
      Examples.inspector (CreateTable MoreExamples.create_wide)
      DDL_CHECK_OBJECT_NAME_LENGTH = (i', Returned None) /\
    i'.(Results) = Examples.inspector.(Results) ++ added /\
    exists f, In f added /\ f.(rule) = DDL_CHECK_OBJECT_NAME_LENGTH.
Proof.
  split; [reflexivity|]. split; [reflexivity|]. split; [reflexivity|].
  destruct (checkNewObjectName_bytes string unit
              Examples.IsMysqlReservedKeyword Examples.inspector
              (CreateTable MoreExamples.create_wide)
              DDL_CHECK_OBJECT_NAME_LENGTH
              [MoreExamples.wide_name; "id"] eq_refl)
    as (i' & added & Hrun & Hres & Hlen & _).
  exists i', added. split; [exact Hrun|]. split; [exact Hres|].
  apply Hlen. exists MoreExamples.wide_name. split; [now left|].
  vm_compute. lia.
Defined.

Lemma checkMergeAlterTable_session_witness :
  MoreExamples.merge_inspector.(ctx).(alterTableStmts) !! "t0" = None /\
  (fold_left
     (fun i stmt =>
        fst (checkMergeAlterTable (E := string)
               MoreExamples.merge_getTableName i (AlterTable stmt)
               DDL_CHECK_ALTER_TABLE_NEED_MERGE))
     [Examples.alter_t0; Examples.alter_t0; Examples.alter_t0]
     MoreExamples.merge_inspector).(Results)
  = [{| rule := DDL_CHECK_ALTER_TABLE_NEED_MERGE; args := [] |};
     {| rule := DDL_CHECK_ALTER_TABLE_NEED_MERGE; args := [] |}].
Proof.
  split; [reflexivity|].
  destruct (checkMergeAlterTable_session string unit
              MoreExamples.merge_getTableName
              DDL_CHECK_ALTER_TABLE_NEED_MERGE "t0"
              [Examples.alter_t0; Examples.alter_t0; Examples.alter_t0]
              MoreExamples.merge_inspector) as (Hres & _ & _).
  - intros stmt j [<-|[<-|[<-|[]]]]; reflexivity.
  - reflexivity.
  - discriminate.
  - exact Hres.
Defined.

Lemma blobIndex_AlterTable_no_columns_witness :
  Forall (fun spec => spec.(AlterTableSpec.NewColumns) = [])
    Examples.alter_t0.(AlterTableStmt.Specs) /\
  disableAddIndexForColumnsTypeBlob (E := string) Examples.getTableName
    MoreExamples.MysqlDataTypeIsBlob MoreExamples.getCreateTableStmt
    Examples.inspector (AlterTable Examples.alter_t0)
    DDL_DISABLE_INDEX_DATA_TYPE_BLOB
  = (Examples.inspector, Returned None).
Proof.
  assert (H : Forall (fun spec => spec.(AlterTableSpec.NewColumns) = [])
                Examples.alter_t0.(AlterTableStmt.Specs))
    by (repeat constructor).
  split; [exact H|].
  exact (blobIndex_AlterTable_no_columns string unit Examples.getTableName
           MoreExamples.MysqlDataTypeIsBlob MoreExamples.getCreateTableStmt
           Examples.inspector Examples.alter_t0
           DDL_DISABLE_INDEX_DATA_TYPE_BLOB H).
Defined.

Lemma blobIndex_CreateIndex_witness :
  MoreExamples.getCreateTableStmt Examples.inspector
    (Examples.getTableName Examples.inspector
       MoreExamples.create_index_doc.(CreateIndexStmt.Table))
  = (Examples.inspector, Some MoreExamples.created_t0, None) /\
  exists i',
    disableAddIndexForColumnsTypeBlob (E := string) Examples.getTableName
      MoreExamples.MysqlDataTypeIsBlob MoreExamples.getCreateTableStmt
      Examples.inspector (CreateIndex MoreExamples.create_index_doc)
      DDL_DISABLE_INDEX_DATA_TYPE_BLOB = (i', Returned None).
Proof.
  split; [reflexivity|].
  destruct (blobIndex_CreateIndex string unit Examples.getTableName
              MoreExamples.MysqlDataTypeIsBlob
              MoreExamples.getCreateTableStmt Examples.inspector
              Examples.inspector MoreExamples.create_index_doc
              DDL_DISABLE_INDEX_DATA_TYPE_BLOB
              (Some MoreExamples.created_t0) None eq_refl)
    as (i' & Hrun & _).
  exists i'. exact Hrun.
Defined.


Lemma Advise_parse_error_witness :
  Examples.parseOneSql "mysql" "SELEC 1" = inr "syntax error: SELEC 1" /\
  Examples.Advise Examples.inspector MoreExamples.create_then_typo
  = (Examples.closeDbConn Examples.after_create_t2,
     [Examples.inspected_t2;
      Examples.statement "SELEC 1";
      Examples.statement "CREATE TABLE t1 (id INT)"],
     Returned (Some "syntax error: SELEC 1")).
Proof.
  split; [reflexivity|].
  apply (Advise_parse_error string unit Examples.parseOneSql
           Examples.RulesFunc Examples.updateSchemaCtx Examples.closeDbConn
           Examples.Results_level Examples.Results_message
           Examples.TASK_ACTION_DONE Examples.SQL_STMT_CONFLICT_ERROR
           Examples.inspector Examples.after_create_t2
           [Examples.statement "CREATE TABLE t2 (id INT)"]
           [Examples.inspected_t2]
           [Examples.statement "CREATE TABLE t1 (id INT)"]
           (Examples.statement "SELEC 1") "syntax error: SELEC 1");
    vm_compute; reflexivity.
Defined.

Lemma runRules_without_function_witness :
  Examples.RulesFunc !! DDL_CREATE_TABLE_NOT_EXIST = Some None /\
  Examples.RulesFunc !! "no_such_rule" = None /\
  (fst (runRules Examples.RulesFunc Examples.inspector
          (CreateTable Examples.create_t2)
          MoreExamples.rules_without_function)).(Results) = [].
Proof.
  assert (H1 : Examples.RulesFunc !! DDL_CREATE_TABLE_NOT_EXIST = Some None)
    by reflexivity.
  assert (H2 : Examples.RulesFunc !! "no_such_rule" = None) by reflexivity.
  split; [exact H1|]. split; [exact H2|].
  rewrite (runRules_without_function string unit Examples.RulesFunc
             Examples.inspector (CreateTable Examples.create_t2)
             MoreExamples.rules_without_function).
  - reflexivity.
  - constructor; [right; exact H1|].
    constructor; [left; exact H2|]. constructor.
Defined.

Lemma runRules_fail_fast_witness :
  runRules Examples.RulesFunc Examples.inspector
    (AlterTable Examples.alter_t0) Examples.rules
  = (set_currentRule Examples.inspector
       {| Name := DDL_CHECK_INDEX_COUNT; Level := Examples.RuleLevelError |},
     Returned (Some "connection refused")).
Proof.
  apply (runRules_fail_fast string unit Examples.RulesFunc
           Examples.inspector
           (set_currentRule Examples.inspector
              {| Name := DDL_CHECK_PRIMARY_KEY_EXIST;
                 Level := Examples.RuleLevelError |})
           (set_currentRule Examples.inspector
              {| Name := DDL_CHECK_INDEX_COUNT;
                 Level := Examples.RuleLevelError |})
           (AlterTable Examples.alter_t0)
           [{| Name := DDL_CHECK_PRIMARY_KEY_EXIST;
               Level := Examples.RuleLevelError |}]
           [{| Name := DDL_CREATE_TABLE_NOT_EXIST;
               Level := Examples.RuleLevelError |}]
           {| Name := DDL_CHECK_INDEX_COUNT;
              Level := Examples.RuleLevelError |}
           (checkIndex Examples.getTableName Examples.getCreateTableStmt)
           (Returned (Some "connection refused")));
    first [reflexivity | discriminate].
Defined.

Lemma Advise_leaves_no_findings_witness :
  Examples.Advise Examples.inspector MoreExamples.two_creates
  = (MoreExamples.advised_two_creates.1,
     MoreExamples.advised_two_creates.2, Returned None) /\
  MoreExamples.advised_two_creates.1.(Results) = [] /\
  Forall (fun sql => sql.(InspectStatus) = Examples.TASK_ACTION_DONE)
    MoreExamples.advised_two_creates.2.
Proof.
  assert (H : Examples.Advise Examples.inspector MoreExamples.two_creates
              = (MoreExamples.advised_two_creates.1,
                 MoreExamples.advised_two_creates.2, Returned None))
    by (vm_compute; reflexivity).
  split; [exact H|].
  apply (Advise_leaves_no_findings string unit Examples.parseOneSql
           Examples.RulesFunc Examples.updateSchemaCtx Examples.closeDbConn
           Examples.Results_level Examples.Results_message
           Examples.TASK_ACTION_DONE Examples.SQL_STMT_CONFLICT_ERROR
           Examples.inspector _ MoreExamples.two_creates _
           (fun j => eq_refl) H).
  discriminate.
Defined.

Lemma Advise_kind_outlives_batch_witness :
  Examples.Advise Examples.inspector
    [Examples.statement "CREATE TABLE t1 (id INT)"]
  = (MoreExamples.advised_create_t1.1, MoreExamples.advised_create_t1.2,
     Returned None) /\
  Examples.Advise MoreExamples.advised_create_t1.1
    [Examples.statement "SELECT * FROM t1"]
  = (Examples.closeDbConn MoreExamples.advised_create_t1.1,
     [Examples.statement "SELECT * FROM t1"],
     Returned (Some Examples.SQL_STMT_CONFLICT_ERROR)).
Proof.
  assert (H : Examples.Advise Examples.inspector
                [Examples.statement "CREATE TABLE t1 (id INT)"]
              = (MoreExamples.advised_create_t1.1,
                 MoreExamples.advised_create_t1.2, Returned None))
    by (vm_compute; reflexivity).
  split; [exact H|].
  apply (Advise_kind_outlives_batch string unit Examples.parseOneSql
           Examples.RulesFunc Examples.updateSchemaCtx Examples.closeDbConn
           Examples.Results_level Examples.Results_message
           Examples.TASK_ACTION_DONE Examples.SQL_STMT_CONFLICT_ERROR
           Examples.inspector MoreExamples.advised_create_t1.1
           [Examples.statement "CREATE TABLE t1 (id INT)"]
           MoreExamples.advised_create_t1.2 []
           (Examples.statement "CREATE TABLE t1 (id INT)")
           (Examples.statement "SELECT * FROM t1")
           (CreateTable Examples.create_t1_int) Select).
  - exact example_checks_keep_session.
  - intros i node. repeat split.
  - intros j. repeat split.
  - exact H.
  - now left.
  - reflexivity.
  - reflexivity.
  - left. split; reflexivity.
Defined.
